(** * Conversation-turn engine of the bot server: a shallow embedding

    The development follows the server sources:
    - [JsString]        the string primitives of the runtime the code relies on
                        ([toLowerCase], [includes], [trim], character classes);
    - [ModelDiscovery]  [getModelScore] of server/modelDiscovery.ts;
    - [Order]           stable sorting, as [Array.prototype.sort] and ORDER BY do it;
    - [Db]              the SQLite tables touched by a turn, as lists of rows;
    - [KeyDiscovery]    what [refreshKeyModels] stores for a credential;
    - [Gemini]          [chatWithGemini] of server/gemini.ts: tool declarations,
                        credential selection, memory query, tool handlers,
                        candidate cascade, logging;
    - [Server]          the callers in server/index.ts;
    - [Statements], [Scenario]  the vocabulary and the sample data of the
                        properties of the turn;
    - [Observations]    what a turn leaves alone, and what it declares;
    - [Personality]     server/personality.ts: the personas of a tenant;
    - [ChatLogs]        [getRecentChatLogs] and [getChatLogsForUser] of
                        server/chatLogs.ts, the history a chat session starts
                        with, and the clearing of a session;
    - [FileStorage]     server/fileStorage.ts: the media files and their
                        records, the statistics and the retention job;
    - [Routes]          handlers of server/index.ts: the buffer of system
                        logs, keys, memories and the switches of the tools;
    - [Views], [Cases]  the vocabulary and the sample data of their
                        properties.
    The properties follow in the second half, one module of facts per part.

    Strings are sequences of code units below 256.  The numbers computed by
    [getModelScore] are exact rationals; the doubles of the runtime order two
    scores the same way for version tokens of ordinary length.  The provider,
    the network side of the tools, the evaluator, identifiers and clocks are
    the [runtime] a turn is run against.  The system instruction, the history
    and the generation settings are fixed before the first provider call and
    are the same in every call of a turn; they are left to the provider side,
    apart from the declared tools and the injected memories; the history is
    modelled on its own in [ChatLogs].  The file system is a map from paths
    to contents; joining and splitting paths, and the refusals of the
    operating system, are the [file_system] the storage is run against. *)

From Stdlib Require Import String Ascii List Bool Arith ZArith QArith Lia.
From Stdlib Require Import Sorted OrderedTypeEx Lqa.
Import ListNotations.

Open Scope string_scope.
Open Scope list_scope.

(** String concatenation ([+] on strings, template literals). *)
Infix "+++" := String.append (right associativity, at level 60).

(* ------------------------------------------------------------------ *)
(** ** String primitives *)

Module JsString.

Definition code (c : ascii) : nat := nat_of_ascii c.

Definition between (lo hi n : nat) : bool := (lo <=? n)%nat && (n <=? hi)%nat.

(** [String.prototype.toLowerCase] on code units below 256: A-Z and the
    Latin-1 capitals (all of 192..222 but the multiplication sign). *)
Definition lower_char (c : ascii) : ascii :=
  let n := code c in
  if between 65 90 n || (between 192 222 n && negb (n =? 215)%nat)
  then ascii_of_nat (n + 32) else c.

Fixpoint toLowerCase (s : string) : string :=
  match s with
  | EmptyString => EmptyString
  | String c s' => String (lower_char c) (toLowerCase s')
  end.

(** [s.includes(sub)] *)
Fixpoint includes (s sub : string) : bool :=
  prefix sub s ||
  match s with
  | EmptyString => false
  | String _ s' => includes s' sub
  end.

Fixpoint drop (n : nat) (s : string) : string :=
  match n, s with
  | O, _ => s
  | S n', String _ s' => drop n' s'
  | S _, EmptyString => EmptyString
  end.

Definition is_digit (c : ascii) : bool := between 48 57 (code c).

(** The class [\s] on code units below 256: TAB, LF, VT, FF, CR, SPACE, NBSP. *)
Definition is_space (c : ascii) : bool :=
  let n := code c in between 9 13 n || (n =? 32)%nat || (n =? 160)%nat.

Fixpoint all_chars (p : ascii -> bool) (s : string) : bool :=
  match s with
  | EmptyString => true
  | String c s' => p c && all_chars p s'
  end.

Fixpoint trimStart (s : string) : string :=
  match s with
  | EmptyString => EmptyString
  | String c s' => if is_space c then trimStart s' else s
  end.

Fixpoint trimEnd (s : string) : string :=
  match s with
  | EmptyString => EmptyString
  | String c s' =>
      match trimEnd s' with
      | EmptyString => if is_space c then EmptyString else String c EmptyString
      | t => String c t
      end
  end.

(** [String.prototype.trim] *)
Definition trim (s : string) : string := trimEnd (trimStart s).

(** Truthiness of a string value: the empty string is falsy. *)
Definition truthy (s : string) : bool :=
  match s with EmptyString => false | _ => true end.

(** Truthiness of a nullable string ([null], [undefined] and [''] are falsy). *)
Definition otruthy (o : option string) : bool :=
  match o with Some s => truthy s | None => false end.

(** [a || b] on nullable strings. *)
Definition or_else (a b : option string) : option string :=
  if otruthy a then a else b.

End JsString.

(* ------------------------------------------------------------------ *)
(** ** Model scorer (server/modelDiscovery.ts) *)

Module ModelDiscovery.
Import JsString.

(** The longest run of decimal digits at the start of [s], and the rest. *)
Fixpoint span_digits (s : string) : string * string :=
  match s with
  | EmptyString => (EmptyString, EmptyString)
  | String c s' =>
      if is_digit c
      then let (d, r) := span_digits s' in (String c d, r)
      else (EmptyString, s)
  end.

(** A numeric token: its integer digits and, when present, its fraction digits. *)
Record version_token := { int_digits : string; frac_digits : option string }.

(** [(\d+(\.\d+)?)] anchored at the start of [s] (greedy). *)
Definition match_number (s : string) : option version_token :=
  let (d, r) := span_digits s in
  match d with
  | EmptyString => None
  | _ =>
      match r with
      | String "."%char r' =>
          let (f, _) := span_digits r' in
          match f with
          | EmptyString => Some {| int_digits := d; frac_digits := None |}
          | _ => Some {| int_digits := d; frac_digits := Some f |}
          end
      | _ => Some {| int_digits := d; frac_digits := None |}
      end
  end.

(** [lower.match(/gemini-(\d+(\.\d+)?)/)]: capture 1 of the leftmost match. *)
Fixpoint vMatch (s : string) : option version_token :=
  match (if prefix "gemini-" s then match_number (drop 7 s) else None) with
  | Some v => Some v
  | None =>
      match s with
      | EmptyString => None
      | String _ s' => vMatch s'
      end
  end.

Definition digit_val (c : ascii) : Z := Z.of_nat (code c - 48).

Fixpoint digits_val (acc : Z) (s : string) : Z :=
  match s with
  | EmptyString => acc
  | String c s' => digits_val (10 * acc + digit_val c) s'
  end.

(** [parseFloat] on a token [d] or [d.f]. *)
Definition parseFloat (v : version_token) : Q :=
  match frac_digits v with
  | None => inject_Z (digits_val 0 (int_digits v))
  | Some f =>
      (inject_Z (digits_val 0 (int_digits v))
       + (digits_val 0 f # Pos.pow 10 (Pos.of_nat (String.length f))))%Q
  end.

(** 1. Version extraction *)
Definition versionScore (lower : string) : Q :=
  match vMatch lower with
  | Some v => (parseFloat v * 1000)%Q
  | None => if includes lower "gemini-pro" then 1000%Q else 0%Q
  end.

(** 2. Tier capability *)
Definition tierBonus (lower : string) : Q :=
  (if includes lower "gemini-3" && includes lower "flash" then 2000
   else if includes lower "gemini-3" then 60
   else if includes lower "ultra" then 50
   else if includes lower "pro" then 40
   else if includes lower "flash" then 30
   else if includes lower "nano" then 10
   else 20)%Q.

(** 3. Modifiers *)
Definition modifierBonus (lower : string) : Q :=
  ((if includes lower "preview" then 5 else 0)
   + (if includes lower "experimental" then 1 else 0)
   + (if includes lower "vision" then 2 else 0))%Q.

Definition getModelScore (name : string) : Q :=
  let lower := toLowerCase name in
  (0 + versionScore lower + tierBonus lower + modifierBonus lower)%Q.

End ModelDiscovery.


(* ------------------------------------------------------------------ *)
(** ** Ordering helpers: [Array.prototype.sort] and [ORDER BY]

    Both sorts are stable for a comparator that is a total preorder, and the
    stable sorted arrangement of a list is unique: insertion from the right
    computes it.  [le x y] reads: the comparator does not put [y] before [x]. *)

Module Order.

Section Sorting.
Context {A : Type}.
Variable le : A -> A -> bool.

Fixpoint insert_by (x : A) (l : list A) : list A :=
  match l with
  | [] => [x]
  | y :: l' => if le x y then x :: l else y :: insert_by x l'
  end.

Definition sort_by (l : list A) : list A := fold_right insert_by [] l.

End Sorting.

(** [before x y l]: some occurrence of [x] in [l] strictly precedes some
    occurrence of [y]. *)
Definition before {A : Type} (x y : A) (l : list A) : Prop :=
  exists l1 l2 l3, l = l1 ++ x :: l2 ++ y :: l3.

End Order.

(* ------------------------------------------------------------------ *)
(** ** The database (server/db.ts)

    A table is the list of its rows in insertion order.  Nullable columns
    are options.  A TEXT column that holds JSON is represented by the value
    the text parses to ([Unparsable] when [JSON.parse] throws on it). *)

Module Db.

#[warnings="-register-all"]
Inductive json :=
| JNull
| JBool (b : bool)
| JNum (n : Z)
| JStr (s : string)
| JArr (items : list json)
| JObj (fields : list (string * json)).

Inductive json_text :=
| Unparsable
| Parses (j : json).

(** One entry of [available_models] as the discovery service writes it. *)
Record model_info := {
  mi_name : string;
  mi_inputTokenLimit : Z;
  mi_outputTokenLimit : Z
}.

(** The non-empty contents of [gemini_keys.available_models]: an array of
    model names (old format), an array of model objects (new format), text
    that does not parse, or text that parses to a JSON object, number,
    boolean or null.  Arrays mixing strings and objects, and arrays of
    objects without a string [name], do not occur in the table. *)
Inductive models_text :=
| ModelsUnparsable
| ModelsNames (names : list string)
| ModelsInfos (infos : list model_info)
| ModelsNotArray.

(** gemini_keys; [available_models = None] stands for NULL or ''. *)
Record gemini_key := {
  key_id : string;
  key_secret : string;
  key_status : option string;
  last_used_at : option string;
  key_user_id : option string;
  best_model : option string;
  available_models : option models_text
}.

Record tool := {
  tool_id : string;
  tool_name : string;
  tool_endpoint : string;
  tool_api_key : option string;
  tool_description : option string;
  tool_is_active : Z;
  tool_is_admin_only : Z;
  tool_user_id : option string;
  tool_method : option string;
  tool_headers : option json_text;
  tool_parameter_schema : option json_text;
  tool_auth_type : option string;
  tool_auth_param_name : option string
}.

Record user_memory := {
  mem_id : string;
  mem_user_id : string;
  mem_content : string;
  mem_created_at : string;
  mem_memory_type : option string;
  mem_platform : option string;
  mem_external_id : option string
}.

Record platform_admin := {
  pa_user_id : option string;
  pa_platform : string;
  pa_platform_user_id : string
}.

Record platform_integration := {
  pi_user_id : option string;
  pi_platform : string;
  pi_share_active_memory : option Z
}.

Record user_settings := {
  us_user_id : string;
  us_preferred_model : option string;
  us_enable_web_search : option Z;
  us_enable_weather : option Z;
  us_enable_calculator : option Z;
  us_enable_scraper : option Z;
  us_enable_github : option Z;
  us_enable_currency : option Z
}.

Inductive role := RoleUser | RoleModel.

Inductive chat_type := Private | Group.

Record chat_log := {
  cl_id : string;
  cl_user_id : string;
  cl_chat_id : string;
  cl_platform : string;
  cl_role : role;
  cl_content : string;
  cl_raw_response : option string;
  cl_chat_type : chat_type;
  cl_group_id : option string;
  cl_sender_id : option string;
  cl_sender_name : option string
}.

(** bot_logs; [request_payload] is the JSON object [{prompt, chatId}]. *)
Record bot_log := {
  bl_id : string;
  bl_request_payload : json;
  bl_response_payload : string;
  bl_raw_response : string;
  bl_api_key_used : string;
  bl_user_id : string;
  bl_chat_id : string;
  bl_model_used : string;
  bl_token_usage : option string
}.

Record playground_message := {
  pm_id : string;
  pm_chat_id : string;
  pm_role : string;
  pm_content : string;
  pm_user_id : string
}.

Record database := {
  gemini_keys : list gemini_key;
  tools : list tool;
  user_memories : list user_memory;
  platform_admins : list platform_admin;
  platform_integrations : list platform_integration;
  user_settings_table : list user_settings;
  chat_logs : list chat_log;
  bot_logs : list bot_log;
  playground_history : list playground_message
}.

(** [column = ?]: false as soon as either side is NULL. *)
Definition sql_eq (column param : option string) : bool :=
  match column, param with
  | Some a, Some b => (a =? b)%string
  | _, _ => false
  end.

Definition sql_is_null {A : Type} (column : option A) : bool :=
  match column with None => true | Some _ => false end.

(** Ascending TEXT order with NULL first (binary collation). *)
Definition sql_le (a b : option string) : bool :=
  match a, b with
  | None, _ => true
  | Some _, None => false
  | Some x, Some y => (x <=? y)%string
  end.

Definition with_tools (d : database) (t : list tool) : database :=
  {| gemini_keys := gemini_keys d; tools := t; user_memories := user_memories d;
     platform_admins := platform_admins d;
     platform_integrations := platform_integrations d;
     user_settings_table := user_settings_table d; chat_logs := chat_logs d;
     bot_logs := bot_logs d; playground_history := playground_history d |}.

Definition with_user_memories (d : database) (m : list user_memory) : database :=
  {| gemini_keys := gemini_keys d; tools := tools d; user_memories := m;
     platform_admins := platform_admins d;
     platform_integrations := platform_integrations d;
     user_settings_table := user_settings_table d; chat_logs := chat_logs d;
     bot_logs := bot_logs d; playground_history := playground_history d |}.

Definition with_gemini_keys (d : database) (k : list gemini_key) : database :=
  {| gemini_keys := k; tools := tools d; user_memories := user_memories d;
     platform_admins := platform_admins d;
     platform_integrations := platform_integrations d;
     user_settings_table := user_settings_table d; chat_logs := chat_logs d;
     bot_logs := bot_logs d; playground_history := playground_history d |}.

Definition with_chat_logs (d : database) (c : list chat_log) : database :=
  {| gemini_keys := gemini_keys d; tools := tools d;
     user_memories := user_memories d; platform_admins := platform_admins d;
     platform_integrations := platform_integrations d;
     user_settings_table := user_settings_table d; chat_logs := c;
     bot_logs := bot_logs d; playground_history := playground_history d |}.

Definition with_bot_logs (d : database) (b : list bot_log) : database :=
  {| gemini_keys := gemini_keys d; tools := tools d;
     user_memories := user_memories d; platform_admins := platform_admins d;
     platform_integrations := platform_integrations d;
     user_settings_table := user_settings_table d; chat_logs := chat_logs d;
     bot_logs := b; playground_history := playground_history d |}.

Definition with_playground_history (d : database) (p : list playground_message)
  : database :=
  {| gemini_keys := gemini_keys d; tools := tools d;
     user_memories := user_memories d; platform_admins := platform_admins d;
     platform_integrations := platform_integrations d;
     user_settings_table := user_settings_table d; chat_logs := chat_logs d;
     bot_logs := bot_logs d; playground_history := p |}.

End Db.

(* ------------------------------------------------------------------ *)
(** ** Model discovery (server/modelDiscovery.ts): what is stored *)

Module KeyDiscovery.
Import JsString ModelDiscovery Order Db.

(** One entry of the provider's model listing. *)
Record remote_model := {
  rm_name : string;
  rm_supportedGenerationMethods : option (list string);
  rm_inputTokenLimit : Z;
  rm_outputTokenLimit : Z
}.

(** [name.replace('models/', '')]: the first occurrence is removed. *)
Fixpoint remove_first (sub s : string) : string :=
  if prefix sub s then drop (String.length sub) s
  else match s with
       | EmptyString => EmptyString
       | String c s' => String c (remove_first sub s')
       end.

(** Filter for content generation models. *)
Definition available_of (models : list remote_model) : list model_info :=
  map (fun m => {| mi_name := remove_first "models/" (rm_name m);
                   mi_inputTokenLimit := rm_inputTokenLimit m;
                   mi_outputTokenLimit := rm_outputTokenLimit m |})
      (filter (fun m => match rm_supportedGenerationMethods m with
                        | Some methods =>
                            existsb (String.eqb "generateContent") methods
                        | None => false
                        end) models).

Definition by_info_score (a b : model_info) : bool :=
  Qle_bool (getModelScore (mi_name b)) (getModelScore (mi_name a)).

(** The update [refreshKeyModels] applies to the row of a key once the
    listing has arrived: the sorted model objects and the best model. *)
Definition store_discovery (models : list remote_model) (k : gemini_key)
  : gemini_key :=
  match sort_by by_info_score (available_of models) with
  | [] => k
  | best :: others =>
      {| key_id := key_id k; key_secret := key_secret k;
         key_status := key_status k; last_used_at := last_used_at k;
         key_user_id := key_user_id k;
         best_model := Some (mi_name best);
         available_models := Some (ModelsInfos (best :: others)) |}
  end.

End KeyDiscovery.

(* ------------------------------------------------------------------ *)
(** ** The engine (server/gemini.ts) *)

Module Gemini.
Import JsString ModelDiscovery Order Db.

(** *** Values exchanged with the provider and the tools *)

(** How a call into the runtime or the network ends. *)
Inductive completion (A : Type) :=
| Normal (value : A)
| Throw (message : string).
Arguments Normal {A} value.
Arguments Throw {A} message.

Record function_call := {
  fc_name : string;
  fc_args : list (string * json)
}.

(** [response: { content }] or [response: { error }] *)
Inductive tool_payload :=
| Content (text : string)
| ErrorMessage (text : string).

Record function_response := {
  fr_name : string;
  fr_response : tool_payload
}.

Record media_item := {
  media_data : string;
  media_mimeType : string
}.

Inductive message :=
| Parts (prompt : string) (media : list media_item)
| FunctionResponses (responses : list function_response).

(** What the accessors [text()] and [functionCalls()] of a response give:
    both throw on a blocked response. *)
Inductive response_body :=
| Blocked (message : string)
| Candidate (text : string) (calls : list function_call).

Record response := {
  resp_json : string;
  resp_usageMetadata : option string;
  resp_body : response_body
}.

Inductive parameters :=
| ObjectSchema (properties : list (string * string)) (required : list string)
| StoredSchema (schema : json).

Record declaration := {
  decl_name : string;
  decl_description : option string;
  decl_parameters : parameters
}.

(** What a chat session is opened with, besides the model name. *)
Record session := {
  session_tools : list declaration;
  session_memories : list user_memory
}.

(** The world outside the function.  Every consultation is indexed by a
    counter that advances with each use, so that answers may depend on time. *)
Record runtime := {
  sendMessage : nat -> string -> string -> session -> message -> completion response;
  webSearch : nat -> option json -> string;
  getWeather : nat -> option json -> string;
  simpleScrape : nat -> option json -> string;
  getGithubRepo : nat -> option json -> option json -> string;
  convertCurrency : nat -> option json -> option json -> option json -> string;
  downloadMedia : nat -> string -> option string -> string;
  webhook : nat -> tool -> list (string * json) -> completion string;
  js_eval : string -> completion string;
  stringify : json -> string;
  uuidv4 : nat -> string;
  iso_now : nat -> string;
  date_now : nat -> string;
  sql_now : nat -> string;
  runtime_error : nat -> string
}.

(** *** Observable events of a turn *)

Inductive event :=
| Sent (keyObj : gemini_key) (modelName : string) (msg : message)
| ToolStarted (call : function_call)
| Evaluated (expression : string)
| Warned (keyObj : gemini_key) (modelName : string) (errorMessage : string)
| Exhausted (keyObj : gemini_key).

(** *** State, events and the monad threading them *)

Record world := {
  db : database;
  tick : nat
}.

Definition M (A : Type) : Type := world -> A * world * list event.

Definition ret {A : Type} (a : A) : M A := fun w => (a, w, []).

Definition bind {A B : Type} (m : M A) (f : A -> M B) : M B :=
  fun w =>
    let '(a, w1, e1) := m w in
    let '(b, w2, e2) := f a w1 in
    (b, w2, e1 ++ e2).

Notation "x <- m ;; k" := (bind m (fun x => k))
  (at level 61, m at next level, right associativity).
Notation "m ;;; k" := (bind m (fun _ => k))
  (at level 61, right associativity).

Definition next_tick : M nat :=
  fun w => (tick w, {| db := db w; tick := S (tick w) |}, []).

Definition read_db : M database := fun w => (db w, w, []).

Definition modify_db (f : database -> database) : M unit :=
  fun w => (tt, {| db := f (db w); tick := tick w |}, []).

Definition emit (e : event) : M unit := fun w => (tt, w, [e]).

Definition result_of {A : Type} (r : A * world * list event) : A := fst (fst r).
Definition world_of {A : Type} (r : A * world * list event) : world := snd (fst r).
Definition events_of {A : Type} (r : A * world * list event) : list event := snd r.

(** *** Call metadata and its defaults *)

Record metadata := {
  md_platform : option string;
  md_chatType : option chat_type;
  md_groupId : option string;
  md_senderId : option string;
  md_senderName : option string;
  md_modelOverride : option string
}.

Definition no_metadata : metadata :=
  {| md_platform := None; md_chatType := None; md_groupId := None;
     md_senderId := None; md_senderName := None; md_modelOverride := None |}.

Definition platform_of (md : metadata) : string :=
  match md_platform md with Some p => p | None => "playground" end.

Definition chatType_of (md : metadata) : chat_type :=
  match md_chatType md with Some c => c | None => Private end.

(** *** Admin status and settings *)

Definition is_admin (d : database) (userId platform : string)
  (senderId : option string) : bool :=
  if (platform =? "playground")%string || (platform =? "web")%string then true
  else if otruthy senderId then
    existsb (fun a => sql_eq (pa_user_id a) (Some userId)
                      && (pa_platform a =? platform)%string
                      && sql_eq (Some (pa_platform_user_id a)) senderId)
            (platform_admins d)
  else false.

Definition settings_of (d : database) (userId : string) : option user_settings :=
  find (fun s => (us_user_id s =? userId)%string) (user_settings_table d).

(** [modelOverride || settings?.preferred_model || 'auto'] *)
Definition preferred_model (settings : option user_settings)
  (modelOverride : option string) : string :=
  match or_else modelOverride
          (or_else (match settings with
                    | Some s => us_preferred_model s
                    | None => None
                    end) (Some "auto")) with
  | Some m => m
  | None => "auto"
  end.

(** [settings?.flag !== 0] *)
Definition enabled (settings : option user_settings)
  (flag : user_settings -> option Z) : bool :=
  match settings with
  | None => true
  | Some s => match flag s with Some 0%Z => false | _ => true end
  end.

(** *** 1.1 Tool definitions *)

Definition builtin (name description : string)
  (properties : list (string * string)) (required : list string) : declaration :=
  {| decl_name := name; decl_description := Some description;
     decl_parameters := ObjectSchema properties required |}.

Definition decl_webSearch : declaration :=
  builtin "webSearch"
    "Search the web for information. Use this when you need current events, news, or specific facts."
    [("query", "string")] ["query"].

Definition decl_getWeather : declaration :=
  builtin "getWeather" "Get current weather for a location."
    [("location", "string")] ["location"].

Definition decl_calculator : declaration :=
  builtin "calculator" "Perform mathematical calculations safely."
    [("expression", "string")] ["expression"].

Definition decl_scrapeUrl : declaration :=
  builtin "scrapeUrl"
    "Read the content of a specific webpage URL. Use this to get detailed content from a search result."
    [("url", "string")] ["url"].

Definition decl_installTool : declaration :=
  builtin "installTool"
    "Install a new tool/integration from the web. Use this when the user asks to 'get' or 'integrate' a tool found on the internet. You should first search for the tool, analyze its API/documentation (using scrapeUrl), and then call this function with the details."
    [("name", "string"); ("endpoint", "string"); ("description", "string");
     ("method", "string"); ("headers", "object"); ("payloadSchema", "object");
     ("apiKey", "string"); ("authType", "string"); ("authParamName", "string")]
    ["name"; "endpoint"; "description"].

Definition decl_githubRepo : declaration :=
  builtin "githubRepo"
    "Get details and README content from a GitHub repository. Use this to analyze a repo's purpose, documentation, or API usage."
    [("owner", "string"); ("repo", "string")] ["owner"; "repo"].

Definition decl_currencyConverter : declaration :=
  builtin "currencyConverter" "Convert currency from one to another."
    [("amount", "number"); ("from", "string"); ("to", "string")]
    ["amount"; "from"; "to"].

Definition decl_deleteTool : declaration :=
  builtin "deleteTool"
    "Deletes a custom tool that was previously installed by the user."
    [("name", "string")] ["name"].

Definition decl_sendMedia : declaration :=
  builtin "sendMedia"
    "Send an image, video, or audio file to the user. Use this when the user asks for a picture, meme, or media file, or when you find a relevant image URL from a search."
    [("url", "string"); ("mediaType", "string")] ["url"; "mediaType"].

Definition decl_saveMemory : declaration :=
  builtin "saveMemory"
    "Save important facts, preferences, or rules about the user to permanent memory for future reference. Use this when the user explicitly asks you to remember something or when you detect a significant user preference."
    [("content", "string")] ["content"].

Definition decl_manageTools : declaration :=
  builtin "manageTools"
    "Manage custom tools and integrations. You can add new tools (webhooks), remove them, or list them."
    [("action", "string"); ("name", "string"); ("endpoint", "string");
     ("description", "string"); ("id", "string")]
    ["action"].

(** Load Custom Tools for this User:
    [SELECT * FROM tools WHERE is_active = 1 AND (is_admin_only = 0 OR user_id = ?)] *)
Definition custom_tool_visible (userId : string) (t : tool) : bool :=
  (tool_is_active t =? 1)%Z
  && ((tool_is_admin_only t =? 0)%Z || sql_eq (tool_user_id t) (Some userId)).

Definition load_custom_tools (d : database) (userId : string) : list tool :=
  filter (custom_tool_visible userId) (tools d).

(** The default parameters of a webhook tool: one string, [payload]. *)
Definition generic_payload : parameters :=
  ObjectSchema [("payload", "string")] ["payload"].

(** [Object.keys(parsed).length > 0]; it throws on [null], which the
    surrounding [try] turns into the default as well. *)
Definition has_keys (parsed : json) : bool :=
  match parsed with
  | JStr s => truthy s
  | JArr (_ :: _) => true
  | JObj (_ :: _) => true
  | _ => false
  end.

Definition custom_parameters (t : tool) : parameters :=
  match tool_parameter_schema t with
  | Some (Parses parsed) =>
      if has_keys parsed then StoredSchema parsed else generic_payload
  | Some Unparsable => generic_payload
  | None => generic_payload
  end.

Definition declare_custom (t : tool) : declaration :=
  {| decl_name := tool_name t; decl_description := tool_description t;
     decl_parameters := custom_parameters t |}.

Definition custom_declarations (customTools : list tool) : list declaration :=
  map declare_custom customTools.

Definition when (b : bool) (d : declaration) : list declaration :=
  if b then [d] else [].

Definition functionDeclarations (settings : option user_settings)
  (isAdmin : bool) (customTools : list tool) : list declaration :=
  when (enabled settings us_enable_web_search) decl_webSearch
  ++ when (enabled settings us_enable_weather) decl_getWeather
  ++ when (enabled settings us_enable_calculator) decl_calculator
  ++ when (enabled settings us_enable_scraper) decl_scrapeUrl
  ++ when isAdmin decl_installTool
  ++ when (enabled settings us_enable_github) decl_githubRepo
  ++ when (enabled settings us_enable_currency) decl_currencyConverter
  ++ [decl_deleteTool; decl_sendMedia]
  ++ custom_declarations customTools
  ++ [decl_saveMemory; decl_manageTools].

(** *** 2. API keys and model selection *)

Definition by_last_used (a b : gemini_key) : bool :=
  sql_le (last_used_at a) (last_used_at b).

(** [SELECT * FROM gemini_keys WHERE user_id = ? AND status = 'active'
     ORDER BY last_used_at ASC] *)
Definition active_keys (d : database) (userId : string) : list gemini_key :=
  sort_by by_last_used
    (filter (fun k => sql_eq (key_user_id k) (Some userId)
                      && sql_eq (key_status k) (Some "active"))
            (gemini_keys d)).

(** The filter for keys that support the preferred model:
    [JSON.parse(k.available_models).includes(preferredModel)] inside a [try].
    [Array.prototype.includes] compares with strict equality, so a string is
    never found among model objects; on a parsed object, number, boolean or
    null the call throws, and the [catch] answers false. *)
Definition supports (preferredModel : string) (k : gemini_key) : bool :=
  match available_models k with
  | None => false
  | Some ModelsUnparsable => false
  | Some (ModelsNames names) => existsb (String.eqb preferredModel) names
  | Some (ModelsInfos _) => false
  | Some ModelsNotArray => false
  end.

Definition best_score (k : gemini_key) : Q :=
  match best_model k with
  | Some m => if truthy m then getModelScore m else 0%Q
  | None => 0%Q
  end.

(** The comparator [(a, b) => scoreB - scoreA] does not put [b] first. *)
Definition by_best_score (a b : gemini_key) : bool :=
  Qle_bool (best_score b) (best_score a).

Definition by_model_score (a b : string) : bool :=
  Qle_bool (getModelScore b) (getModelScore a).

(** The keys to iterate over and [targetModel]. *)
Definition select_keys (preferredModel : string) (keys : list gemini_key)
  : list gemini_key * string :=
  let '(keys1, targetModel) :=
    if negb (preferredModel =? "auto")%string then
      match filter (supports preferredModel) keys with
      | [] => (keys, "auto")
      | capableKeys => (capableKeys, preferredModel)
      end
    else (keys, preferredModel) in
  if (targetModel =? "auto")%string
  then (sort_by by_best_score keys1, targetModel)
  else (keys1, targetModel).

(** Default fallback list if no discovery data yet. *)
Definition default_models : list string :=
  ["gemini-3.0-flash-preview"; "gemini-2.0-flash-exp"; "gemini-1.5-pro";
   "gemini-1.5-flash"].

(** The key's detected models, sorted by score (descending). *)
Definition key_models (k : gemini_key) : list string :=
  match available_models k with
  | Some ModelsUnparsable => []
  | Some (ModelsNames names) => sort_by by_model_score names
  | Some (ModelsInfos infos) => sort_by by_model_score (map mi_name infos)
  | Some ModelsNotArray => []
  | None => default_models
  end.

(** Add unique models to candidates. *)
Fixpoint add_unique (candidates keyModels : list string) : list string :=
  match keyModels with
  | [] => candidates
  | m :: rest =>
      add_unique
        (if existsb (String.eqb m) candidates then candidates
         else candidates ++ [m])
        rest
  end.

(** Determine candidates for this key. *)
Definition candidates_for (preferredModel targetModel : string)
  (keyObj : gemini_key) : list string :=
  let c1 :=
    if negb (preferredModel =? "auto")%string
       && negb (targetModel =? "auto")%string
    then [preferredModel] else [] in
  let c2 :=
    match best_model keyObj with
    | Some best =>
        if (targetModel =? "auto")%string && truthy best
        then c1 ++ [best] else c1
    | None => c1
    end in
  match add_unique c2 (key_models keyObj) with
  | [] => ["gemini-3.0-flash-preview"; "gemini-1.5-flash"]
  | candidates => candidates
  end.

(** *** 3b. Memory injection *)

(** [SELECT share_active_memory FROM platform_integrations
     WHERE user_id = ? AND platform = ?], then [=== 1]. *)
Definition integration_shares (d : database) (userId platform : string) : bool :=
  match find (fun i => sql_eq (pi_user_id i) (Some userId)
                       && (pi_platform i =? platform)%string)
             (platform_integrations d) with
  | Some i =>
      match pi_share_active_memory i with Some 1%Z => true | _ => false end
  | None => false
  end.

Definition shareActiveMemory (d : database) (userId platform : string) : bool :=
  if negb (platform =? "playground")%string && negb (platform =? "web")%string
  then integration_shares d userId platform
  else false.

(** The WHERE clause of the memory query. *)
Definition memory_selected (userId platform : string) (senderId : option string)
  (share : bool) (m : user_memory) : bool :=
  (mem_user_id m =? userId)%string
  && (sql_eq (mem_memory_type m) (Some "core")
      || sql_is_null (mem_memory_type m)
      || (sql_eq (mem_memory_type m) (Some "active_learning")
          && ((sql_eq (mem_platform m) (Some platform)
               && (sql_eq (mem_external_id m) senderId
                   || sql_is_null (mem_external_id m)))
              || (share && sql_is_null (mem_platform m))))).

Definition newest_first (a b : user_memory) : bool :=
  (mem_created_at b <=? mem_created_at a)%string.

(** [... ORDER BY created_at DESC LIMIT 20] *)
Definition fetch_memories (d : database) (userId platform : string)
  (senderId : option string) (share : bool) : list user_memory :=
  firstn 20
    (sort_by newest_first
       (filter (memory_selected userId platform senderId share)
               (user_memories d))).

(** *** The turn's fixed context *)

Record turn_context := {
  cx_userId : string;
  cx_chatId : string;
  cx_prompt : string;
  cx_media : list media_item;
  cx_platform : string;
  cx_senderId : option string;
  cx_declarations : list declaration;
  cx_customTools : list tool;
  cx_memories : list user_memory;
  cx_preferredModel : string;
  cx_targetModel : string
}.

Definition session_of (cx : turn_context) : session :=
  {| session_tools := cx_declarations cx; session_memories := cx_memories cx |}.

(** *** Tool arguments

    Arguments of string parameters are strings or absent, as the declared
    parameter types say. *)

Fixpoint lookup (name : string) (args : list (string * json)) : option json :=
  match args with
  | [] => None
  | (k, v) :: rest => if (k =? name)%string then Some v else lookup name rest
  end.

Definition string_arg (name : string) (args : list (string * json))
  : option string :=
  match lookup name args with
  | Some (JStr s) => Some s
  | _ => None
  end.

(** [value === 'text'] on a string that may be absent. *)
Definition is_text (value : option string) (text : string) : bool :=
  match value with
  | Some s => (s =? text)%string
  | None => false
  end.

(** A nullable string inside a template literal. *)
Definition js_text (o : option string) : string :=
  match o with Some s => s | None => "undefined" end.

Definition null_text (o : option string) : string :=
  match o with Some s => s | None => "null" end.

Definition newline : string := String (ascii_of_nat 10) EmptyString.

Fixpoint join (sep : string) (l : list string) : string :=
  match l with
  | [] => EmptyString
  | [s] => s
  | s :: rest => s +++ sep +++ join sep rest
  end.

(** The calculator's allow-list [/^[0-9+\-*/().\s]*$/]. *)
Definition allowed_char (c : ascii) : bool :=
  is_digit c
  || existsb (Ascii.eqb c) ["+"; "-"; "*"; "/"; "("; ")"; "."]%char
  || is_space c.

Definition allowed_expression (expression : string) : bool :=
  all_chars allowed_char expression.

Section Engine.
Variable rt : runtime.

(** *** Tool helpers *)

Definition respond (name text : string) : completion function_response :=
  Normal {| fr_name := name; fr_response := Content text |}.

(** calculator: the expression is handed to [eval] only behind the
    allow-list test; [undefined] is tested as the text 'undefined'. *)
Definition run_calculator (call : function_call)
  : M (completion function_response) :=
  match string_arg "expression" (fc_args call) with
  | Some expression =>
      if allowed_expression expression then
        emit (Evaluated expression) ;;;
        match js_eval rt expression with
        | Normal value => ret (respond (fc_name call) value)
        | Throw message => ret (respond (fc_name call) message)
        end
      else ret (respond (fc_name call) "Invalid characters in expression")
  | None => ret (respond (fc_name call) "Invalid characters in expression")
  end.

Definition tool_defaults (id name endpoint : string)
  (description : option string) (userId : string) : tool :=
  {| tool_id := id; tool_name := name; tool_endpoint := endpoint;
     tool_api_key := None; tool_description := description;
     tool_is_active := 1; tool_is_admin_only := 0;
     tool_user_id := Some userId; tool_method := Some "POST";
     tool_headers := Some (Parses (JObj []));
     tool_parameter_schema := Some (Parses (JObj []));
     tool_auth_type := None; tool_auth_param_name := None |}.

Definition insert_tool (t : tool) : M unit :=
  modify_db (fun d => with_tools d (tools d ++ [t])).

(** installTool: any failure to bind or insert is caught and reported. *)
Definition installTool (userId : string) (args : list (string * json))
  : M string :=
  n <- next_tick ;;
  let id := uuidv4 rt n in
  match string_arg "name" args, string_arg "endpoint" args,
        string_arg "description" args with
  | Some name, Some endpoint, Some description =>
      insert_tool
        {| tool_id := id; tool_name := name; tool_endpoint := endpoint;
           tool_api_key := string_arg "apiKey" args;
           tool_description := Some description;
           tool_is_active := 1; tool_is_admin_only := 0;
           tool_user_id := Some userId;
           tool_method :=
             Some (match string_arg "method" args with
                   | Some m => m
                   | None => "POST"
                   end);
           tool_headers :=
             Some (Parses (match lookup "headers" args with
                           | Some h => h
                           | None => JObj []
                           end));
           tool_parameter_schema :=
             Some (Parses (match lookup "payloadSchema" args with
                           | Some s => s
                           | None => JObj []
                           end));
           tool_auth_type := string_arg "authType" args;
           tool_auth_param_name := string_arg "authParamName" args |} ;;;
      ret (stringify rt
             (JObj [("success", JBool true); ("id", JStr id);
                    ("message",
                     JStr ("Tool '" +++ name +++ "' installed successfully."))]))
  | _, _, _ =>
      m <- next_tick ;;
      ret ("Installation error: " +++ runtime_error rt m)
  end.

(** [DELETE FROM tools WHERE name = ? AND user_id = ?] *)
Definition deleteTool (userId : string) (args : list (string * json))
  : M string :=
  match string_arg "name" args with
  | Some name =>
      d <- read_db ;;
      let doomed t :=
        (tool_name t =? name)%string && sql_eq (tool_user_id t) (Some userId) in
      modify_db (fun d => with_tools d (filter (fun t => negb (doomed t)) (tools d))) ;;;
      if existsb doomed (tools d)
      then ret (stringify rt
                  (JObj [("success", JBool true);
                         ("message",
                          JStr ("Tool '" +++ name +++ "' deleted successfully."))]))
      else ret (stringify rt
                  (JObj [("success", JBool false);
                         ("message",
                          JStr ("Tool '" +++ name
                                +++ "' not found or permission denied."))]))
  | None =>
      m <- next_tick ;;
      ret ("Deletion error: " +++ runtime_error rt m)
  end.

(** sendMedia: remote URLs are downloaded first; the result is a tag for
    the platform handler. *)
Definition run_sendMedia (call : function_call)
  : M (completion function_response) :=
  let mediaType := string_arg "mediaType" (fc_args call) in
  match string_arg "url" (fc_args call) with
  | Some url =>
      finalPath <-
        (if prefix "http" url
         then n <- next_tick ;; ret (downloadMedia rt n url mediaType)
         else ret url) ;;
      ret (respond "sendMedia"
             ("[MEDIA_SEND:" +++ finalPath +++ "|" +++ js_text mediaType +++ "]"))
  | None =>
      n <- next_tick ;;
      ret (Throw (runtime_error rt n))
  end.

(** A custom webhook tool; the HTTP exchange is the runtime's and every
    failure inside it is caught. *)
Definition run_custom (customTool : tool) (call : function_call)
  : M (completion function_response) :=
  n <- next_tick ;;
  match webhook rt n customTool (fc_args call) with
  | Normal text =>
      ret (Normal {| fr_name := fc_name call;
                     fr_response := Content (substring 0 5000 text) |})
  | Throw message =>
      ret (Normal {| fr_name := fc_name call;
                     fr_response := ErrorMessage message |})
  end.

Definition run_manageTools (cx : turn_context) (call : function_call)
  : M (completion function_response) :=
  let args := fc_args call in
  let action := string_arg "action" args in
  result <-
    (if is_text action "list" then
       let activeTools :=
         join newline
           (map (fun t => decl_name t +++ ": " +++ null_text (decl_description t))
                (cx_declarations cx)) in
       ret ("Currently active tools:" +++ newline +++ activeTools)
     else if is_text action "add" then
       match string_arg "name" args, string_arg "endpoint" args with
       | Some name, Some endpoint =>
           if truthy name && truthy endpoint then
             n <- next_tick ;;
             insert_tool
               (tool_defaults (uuidv4 rt n) name endpoint
                  (Some (match string_arg "description" args with
                         | Some s => s
                         | None => EmptyString
                         end))
                  (cx_userId cx)) ;;;
             ret ("Tool '" +++ name +++ "' successfully registered.")
           else ret "Error: Name and endpoint are required for adding a tool."
       | _, _ => ret "Error: Name and endpoint are required for adding a tool."
       end
     else if is_text action "remove" then
       match string_arg "id" args with
       | Some id =>
           if truthy id then
             modify_db (fun d =>
               with_tools d
                 (filter (fun t => negb ((tool_id t =? id)%string
                                         && sql_eq (tool_user_id t)
                                              (Some (cx_userId cx))))
                         (tools d))) ;;;
             ret ("Tool '" +++ id +++ "' successfully removed.")
           else ret "Error: ID is required for removing a tool."
       | None => ret "Error: ID is required for removing a tool."
       end
     else ret ("Unknown action: " +++ js_text action)) ;;
  ret (respond "manageTools" result).

(** saveMemory: the row is scoped to (platform, sender) unless the
    integration shares active memories; binding a missing content throws. *)
Definition run_saveMemory (cx : turn_context) (call : function_call)
  : M (completion function_response) :=
  n <- next_tick ;;
  let id := uuidv4 rt n in
  d <- read_db ;;
  let shareActiveMemory :=
    if negb (cx_platform cx =? "web")%string
    then integration_shares d (cx_userId cx) (cx_platform cx)
    else false in
  let memPlatform := if shareActiveMemory then None else Some (cx_platform cx) in
  let memExternalId := if shareActiveMemory then None else cx_senderId cx in
  match string_arg "content" (fc_args call) with
  | Some content =>
      m <- next_tick ;;
      modify_db (fun d =>
        with_user_memories d
          (user_memories d
           ++ [{| mem_id := id; mem_user_id := cx_userId cx;
                  mem_content := content; mem_created_at := sql_now rt m;
                  mem_memory_type := Some "active_learning";
                  mem_platform := memPlatform;
                  mem_external_id := memExternalId |}])) ;;;
      ret (respond "saveMemory" "Memory saved to Active Learning storage.")
  | None =>
      m <- next_tick ;;
      ret (Throw (runtime_error rt m))
  end.

(** The body of the callback mapped over the calls of a response.  The
    helpers that only fetch (web search, weather, scraping, GitHub, currency)
    catch their own failures and always answer with a text. *)
Definition exec_call (cx : turn_context) (call : function_call)
  : M (completion function_response) :=
  let name := fc_name call in
  let args := fc_args call in
  if (name =? "webSearch")%string then
    n <- next_tick ;;
    ret (respond name (webSearch rt n (lookup "query" args)))
  else if (name =? "getWeather")%string then
    n <- next_tick ;;
    ret (respond name (getWeather rt n (lookup "location" args)))
  else if (name =? "calculator")%string then run_calculator call
  else if (name =? "scrapeUrl")%string then
    n <- next_tick ;;
    ret (respond name (simpleScrape rt n (lookup "url" args)))
  else if (name =? "githubRepo")%string then
    n <- next_tick ;;
    ret (respond name
           (getGithubRepo rt n (lookup "owner" args) (lookup "repo" args)))
  else if (name =? "currencyConverter")%string then
    n <- next_tick ;;
    ret (respond name
           (convertCurrency rt n (lookup "amount" args) (lookup "from" args)
              (lookup "to" args)))
  else if (name =? "installTool")%string then
    result <- installTool (cx_userId cx) args ;;
    ret (respond "installTool" result)
  else if (name =? "deleteTool")%string then
    result <- deleteTool (cx_userId cx) args ;;
    ret (respond "deleteTool" result)
  else if (name =? "sendMedia")%string then run_sendMedia call
  else
    match find (fun t => (tool_name t =? name)%string) (cx_customTools cx) with
    | Some customTool => run_custom customTool call
    | None =>
        if (name =? "manageTools")%string then run_manageTools cx call
        else if (name =? "saveMemory")%string then run_saveMemory cx call
        else ret (respond name "Unknown tool.")
    end.

(** [calls.map(async call => ...)]: the database writes of the handlers
    happen in call order. *)
Fixpoint run_tools (cx : turn_context) (calls : list function_call)
  : M (list (completion function_response)) :=
  match calls with
  | [] => ret []
  | call :: rest =>
      emit (ToolStarted call) ;;;
      r <- exec_call cx call ;;
      rs <- run_tools cx rest ;;
      ret (r :: rs)
  end.

(** [await Promise.all(...)]: all results, or the first rejection. *)
Fixpoint promise_all (rs : list (completion function_response))
  : completion (list function_response) :=
  match rs with
  | [] => Normal []
  | Throw message :: _ => Throw message
  | Normal r :: rest =>
      match promise_all rest with
      | Normal l => Normal (r :: l)
      | Throw message => Throw message
      end
  end.

(** *** The candidate cascade *)

(** How one attempt ended: in the [catch], or past it with a text. *)
Inductive attempt_end :=
| Threw (message : string)
| Returned (text : string).

Record attempt := {
  at_key : gemini_key;
  at_model : string;
  at_end : attempt_end
}.

(** The variables the loops assign, and the attempts made so far. *)
Record turn_vars := {
  responseText : string;
  usedKeyId : string;
  lastError : option string;
  rawResponse : string;
  usedModelName : string;
  usageMetadata : option string;
  attempts : list attempt
}.

Definition initial_vars : turn_vars :=
  {| responseText := EmptyString; usedKeyId := EmptyString; lastError := None;
     rawResponse := EmptyString; usedModelName := EmptyString;
     usageMetadata := None; attempts := [] |}.

(** [rawResponse = ...] and the capture of usage metadata. *)
Definition received (v : turn_vars) (raw : string) (usage : option string)
  : turn_vars :=
  {| responseText := responseText v; usedKeyId := usedKeyId v;
     lastError := lastError v; rawResponse := raw;
     usedModelName := usedModelName v;
     usageMetadata := match usage with Some u => Some u | None => usageMetadata v end;
     attempts := attempts v |}.

Definition appended (v : turn_vars) (raw : string) : turn_vars :=
  {| responseText := responseText v; usedKeyId := usedKeyId v;
     lastError := lastError v; rawResponse := raw;
     usedModelName := usedModelName v; usageMetadata := usageMetadata v;
     attempts := attempts v |}.

Definition succeeded (v : turn_vars) (keyObj : gemini_key) (modelName text : string)
  : turn_vars :=
  {| responseText := text; usedKeyId := key_id keyObj;
     lastError := lastError v; rawResponse := rawResponse v;
     usedModelName := modelName; usageMetadata := usageMetadata v;
     attempts := attempts v ++ [{| at_key := keyObj; at_model := modelName;
                                   at_end := Returned text |}] |}.

Definition failed (v : turn_vars) (keyObj : gemini_key) (modelName message : string)
  : turn_vars :=
  {| responseText := responseText v; usedKeyId := usedKeyId v;
     lastError := Some message; rawResponse := rawResponse v;
     usedModelName := usedModelName v; usageMetadata := usageMetadata v;
     attempts := attempts v ++ [{| at_key := keyObj; at_model := modelName;
                                   at_end := Threw message |}] |}.

(** [UPDATE gemini_keys SET last_used_at = ? WHERE id = ?] *)
Definition touch_key (id now : string) (k : gemini_key) : gemini_key :=
  if (key_id k =? id)%string then
    {| key_id := key_id k; key_secret := key_secret k;
       key_status := key_status k; last_used_at := Some now;
       key_user_id := key_user_id k; best_model := best_model k;
       available_models := available_models k |}
  else k.

(** The end of the [try] block: text obtained, key recorded as used. *)
Definition finish (v : turn_vars) (keyObj : gemini_key) (modelName text : string)
  : M (turn_vars * option string) :=
  n <- next_tick ;;
  modify_db (fun d =>
    with_gemini_keys d (map (touch_key (key_id keyObj) (iso_now rt n))
                            (gemini_keys d))) ;;;
  ret (succeeded v keyObj modelName text, None).

Definition tool_separator : string :=
  newline +++ "---TOOL RESPONSE---" +++ newline.

(** The [try] block for one candidate: the updated variables, and the
    message of the exception when it was left by one. *)
Definition try_candidate (cx : turn_context) (keyObj : gemini_key)
  (modelName : string) (v : turn_vars) : M (turn_vars * option string) :=
  let parts := Parts (cx_prompt cx) (cx_media cx) in
  n <- next_tick ;;
  emit (Sent keyObj modelName parts) ;;;
  match sendMessage rt n (key_secret keyObj) modelName (session_of cx) parts with
  | Throw message => ret (v, Some message)
  | Normal result =>
      let v1 := received v (resp_json result) (resp_usageMetadata result) in
      match resp_body result with
      | Blocked message => ret (v1, Some message)
      | Candidate text [] => finish v1 keyObj modelName text
      | Candidate _ calls =>
          results <- run_tools cx calls ;;
          match promise_all results with
          | Throw message => ret (v1, Some message)
          | Normal functionResponses =>
              let follow := FunctionResponses functionResponses in
              m <- next_tick ;;
              emit (Sent keyObj modelName follow) ;;;
              match sendMessage rt m (key_secret keyObj) modelName
                      (session_of cx) follow with
              | Throw message => ret (v1, Some message)
              | Normal toolResult =>
                  let v2 :=
                    appended v1 (rawResponse v1 +++ tool_separator
                                 +++ resp_json toolResult) in
                  match resp_body toolResult with
                  | Blocked message => ret (v2, Some message)
                  | Candidate text _ => finish v2 keyObj modelName text
                  end
              end
          end
      end
  end.

(** Try candidates in order. *)
Fixpoint try_candidates (cx : turn_context) (keyObj : gemini_key)
  (candidates : list string) (v : turn_vars) : M turn_vars :=
  match candidates with
  | [] => ret v
  | modelName :: rest =>
      r <- try_candidate cx keyObj modelName v ;;
      match r with
      | (v', None) => ret v'
      | (v', Some message) =>
          let errorMessage :=
            if includes message "429" then "Quota Exceeded (429)" else message in
          emit (Warned keyObj modelName errorMessage) ;;;
          try_candidates cx keyObj rest (failed v' keyObj modelName message)
      end
  end.

(** The loop over the keys. *)
Fixpoint try_keys (cx : turn_context) (keys : list gemini_key) (v : turn_vars)
  : M turn_vars :=
  match keys with
  | [] => ret v
  | keyObj :: rest =>
      v' <- try_candidates cx keyObj
              (candidates_for (cx_preferredModel cx) (cx_targetModel cx) keyObj)
              v ;;
      if truthy (responseText v') then ret v'
      else emit (Exhausted keyObj) ;;; try_keys cx rest v'
  end.

(** *** 5. Logging *)

(** appendChatLog (server/chatLogs.ts) *)
Definition appendChatLog (userId chatId : string) (r : role) (content platform : string)
  (rawResponse : option string) (chatType : chat_type)
  (groupId senderId senderName : option string) : M unit :=
  n <- next_tick ;;
  modify_db (fun d =>
    with_chat_logs d
      (chat_logs d
       ++ [{| cl_id := uuidv4 rt n; cl_user_id := userId; cl_chat_id := chatId;
              cl_platform := platform; cl_role := r; cl_content := content;
              cl_raw_response := rawResponse; cl_chat_type := chatType;
              cl_group_id := groupId; cl_sender_id := senderId;
              cl_sender_name := senderName |}])).

(** Modelled from the spec: savePlaygroundMessage (server/unifiedContext.ts)
    is not among the sources; it belongs to the trail a completed turn
    persists, and stores one playground_history row per message, as
    server/db.ts declares the table. *)
Definition savePlaygroundMessage (chatId role content userId : string) : M unit :=
  n <- next_tick ;;
  modify_db (fun d =>
    with_playground_history d
      (playground_history d
       ++ [{| pm_id := uuidv4 rt n; pm_chat_id := chatId; pm_role := role;
              pm_content := content; pm_user_id := userId |}])).

Definition insert_bot_log (userId chatId prompt : string) (v : turn_vars)
  : M unit :=
  n <- next_tick ;;
  modify_db (fun d =>
    with_bot_logs d
      (bot_logs d
       ++ [{| bl_id := "log_" +++ date_now rt n;
              bl_request_payload :=
                JObj [("prompt", JStr prompt); ("chatId", JStr chatId)];
              bl_response_payload := responseText v;
              bl_raw_response := rawResponse v;
              bl_api_key_used := usedKeyId v; bl_user_id := userId;
              bl_chat_id := chatId; bl_model_used := usedModelName v;
              bl_token_usage := usageMetadata v |}])).

(** *** The turn *)

Record reply := {
  reply_response : string;
  reply_keyId : string
}.

(** What the call gives back, with the loop variables at its end. *)
Record turn_report := {
  outcome : completion reply;
  final_vars : turn_vars
}.

(** Everything fixed before the loops start: the context of the turn and
    the keys to iterate over. *)
Definition turn_setup (d : database) (userId chatId prompt : string)
  (media : list media_item) (md : metadata) : turn_context * list gemini_key :=
  let platform := platform_of md in
  let senderId := md_senderId md in
  let isAdmin := is_admin d userId platform senderId in
  let settings := settings_of d userId in
  let preferredModel := preferred_model settings (md_modelOverride md) in
  let customTools := load_custom_tools d userId in
  let declarations := functionDeclarations settings isAdmin customTools in
  let '(keys, targetModel) :=
    select_keys preferredModel (active_keys d userId) in
  let memories :=
    fetch_memories d userId platform senderId
      (shareActiveMemory d userId platform) in
  ({| cx_userId := userId; cx_chatId := chatId; cx_prompt := prompt;
      cx_media := media; cx_platform := platform; cx_senderId := senderId;
      cx_declarations := declarations; cx_customTools := customTools;
      cx_memories := memories; cx_preferredModel := preferredModel;
      cx_targetModel := targetModel |},
   keys).

(** After the loops: the two failure signals, or the logs and the reply. *)
Definition conclude (cx : turn_context) (md : metadata) (v : turn_vars)
  : M turn_report :=
  let userId := cx_userId cx in
  let chatId := cx_chatId cx in
  let prompt := cx_prompt cx in
  let platform := cx_platform cx in
  let chatType := chatType_of md in
  if negb (truthy (responseText v)) then
    ret {| outcome :=
             Throw ("All API keys failed. Last error: "
                    +++ null_text (lastError v));
           final_vars := v |}
  else if (trim (responseText v) =? "[NO_REPLY]")%string then
    ret {| outcome := Throw "[NO_REPLY]"; final_vars := v |}
  else
    appendChatLog userId chatId RoleUser prompt platform None chatType
      (md_groupId md) (cx_senderId cx) (md_senderName md) ;;;
    appendChatLog userId chatId RoleModel (responseText v) platform
      (Some (rawResponse v)) chatType (md_groupId md) (cx_senderId cx) None ;;;
    (if (platform =? "playground")%string then
       savePlaygroundMessage chatId "user" prompt userId ;;;
       savePlaygroundMessage chatId "assistant" (responseText v) userId
     else ret tt) ;;;
    insert_bot_log userId chatId prompt v ;;;
    ret {| outcome :=
             Normal {| reply_response := responseText v;
                       reply_keyId := usedKeyId v |};
           final_vars := v |}.

Definition chatWithGemini (userId chatId prompt : string)
  (media : list media_item) (md : metadata) : M turn_report :=
  d <- read_db ;;
  match active_keys d userId with
  | [] =>
      ret {| outcome := Throw "No active Gemini API keys found";
             final_vars := initial_vars |}
  | _ =>
      let '(cx, keys) := turn_setup d userId chatId prompt media md in
      v <- try_keys cx keys initial_vars ;;
      conclude cx md v
  end.

End Engine.

End Gemini.

(* ------------------------------------------------------------------ *)
(** ** Callers (server/index.ts) *)

Module Server.
Import JsString Db Gemini.

Inductive http_reply :=
| JsonReply (response keyId : string)
| JsonIgnored (status reason : string)
| Status500 (error : string).

(** POST /api/bot/chat: what is answered for an outcome of the engine. *)
Definition chat_reply (result : completion reply) : http_reply :=
  match result with
  | Normal r => JsonReply (reply_response r) (reply_keyId r)
  | Throw message =>
      if includes message "[NO_REPLY]"
      then JsonIgnored "ignored" "NO_REPLY"
      else Status500 message
  end.

Definition api_bot_chat (rt : runtime) (userId : string) (chatId : option string)
  (prompt : string) (processedMedia : list media_item) : M http_reply :=
  bind
    (chatWithGemini rt userId
       (match or_else chatId (Some "default") with
        | Some c => c
        | None => "default"
        end)
       prompt processedMedia no_metadata)
    (fun result => ret (chat_reply (outcome result))).

(** The message handler of the platform webhooks, from the call of the
    engine on: the text handed to [sendMessageWithBehavior], if any.  An
    exception is logged and nothing is sent. *)
Definition delivered (result : completion reply) : option string :=
  match result with
  | Normal r => Some (reply_response r)
  | Throw _ => None
  end.

Definition platform_delivery (rt : runtime) (userId chatId content : string)
  (media : list media_item) (md : metadata) : M (option string) :=
  bind (chatWithGemini rt userId chatId content media md)
    (fun result => ret (delivered (outcome result))).

End Server.

(* ------------------------------------------------------------------ *)
(** ** Vocabulary of the statements *)

Module Statements.
Import JsString ModelDiscovery Order Db Gemini.


(** Some character of the expression is outside the calculator's allow-list. *)
Definition outside_allow_list (expression : string) : Prop :=
  exists c, In c (list_ascii_of_string expression) /\ allowed_char c = false.



(** The memory is visible to a private conversation of [senderId] on
    [platform] when active memories are not shared. *)
Definition in_private_scope (userId platform : string) (senderId : option string)
  (m : user_memory) : Prop :=
  mem_user_id m = userId
  /\ (mem_memory_type m = Some "core"
      \/ mem_memory_type m = None
      \/ (mem_memory_type m = Some "active_learning"
          /\ mem_platform m = Some platform
          /\ (mem_external_id m = None
              \/ (exists s, senderId = Some s /\ mem_external_id m = Some s)))).






Definition db_logs (d : database) : list chat_log * list bot_log :=
  (chat_logs d, bot_logs d).

Definition logs_of (w : world) : list chat_log * list bot_log := db_logs (db w).


(** The tool calls whose handlers were started, in order. *)
Definition started (events : list event) : list function_call :=
  flat_map (fun e => match e with ToolStarted call => [call] | _ => [] end)
           events.

(** The messages sent to the provider, in order. *)
Definition sent (events : list event) : list (gemini_key * string * message) :=
  flat_map (fun e => match e with
                     | Sent k m msg => [(k, m, msg)]
                     | _ => []
                     end) events.

(** The candidates the provider was called for with the user's message. *)
Definition first_calls (events : list event) : list (gemini_key * string) :=
  flat_map (fun e => match e with
                     | Sent k m (Parts _ _) => [(k, m)]
                     | _ => []
                     end) events.

(** The computation emits nothing but evaluations of expressions. *)
Definition quiet {A : Type} (m : M A) : Prop :=
  forall w, started (events_of (m w)) = [] /\ sent (events_of (m w)) = [].

(** The call reaches the saveMemory handler, with a content to save. *)
Definition saves (cx : turn_context) (call : function_call) (content : string)
  : Prop :=
  fc_name call = "saveMemory"
  /\ find (fun t => (tool_name t =? fc_name call)%string) (cx_customTools cx)
     = None
  /\ string_arg "content" (fc_args call) = Some content.








(** The computation leaves the observation [g] of the database unchanged. *)
Definition keeps {X A : Type} (g : database -> X) (m : M A) : Prop :=
  forall w, g (db (world_of (m w))) = g (db w).

End Statements.

(* ------------------------------------------------------------------ *)
(** ** Sample data: a tenant, her credentials, a scripted provider *)

Module Scenario.
Import JsString Db Gemini.

(** A runtime whose provider follows [answers]; its tools answer with fixed
    texts and its identifiers are numbered by the counter. *)
Definition runtime_with
  (answers : nat -> string -> string -> message -> completion response)
  : runtime :=
  {| sendMessage := fun n key model _ msg => answers n key model msg;
     webSearch := fun _ _ => "No results found.";
     getWeather := fun _ _ => "Location not found.";
     simpleScrape := fun _ _ => "page text";
     getGithubRepo := fun _ _ _ => "{}";
     convertCurrency := fun _ _ _ _ => "Currency code not found.";
     downloadMedia := fun _ url _ => url;
     webhook := fun _ _ _ => Normal "ok";
     js_eval := fun _ => Normal "4";
     stringify := fun _ => "{}";
     uuidv4 := fun n => "uuid-" +++ String (ascii_of_nat (48 + n)) EmptyString;
     iso_now := fun _ => "2026-03-01T00:00:00.000Z";
     date_now := fun _ => "1772323200000";
     sql_now := fun _ => "2026-03-01 00:00:00";
     runtime_error := fun _ => "TypeError" |}.

Definition key (id : string) (lastUsed best : string)
  (models : option models_text) : gemini_key :=
  {| key_id := id; key_secret := "secret-" +++ id;
     key_status := Some "active"; last_used_at := Some lastUsed;
     key_user_id := Some "alice"; best_model := Some best;
     available_models := models |}.

Definition info (name : string) : model_info :=
  {| mi_name := name; mi_inputTokenLimit := 1048576;
     mi_outputTokenLimit := 8192 |}.

Definition empty_db : database :=
  {| gemini_keys := []; tools := []; user_memories := [];
     platform_admins := []; platform_integrations := [];
     user_settings_table := []; chat_logs := []; bot_logs := [];
     playground_history := [] |}.

Definition start (d : database) : world := {| db := d; tick := 0 |}.

Definition plain (text : string) : completion response :=
  Normal {| resp_json := "{}"; resp_usageMetadata := None;
            resp_body := Candidate text [] |}.

Definition calling (calls : list function_call) : completion response :=
  Normal {| resp_json := "{}"; resp_usageMetadata := None;
            resp_body := Candidate EmptyString calls |}.

Definition telegram (sender : string) : metadata :=
  {| md_platform := Some "telegram"; md_chatType := Some Private;
     md_groupId := None; md_senderId := Some sender;
     md_senderName := None; md_modelOverride := None |}.

Definition unsafe_calculation : function_call :=
  {| fc_name := "calculator";
     fc_args := [("expression", JStr "2+2; process.exit()")] |}.

Definition safe_calculation : function_call :=
  {| fc_name := "calculator";
     fc_args := [("expression", JStr "(2 + 2) * 1.5")] |}.

Definition sample_context : turn_context :=
  {| cx_userId := "alice"; cx_chatId := "default"; cx_prompt := "What is 2+2?";
     cx_media := []; cx_platform := "playground"; cx_senderId := None;
     cx_declarations := [decl_calculator]; cx_customTools := [];
     cx_memories := []; cx_preferredModel := "auto"; cx_targetModel := "auto" |}.

(** Bob's public webhook tool, and the database holding nothing else. *)
Definition bobs_tool : tool :=
  {| tool_id := "t1"; tool_name := "crm_lookup";
     tool_endpoint := "https://crm.example/lookup";
     tool_api_key := Some "bob-secret";
     tool_description := Some "Look up a customer.";
     tool_is_active := 1; tool_is_admin_only := 0;
     tool_user_id := Some "bob"; tool_method := Some "POST";
     tool_headers := Some (Parses (JObj []));
     tool_parameter_schema := Some (Parses (JObj []));
     tool_auth_type := Some "bearer"; tool_auth_param_name := None |}.

Definition db_with_bobs_tool : database := with_tools empty_db [bobs_tool].

(** A learned memory of alice's on telegram that names no sender. *)
Definition platform_wide_memory : user_memory :=
  {| mem_id := "m1"; mem_user_id := "alice";
     mem_content := "The group prefers short answers.";
     mem_created_at := "2026-02-01 10:00:00";
     mem_memory_type := Some "active_learning";
     mem_platform := Some "telegram"; mem_external_id := None |}.

Definition others_memory : user_memory :=
  {| mem_id := "m2"; mem_user_id := "alice";
     mem_content := "Carol is allergic to peanuts.";
     mem_created_at := "2026-02-02 10:00:00";
     mem_memory_type := Some "active_learning";
     mem_platform := Some "telegram"; mem_external_id := Some "carol" |}.

Definition db_with_memories : database :=
  with_user_memories empty_db [platform_wide_memory; others_memory].

(** Two credentials of alice: the one used longest ago knows only a small
    model, the one used last knows the strongest. *)
Definition old_key : gemini_key :=
  key "k-old" "2026-01-01T00:00:00.000Z" "gemini-1.5-flash"
    (Some (ModelsInfos [info "gemini-1.5-flash"])).

Definition new_key : gemini_key :=
  key "k-new" "2026-02-01T00:00:00.000Z" "gemini-2.5-pro"
    (Some (ModelsInfos [info "gemini-2.5-pro"; info "gemini-1.5-flash"])).

Definition db_two_keys : database := with_gemini_keys empty_db [old_key; new_key].

(** A provider that rejects every message. *)
Definition failing_runtime : runtime :=
  runtime_with (fun _ _ _ _ => Throw "503 Service Unavailable").

(** A provider that answers every message with the sentinel. *)
Definition silent_runtime : runtime :=
  runtime_with (fun _ _ _ _ => plain "[NO_REPLY]").

(** Discovery data as the discovery service writes it, and the same lists
    in the old format. *)
Definition narrow_key : gemini_key :=
  key "k-a" "2026-01-01T00:00:00.000Z" "gemini-1.0-pro"
    (Some (ModelsInfos [info "gemini-1.0-pro"])).

Definition wide_key : gemini_key :=
  key "k-b" "2026-02-01T00:00:00.000Z" "gemini-2.5-pro"
    (Some (ModelsInfos [info "gemini-2.5-pro"; info "gemini-1.5-flash"])).

Definition db_discovered : database :=
  with_gemini_keys empty_db [narrow_key; wide_key].

Definition narrow_key_legacy : gemini_key :=
  key "k-a" "2026-01-01T00:00:00.000Z" "gemini-1.0-pro"
    (Some (ModelsNames ["gemini-1.0-pro"])).

Definition wide_key_legacy : gemini_key :=
  key "k-b" "2026-02-01T00:00:00.000Z" "gemini-2.5-pro"
    (Some (ModelsNames ["gemini-2.5-pro"; "gemini-1.5-flash"])).

Definition db_legacy : database :=
  with_gemini_keys empty_db [narrow_key_legacy; wide_key_legacy].

(** The listing the provider returns for the second credential. *)
Definition listing : list KeyDiscovery.remote_model :=
  [ {| KeyDiscovery.rm_name := "models/gemini-1.5-flash";
       KeyDiscovery.rm_supportedGenerationMethods :=
         Some ["generateContent"; "countTokens"];
       KeyDiscovery.rm_inputTokenLimit := 1048576;
       KeyDiscovery.rm_outputTokenLimit := 8192 |};
    {| KeyDiscovery.rm_name := "models/embedding-001";
       KeyDiscovery.rm_supportedGenerationMethods := Some ["embedContent"];
       KeyDiscovery.rm_inputTokenLimit := 2048;
       KeyDiscovery.rm_outputTokenLimit := 1 |};
    {| KeyDiscovery.rm_name := "models/gemini-2.5-pro";
       KeyDiscovery.rm_supportedGenerationMethods := Some ["generateContent"];
       KeyDiscovery.rm_inputTokenLimit := 1048576;
       KeyDiscovery.rm_outputTokenLimit := 8192 |} ].

Definition undiscovered_key : gemini_key :=
  {| key_id := "k-b"; key_secret := "secret-k-b";
     key_status := Some "active";
     last_used_at := Some "2026-02-01T00:00:00.000Z";
     key_user_id := Some "alice"; best_model := None;
     available_models := None |}.

Definition preferring (model : string) : metadata :=
  {| md_platform := None; md_chatType := None; md_groupId := None;
     md_senderId := None; md_senderName := None;
     md_modelOverride := Some model |}.

Definition remember_call : function_call :=
  {| fc_name := "saveMemory";
     fc_args := [("content", JStr "Prefers metric units.")] |}.

(** A provider that asks for a tool in every response and never gives a text. *)
Definition looping_runtime : runtime :=
  runtime_with (fun _ _ _ _ => calling [remember_call]).


Definition install_call : function_call :=
  {| fc_name := "installTool";
     fc_args := [("name", JStr "crm_lookup");
                 ("endpoint", JStr "https://crm.example/lookup");
                 ("description", JStr "Look up a customer.")] |}.

(** A provider that asks to save a memory and to install a tool, and
    rejects the tool results. *)
Definition ungrateful_runtime : runtime :=
  runtime_with (fun _ _ _ msg =>
    match msg with
    | Parts _ _ => calling [remember_call; install_call]
    | FunctionResponses _ => Throw "500 Internal error"
    end).


(** A provider that answers every message with the text "ok". *)
Definition steady_runtime : runtime := runtime_with (fun _ _ _ _ => plain "ok").

End Scenario.

(* ------------------------------------------------------------------ *)
(** ** Further vocabulary: what a turn reads and what it leaves alone *)

Module Observations.
Import JsString ModelDiscovery Db Gemini.

(** A credential without its [last_used_at]. *)
Definition key_identity (k : gemini_key)
  : string * string * option string * option string * option string
    * option models_text :=
  (key_id k, key_secret k, key_status k, key_user_id k, best_model k,
   available_models k).

(** The configuration a turn is set up from: the credentials apart from
    their time of last use, the admins, the integrations and the settings. *)
Definition configuration (d : database)
  : list (string * string * option string * option string * option string
          * option models_text)
    * list platform_admin * list platform_integration * list user_settings :=
  (map key_identity (gemini_keys d), platform_admins d, platform_integrations d,
   user_settings_table d).

(** The rows of other tenants in the tables a turn writes to. *)
Definition foreign_rows (userId : string) (d : database)
  : list tool * list user_memory * list chat_log * list bot_log
    * list playground_message :=
  (filter (fun t => negb (sql_eq (tool_user_id t) (Some userId))) (tools d),
   filter (fun m => negb (mem_user_id m =? userId)%string) (user_memories d),
   filter (fun c => negb (cl_user_id c =? userId)%string) (chat_logs d),
   filter (fun b => negb (bl_user_id b =? userId)%string) (bot_logs d),
   filter (fun p => negb (pm_user_id p =? userId)%string) (playground_history d)).




End Observations.

(* ------------------------------------------------------------------ *)
(** ** Personalities (server/personality.ts)

    The table personalities is the list of its rows in insertion order;
    every function takes the table and gives back what it returns, with the
    table it leaves where it writes.  Identifiers and the clock are
    passed in. *)

Module Personality.
Import JsString Order Db.

Record personality := {
  p_id : string;
  p_name : string;
  p_system_prompt : string;
  p_is_active : Z;
  p_user_id : option string;
  p_created_at : string
}.

Definition DEFAULT_SYSTEM_PROMPT : string :=
  "You are a helpful, friendly assistant. Respond naturally and in character. Do not sound robotic or generic.".

Definition with_active (p : personality) (flag : Z) : personality :=
  {| p_id := p_id p; p_name := p_name p; p_system_prompt := p_system_prompt p;
     p_is_active := flag; p_user_id := p_user_id p;
     p_created_at := p_created_at p |}.

(** [WHERE id = ? AND user_id = ?] *)
Definition owned_row (userId id : string) (p : personality) : bool :=
  (p_id p =? id)%string && sql_eq (p_user_id p) (Some userId).

(** [SELECT * FROM personalities WHERE id = ?] *)
Definition by_id (t : list personality) (id : string) : option personality :=
  find (fun p => (p_id p =? id)%string) t.

(** Get the active personality for a user; a default persona when none is
    set active. *)
Definition getActivePersonality (t : list personality) (now userId : string)
  : personality :=
  match find (fun p => sql_eq (p_user_id p) (Some userId)
                       && (p_is_active p =? 1)%Z) t with
  | Some row =>
      {| p_id := p_id row; p_name := p_name row;
         p_system_prompt :=
           if truthy (p_system_prompt row) then p_system_prompt row
           else DEFAULT_SYSTEM_PROMPT;
         p_is_active := p_is_active row; p_user_id := p_user_id row;
         p_created_at := p_created_at row |}
  | None =>
      {| p_id := EmptyString; p_name := "Default";
         p_system_prompt := DEFAULT_SYSTEM_PROMPT; p_is_active := 1;
         p_user_id := Some userId; p_created_at := now |}
  end.

(** [ORDER BY is_active DESC, created_at ASC] *)
Definition by_active_then_created (a b : personality) : bool :=
  (p_is_active b <? p_is_active a)%Z
  || ((p_is_active a =? p_is_active b)%Z
      && (p_created_at a <=? p_created_at b)%string).

Definition listPersonalities (t : list personality) (userId : string)
  : list personality :=
  sort_by by_active_then_created
    (filter (fun p => sql_eq (p_user_id p) (Some userId)) t).

(** Create a new personality, inactive.  [None]: the INSERT is refused by
    the primary key and its exception leaves the function. *)
Definition createPersonality (t : list personality)
  (id now userId name systemPrompt : string)
  : option (list personality * option personality) :=
  if existsb (fun p => (p_id p =? id)%string) t then None
  else
    let t' :=
      t ++ [{| p_id := id; p_name := name; p_system_prompt := systemPrompt;
               p_is_active := 0; p_user_id := Some userId;
               p_created_at := now |}] in
    Some (t', by_id t' id).

(** Update a personality: [null] when the tenant has no such row. *)
Definition updatePersonality (t : list personality) (userId id : string)
  (name system_prompt : option string)
  : list personality * option personality :=
  match find (owned_row userId id) t with
  | None => (t, None)
  | Some existing =>
      let name' := match name with Some n => n | None => p_name existing end in
      let system_prompt' :=
        match system_prompt with
        | Some s => s
        | None => p_system_prompt existing
        end in
      let t' :=
        map (fun p =>
               if (p_id p =? id)%string
               then {| p_id := p_id p; p_name := name';
                       p_system_prompt := system_prompt';
                       p_is_active := p_is_active p; p_user_id := p_user_id p;
                       p_created_at := p_created_at p |}
               else p) t in
      (t', by_id t' id)
  end.

(** Delete a personality: whether a row was deleted. *)
Definition deletePersonality (t : list personality) (userId id : string)
  : list personality * bool :=
  (filter (fun p => negb (owned_row userId id p)) t,
   existsb (owned_row userId id) t).

(** Set the active personality (only one active per user). *)
Definition setActivePersonality (t : list personality) (userId id : string)
  : list personality * option personality :=
  match find (owned_row userId id) t with
  | None => (t, None)
  | Some _ =>
      let t1 :=
        map (fun p => if sql_eq (p_user_id p) (Some userId)
                      then with_active p 0 else p) t in
      let t2 :=
        map (fun p => if owned_row userId id p then with_active p 1 else p) t1 in
      (t2, by_id t2 id)
  end.

End Personality.

(* ------------------------------------------------------------------ *)
(** ** Chat logs (server/chatLogs.ts), the history of a turn
    (server/gemini.ts) and the route that clears a session (server/index.ts)

    The column created_at of chat_logs is filled by the database when a row
    is inserted; [created_at] gives its value for every row. *)

Module ChatLogs.
Import JsString Order Db Gemini.

(** What [getRecentChatLogs] returns for a message: [{ role, content }]. *)
Record history_row := {
  h_role : role;
  h_content : string
}.

(** [LIMIT ? OFFSET ?]: a negative limit is no limit, a negative offset is
    no offset. *)
Definition sql_limit {A : Type} (limit offset : Z) (l : list A) : list A :=
  let rest := skipn (Z.to_nat offset) l in
  if (limit <? 0)%Z then rest else firstn (Z.to_nat limit) rest.

Definition is_user (r : role) : bool :=
  match r with RoleUser => true | RoleModel => false end.

Definition plain_row (r : chat_log) : history_row :=
  {| h_role := cl_role r; h_content := cl_content r |}.

(** [(r.role === 'user' && r.sender_name) ? `[${r.sender_name}]: ${r.content}`
     : r.content] *)
Definition named_row (r : chat_log) : history_row :=
  {| h_role := cl_role r;
     h_content :=
       match cl_sender_name r with
       | Some name =>
           if is_user (cl_role r) && truthy name
           then "[" +++ name +++ "]: " +++ cl_content r
           else cl_content r
       | None => cl_content r
       end |}.

Section Stamped.
Variable created_at : chat_log -> string.

Definition newest_log_first (a b : chat_log) : bool :=
  (created_at b <=? created_at a)%string.

(** [SELECT ... WHERE selected ORDER BY created_at DESC LIMIT ? OFFSET ?] *)
Definition newest (selected : chat_log -> bool) (limit offset : Z)
  (d : database) : list chat_log :=
  sql_limit limit offset
    (sort_by newest_log_first (filter selected (chat_logs d))).

(** Get the last N messages for multi-turn context, oldest first. *)
Definition getRecentChatLogs (d : database) (userId chatId : string) (limit : Z)
  (platform : option string) (chatType : option chat_type)
  (groupId senderId : option string) : list history_row :=
  let is_group := match chatType with Some Group => true | _ => false end in
  let is_private := match chatType with Some Private => true | _ => false end in
  let rows :=
    if is_group && otruthy groupId && otruthy platform then
      map named_row
        (newest (fun r => (cl_user_id r =? userId)%string
                          && sql_eq (cl_group_id r) groupId
                          && sql_eq (Some (cl_platform r)) platform)
                limit 0 d)
    else if is_private && otruthy senderId && otruthy platform
            && negb (is_text platform "playground") then
      map plain_row
        (newest (fun r => (cl_user_id r =? userId)%string
                          && sql_eq (Some (cl_platform r)) platform
                          && sql_eq (cl_sender_id r) senderId)
                limit 0 d)
    else
      map plain_row
        (newest (fun r => (cl_user_id r =? userId)%string
                          && (cl_chat_id r =? chatId)%string)
                limit 0 d) in
  rev rows.

(** Get chat logs for a user (for logs UI / review), newest first. *)
Definition getChatLogsForUser (d : database) (userId : string)
  (chatId : option string) (limit offset : option Z) : list chat_log :=
  let limit := match limit with Some l => l | None => 100%Z end in
  let offset := match offset with Some o => o | None => 0%Z end in
  if otruthy chatId then
    newest (fun r => (cl_user_id r =? userId)%string
                     && sql_eq (Some (cl_chat_id r)) chatId)
           limit offset d
  else
    newest (fun r => (cl_user_id r =? userId)%string) limit offset d.

(** The history a chat session is started with: the recent messages, less
    the model messages in front of the first user message. *)
Fixpoint shift_model (history : list history_row) : list history_row :=
  match history with
  | h :: rest =>
      match h_role h with
      | RoleModel => shift_model rest
      | RoleUser => history
      end
  | [] => []
  end.

Definition CONTEXT_MESSAGE_LIMIT : Z := 10.

Definition history (d : database) (userId chatId : string) (md : metadata)
  : list history_row :=
  shift_model
    (getRecentChatLogs d userId chatId CONTEXT_MESSAGE_LIMIT
       (Some (platform_of md)) (Some (chatType_of md)) (md_groupId md)
       (md_senderId md)).

End Stamped.

(** POST /api/bot/clear-memory:
    [DELETE FROM chat_logs WHERE user_id = ? AND chat_id = ?] with
    [chatId || 'default']. *)
Definition clear_memory (d : database) (userId : string)
  (chatId : option string) : database :=
  let cid := match or_else chatId (Some "default") with
             | Some c => c
             | None => "default"
             end in
  with_chat_logs d
    (filter (fun r => negb ((cl_user_id r =? userId)%string
                            && (cl_chat_id r =? cid)%string))
            (chat_logs d)).

End ChatLogs.

(* ------------------------------------------------------------------ *)
(** ** File storage (server/fileStorage.ts)

    The store is the table media_files with the regular files on disk and
    their contents.  Directories are created on demand and are not part of
    the store.  A function that can leave by an exception returns the store
    it leaves together with how it ended. *)

Module FileStorage.
Import JsString Order Db Gemini.

Record media_file := {
  mf_id : string;
  mf_filename : string;
  mf_original_name : string;
  mf_mime_type : string;
  mf_category : string;
  mf_file_path : string;
  mf_file_size : option Z;
  mf_platform : option string;
  mf_chat_id : option string;
  mf_message_id : option string;
  mf_processed : option Z;
  mf_extracted_text : option string;
  mf_user_id : option string;
  mf_created_at : string;
  mf_is_permanent : option Z
}.

Record store := {
  media_files : list media_file;
  disk : list (string * string)
}.

(** The path functions of the platform and the refusals of the file
    system (a refused operation throws). *)
Record file_system := {
  path_join : string -> string -> string;
  path_dirname : string -> string;
  path_basename : string -> string;
  getMediaPath : string -> string;
  write_refused : string -> bool;
  unlink_refused : string -> bool;
  rename_refused : string -> string -> bool;
  fs_error : string -> string
}.

Definition existsSync (files : list (string * string)) (path : string) : bool :=
  existsb (fun e => (fst e =? path)%string) files.

Definition readFileSync (files : list (string * string)) (path : string)
  : option string :=
  option_map snd (find (fun e => (fst e =? path)%string) files).

Definition unlinked (path : string) (files : list (string * string))
  : list (string * string) :=
  filter (fun e => negb (fst e =? path)%string) files.

Definition written (path content : string) (files : list (string * string))
  : list (string * string) :=
  (path, content) :: unlinked path files.

Definition renamed (from to : string) (files : list (string * string))
  : list (string * string) :=
  match readFileSync files from with
  | Some content => written to content (unlinked from files)
  | None => files
  end.

(** Determine category from mime type. *)
Definition getCategoryFromMimeType (mimeType : string) : string :=
  if prefix "image/" mimeType then "images"
  else if prefix "video/" mimeType then "videos"
  else if prefix "audio/" mimeType then "audios"
  else "documents".

Fixpoint contains_char (sep : ascii) (s : string) : bool :=
  match s with
  | EmptyString => false
  | String c s' => Ascii.eqb c sep || contains_char sep s'
  end.

(** [s.split(sep).pop()]: what follows the last separator. *)
Fixpoint last_segment (sep : ascii) (s : string) : string :=
  match s with
  | EmptyString => EmptyString
  | String c s' =>
      if contains_char sep s' then last_segment sep s'
      else if Ascii.eqb c sep then s' else s
  end.

(** [value || null] *)
Definition or_null (value : option string) : option string :=
  if otruthy value then value else None.

(** What [saveFile] returns. *)
Record saved_file := {
  sf_id : string;
  sf_filename : string;
  sf_category : string;
  sf_filePath : string;
  sf_fileSize : Z
}.

(** Save file to storage: the file is written first, the row inserted
    second; a refused write and a taken identifier both throw. *)
Definition saveFile (fs : file_system) (s : store) (id now : string)
  (buffer originalName mimeType userId : string)
  (platform chatId messageId : option string)
  : store * completion saved_file :=
  let category := getCategoryFromMimeType mimeType in
  let ext :=
    if truthy (last_segment "." originalName) then last_segment "." originalName
    else if truthy (last_segment "/" mimeType) then last_segment "/" mimeType
    else "bin" in
  let filename := id +++ "." +++ ext in
  let filePath := path_join fs (getMediaPath fs category) filename in
  if write_refused fs filePath then (s, Throw (fs_error fs filePath))
  else
    let files := written filePath buffer (disk s) in
    if existsb (fun f => (mf_id f =? id)%string) (media_files s) then
      ({| media_files := media_files s; disk := files |},
       Throw "UNIQUE constraint failed: media_files.id")
    else
      ({| media_files :=
            media_files s
            ++ [{| mf_id := id; mf_filename := filename;
                   mf_original_name := originalName; mf_mime_type := mimeType;
                   mf_category := category; mf_file_path := filePath;
                   mf_file_size := Some (Z.of_nat (String.length buffer));
                   mf_platform := or_null platform;
                   mf_chat_id := or_null chatId;
                   mf_message_id := or_null messageId;
                   mf_processed := Some 0%Z; mf_extracted_text := None;
                   mf_user_id := Some userId; mf_created_at := now;
                   mf_is_permanent := Some 0%Z |}];
          disk := files |},
       Normal {| sf_id := id; sf_filename := filename; sf_category := category;
                 sf_filePath := filePath;
                 sf_fileSize := Z.of_nat (String.length buffer) |}).

(** [WHERE id = ? AND user_id = ?] *)
Definition own_file (id userId : string) (f : media_file) : bool :=
  (mf_id f =? id)%string && sql_eq (mf_user_id f) (Some userId).

(** Get file by ID. *)
Definition getFileById (s : store) (id userId : string) : option media_file :=
  find (own_file id userId) (media_files s).

(** Delete file: the physical file first, the record second. *)
Definition deleteFile (fs : file_system) (s : store) (id userId : string)
  : store * completion bool :=
  match getFileById s id userId with
  | None => (s, Normal false)
  | Some file =>
      if existsSync (disk s) (mf_file_path file)
         && unlink_refused fs (mf_file_path file)
      then (s, Throw (fs_error fs (mf_file_path file)))
      else
        ({| media_files :=
              filter (fun f => negb (own_file id userId f)) (media_files s);
            disk := unlinked (mf_file_path file) (disk s) |},
         Normal true)
  end.

(** Read file content (for documents). *)
Definition readFileContent (s : store) (id userId : string) : option string :=
  match getFileById s id userId with
  | None => None
  | Some file =>
      if existsSync (disk s) (mf_file_path file)
      then readFileSync (disk s) (mf_file_path file)
      else None
  end.

(** Get file stats: one COUNT and SUM per category, added up. *)
Record category_stats := {
  cs_count : Z;
  cs_size : Z
}.

Record file_stats := {
  totalFiles : Z;
  totalSize : Z;
  byCategory : list (string * category_stats)
}.

Definition categories : list string :=
  ["images"; "videos"; "audios"; "documents"].

(** [SELECT COUNT( * ) as count, COALESCE(SUM(file_size), 0) as size
     FROM media_files WHERE category = ? AND user_id = ?] *)
Definition count_and_size (s : store) (category userId : string)
  : category_stats :=
  let rows :=
    filter (fun f => (mf_category f =? category)%string
                     && sql_eq (mf_user_id f) (Some userId))
           (media_files s) in
  {| cs_count := Z.of_nat (length rows);
     cs_size :=
       fold_right (fun f acc => match mf_file_size f with
                                | Some n => (n + acc)%Z
                                | None => acc
                                end) 0%Z rows |}.

Definition getFileStats (s : store) (userId : string) : file_stats :=
  fold_left
    (fun stats category =>
       let result := count_and_size s category userId in
       {| totalFiles := (totalFiles stats + cs_count result)%Z;
          totalSize := (totalSize stats + cs_size result)%Z;
          byCategory := byCategory stats ++ [(category, result)] |})
    categories
    {| totalFiles := 0; totalSize := 0; byCategory := [] |}.

(** [dir.endsWith(suffix)] *)
Fixpoint endsWith (s suffix : string) : bool :=
  (s =? suffix)%string
  || match s with
     | EmptyString => false
     | String _ s' => endsWith s' suffix
     end.

(** Truthiness of a nullable INTEGER. *)
Definition ztruthy (value : option Z) : bool :=
  match value with
  | Some n => negb (n =? 0)%Z
  | None => false
  end.

(** Toggle file permanent status (and move to/from permanent folder). *)
Definition toggleFilePermanent (fs : file_system) (s : store)
  (id userId : string) : store * bool :=
  match getFileById s id userId with
  | None => (s, false)
  | Some file =>
      let newStatus := if ztruthy (mf_is_permanent file) then 0%Z else 1%Z in
      let currentPath := mf_file_path file in
      let dir := path_dirname fs currentPath in
      let filename := path_basename fs currentPath in
      let newDir :=
        if (newStatus =? 1)%Z then
          if negb (endsWith dir "permanent") then path_join fs dir "permanent"
          else dir
        else
          if endsWith dir "permanent" then path_dirname fs dir else dir in
      let newPath := path_join fs newDir filename in
      let flagged (path : media_file -> string) :=
        map (fun f =>
               if own_file id userId f
               then {| mf_id := mf_id f; mf_filename := mf_filename f;
                       mf_original_name := mf_original_name f;
                       mf_mime_type := mf_mime_type f;
                       mf_category := mf_category f; mf_file_path := path f;
                       mf_file_size := mf_file_size f;
                       mf_platform := mf_platform f; mf_chat_id := mf_chat_id f;
                       mf_message_id := mf_message_id f;
                       mf_processed := mf_processed f;
                       mf_extracted_text := mf_extracted_text f;
                       mf_user_id := mf_user_id f;
                       mf_created_at := mf_created_at f;
                       mf_is_permanent := Some newStatus |}
               else f) (media_files s) in
      if negb (currentPath =? newPath)%string && existsSync (disk s) currentPath
      then
        if rename_refused fs currentPath newPath
        then ({| media_files := flagged mf_file_path; disk := disk s |}, true)
        else ({| media_files := flagged (fun _ => newPath);
                 disk := renamed currentPath newPath (disk s) |}, true)
      else ({| media_files := flagged mf_file_path; disk := disk s |}, true)
  end.

(** The rows the retention job selects:
    [created_at < ? AND (is_permanent IS NULL OR is_permanent = 0)]. *)
Definition expired (cutoff : string) (f : media_file) : bool :=
  (mf_created_at f <? cutoff)%string
  && match mf_is_permanent f with
     | None => true
     | Some n => (n =? 0)%Z
     end.

(** One round of the loop of [cleanupOldFiles]: the physical file, with
    any failure caught, then the record, by id. *)
Definition cleanup_step (fs : file_system) (acc : store * Z) (file : media_file)
  : store * Z :=
  let '(s, deletedCount) := acc in
  let files :=
    if existsSync (disk s) (mf_file_path file)
       && negb (unlink_refused fs (mf_file_path file))
    then unlinked (mf_file_path file) (disk s)
    else disk s in
  ({| media_files :=
        filter (fun f => negb (mf_id f =? mf_id file)%string) (media_files s);
      disk := files |},
   (deletedCount + 1)%Z).

(** Clean up old files; [cutoff] is [cutoffDate.toISOString()]. *)
Definition cleanupOldFiles (fs : file_system) (s : store) (cutoff : string)
  : store * Z :=
  fold_left (cleanup_step fs) (filter (expired cutoff) (media_files s)) (s, 0%Z).

End FileStorage.

(* ------------------------------------------------------------------ *)
(** ** Routes of server/index.ts: system logs, keys, memories, tools *)

Module Routes.
Import JsString Order Db Gemini.

(** *** The in-memory buffer of system logs *)

Inductive log_type := LogInfo | LogError | LogWarn.

Record log_entry := {
  le_timestamp : string;
  le_type : log_type;
  le_message : string
}.

Definition MAX_SYSTEM_LOGS : nat := 1000.

(** [args.map(arg => ...)]: every argument is rendered, by [JSON.stringify]
    or by [String]; a rendering that throws ends the mapping. *)
Fixpoint rendered (args : list (completion string)) : completion (list string) :=
  match args with
  | [] => Normal []
  | Throw message :: _ => Throw message
  | Normal text :: rest =>
      match rendered rest with
      | Normal texts => Normal (text :: texts)
      | Throw message => Throw message
      end
  end.

(** [captureLog]: the entry is pushed and, past the maximum, the oldest
    entry is shifted out; any exception is swallowed. *)
Definition captureLog (systemLogs : list log_entry) (now : string)
  (type : log_type) (args : list (completion string)) : list log_entry :=
  match rendered args with
  | Normal texts =>
      let pushed :=
        systemLogs ++ [{| le_timestamp := now; le_type := type;
                          le_message := join " " texts |}] in
      if (MAX_SYSTEM_LOGS <? length pushed)%nat then tl pushed else pushed
  | Throw _ => systemLogs
  end.

(** GET /api/logs/terminal: [systemLogs.slice(-200).reverse()] *)
Definition logs_terminal (systemLogs : list log_entry) : list log_entry :=
  rev (skipn (length systemLogs - 200) systemLogs).

(** *** Replies *)

Inductive route_reply :=
| Success
| BadRequest (error : string).

(** *** Keys *)

(** POST /api/keys: [INSERT INTO gemini_keys (id, key, user_id)]; the
    other columns take their defaults.  [None]: the INSERT is refused by the
    primary key and its exception leaves the handler.  The handler then
    starts [refreshKeyModels] without awaiting it: the discovery of the new
    key is a later step of its own ([KeyDiscovery.store_discovery]). *)
Definition api_keys_create (d : database) (id userId : string)
  (key : option string) : option (database * route_reply) :=
  match key with
  | Some secret =>
      if truthy secret then
        if existsb (fun k => (key_id k =? id)%string) (gemini_keys d) then None
        else
          Some (with_gemini_keys d
                  (gemini_keys d
                   ++ [{| key_id := id; key_secret := secret;
                          key_status := Some "active"; last_used_at := None;
                          key_user_id := Some userId; best_model := None;
                          available_models := None |}]),
                Success)
      else Some (d, BadRequest "API key is required")
  | None => Some (d, BadRequest "API key is required")
  end.

(** DELETE /api/keys/:id *)
Definition api_keys_delete (d : database) (userId id : string) : database :=
  with_gemini_keys d
    (filter (fun k => negb ((key_id k =? id)%string
                            && sql_eq (key_user_id k) (Some userId)))
            (gemini_keys d)).

(** *** Memories *)

(** POST /api/memories: [INSERT INTO user_memories (id, user_id, content,
    memory_type)] with [type || 'core']; [now] is the database's clock. *)
Definition api_memories_create (d : database) (id now userId : string)
  (content type : option string) : option (database * route_reply) :=
  match content with
  | Some text =>
      if truthy text then
        if existsb (fun m => (mem_id m =? id)%string) (user_memories d)
        then None
        else
          Some (with_user_memories d
                  (user_memories d
                   ++ [{| mem_id := id; mem_user_id := userId;
                          mem_content := text; mem_created_at := now;
                          mem_memory_type := or_else type (Some "core");
                          mem_platform := None; mem_external_id := None |}]),
                Success)
      else Some (d, BadRequest "Content is required")
  | None => Some (d, BadRequest "Content is required")
  end.

(** DELETE /api/memories/:id *)
Definition api_memories_delete (d : database) (userId id : string) : database :=
  with_user_memories d
    (filter (fun m => negb ((mem_id m =? id)%string
                            && (mem_user_id m =? userId)%string))
            (user_memories d)).

(** *** Tools *)

Definition with_switches (t : tool) (is_active is_admin_only : Z) : tool :=
  {| tool_id := tool_id t; tool_name := tool_name t;
     tool_endpoint := tool_endpoint t; tool_api_key := tool_api_key t;
     tool_description := tool_description t; tool_is_active := is_active;
     tool_is_admin_only := is_admin_only; tool_user_id := tool_user_id t;
     tool_method := tool_method t; tool_headers := tool_headers t;
     tool_parameter_schema := tool_parameter_schema t;
     tool_auth_type := tool_auth_type t;
     tool_auth_param_name := tool_auth_param_name t |}.

(** [SELECT * FROM tools WHERE id = ? AND user_id = ?] *)
Definition own_tool (d : database) (userId id : string) : option tool :=
  find (fun t => (tool_id t =? id)%string
                 && sql_eq (tool_user_id t) (Some userId)) (tools d).

(** [value ? 0 : 1] on an INTEGER *)
Definition flipped (value : Z) : Z := if (value =? 0)%Z then 1%Z else 0%Z.

(** POST /api/tools/:id/toggle: [UPDATE tools SET is_active = ? WHERE id = ?] *)
Definition api_tools_toggle (d : database) (userId id : string) : database :=
  match own_tool d userId id with
  | Some tool =>
      with_tools d
        (map (fun t => if (tool_id t =? id)%string
                       then with_switches t (flipped (tool_is_active tool))
                              (tool_is_admin_only t)
                       else t) (tools d))
  | None => d
  end.

(** POST /api/tools/:id/toggle-admin:
    [UPDATE tools SET is_admin_only = ? WHERE id = ?] *)
Definition api_tools_toggle_admin (d : database) (userId id : string)
  : database :=
  match own_tool d userId id with
  | Some tool =>
      with_tools d
        (map (fun t => if (tool_id t =? id)%string
                       then with_switches t (tool_is_active t)
                              (flipped (tool_is_admin_only tool))
                       else t) (tools d))
  | None => d
  end.

(** DELETE /api/tools/:id *)
Definition api_tools_delete (d : database) (userId id : string) : database :=
  with_tools d
    (filter (fun t => negb ((tool_id t =? id)%string
                            && sql_eq (tool_user_id t) (Some userId)))
            (tools d)).

End Routes.

(* ------------------------------------------------------------------ *)
(** ** Vocabulary for the statements about the surrounding modules *)

Module Views.
Import JsString Db Gemini Personality ChatLogs Routes.

(** The last [n] elements of a list. *)
Definition last_n {A : Type} (n : nat) (l : list A) : list A :=
  skipn (length l - n) l.

(** A call of [captureLog]. *)
Record log_call := {
  lc_now : string;
  lc_type : log_type;
  lc_args : list (completion string)
}.

(** The buffer after a series of calls. *)
Definition after_calls (calls : list log_call) (systemLogs : list log_entry)
  : list log_entry :=
  fold_left (fun logs c => captureLog logs (lc_now c) (lc_type c) (lc_args c))
            calls systemLogs.

(** The entries of the calls whose arguments could be rendered. *)
Definition logged (calls : list log_call) : list log_entry :=
  flat_map (fun c => match rendered (lc_args c) with
                     | Normal texts =>
                         [{| le_timestamp := lc_now c; le_type := lc_type c;
                             le_message := join " " texts |}]
                     | Throw _ => []
                     end) calls.


(** The recent messages are those of the session: the call is neither for
    a group with its id and platform, nor for a private chat with a known
    sender on a platform other than the playground. *)
Definition session_scope (platform : option string)
  (chatType : option chat_type) (groupId senderId : option string) : bool :=
  negb ((match chatType with Some Group => true | _ => false end)
        && otruthy groupId && otruthy platform)
  && negb ((match chatType with Some Private => true | _ => false end)
           && otruthy senderId && otruthy platform
           && negb (is_text platform "playground")).

(** The bytes of the files of a list whose size is recorded. *)
Definition size_of (files : list FileStorage.media_file) : Z :=
  fold_right (fun f acc => match FileStorage.mf_file_size f with
                           | Some n => (n + acc)%Z
                           | None => acc
                           end) 0%Z files.

(** The files of a tenant. *)
Definition files_of (s : FileStorage.store) (userId : string)
  : list FileStorage.media_file :=
  filter (fun f => sql_eq (FileStorage.mf_user_id f) (Some userId))
         (FileStorage.media_files s).

(** The row [appendChatLog] inserts when the counter stands at [n]. *)
Definition logged_row (rt : runtime) (n : nat) (userId chatId : string)
  (r : role) (content platform : string) (rawResponse : option string)
  (chatType : chat_type) (groupId senderId senderName : option string)
  : chat_log :=
  {| cl_id := uuidv4 rt n; cl_user_id := userId; cl_chat_id := chatId;
     cl_platform := platform; cl_role := r; cl_content := content;
     cl_raw_response := rawResponse; cl_chat_type := chatType;
     cl_group_id := groupId; cl_sender_id := senderId;
     cl_sender_name := senderName |}.

(** [chatId || 'default'], as the chat route and the clearing route
    resolve the session of a request. *)
Definition requested_chat (chatId : option string) : string :=
  match or_else chatId (Some "default") with
  | Some c => c
  | None => "default"
  end.

(** A row of personalities after a successful activation of [id] for
    [userId]. *)
Definition activated (userId id : string) (p : personality) : personality :=
  if sql_eq (p_user_id p) (Some userId)
  then with_active p (if (p_id p =? id)%string then 1 else 0)
  else p.

End Views.

(* ------------------------------------------------------------------ *)
(** ** Further sample data *)

Module Cases.
Import JsString Db Gemini Scenario.

(** A private telegram conversation of carol with alice's bot. *)
Definition carols_context : turn_context :=
  {| cx_userId := "alice"; cx_chatId := "telegram-77"; cx_prompt := "Hello";
     cx_media := []; cx_platform := "telegram"; cx_senderId := Some "carol";
     cx_declarations := [decl_saveMemory]; cx_customTools := [];
     cx_memories := []; cx_preferredModel := "auto"; cx_targetModel := "auto" |}.

(** An integration row for the playground that shares its memories. *)
Definition sharing_playground : platform_integration :=
  {| pi_user_id := Some "alice"; pi_platform := "playground";
     pi_share_active_memory := Some 1%Z |}.

Definition db_sharing_playground : database :=
  {| gemini_keys := []; tools := []; user_memories := [];
     platform_admins := []; platform_integrations := [sharing_playground];
     user_settings_table := []; chat_logs := []; bot_logs := [];
     playground_history := [] |}.

(** Two personas of alice and one of bob. *)
Definition persona (id name prompt owner created : string) (active : Z)
  : Personality.personality :=
  {| Personality.p_id := id; Personality.p_name := name;
     Personality.p_system_prompt := prompt; Personality.p_is_active := active;
     Personality.p_user_id := Some owner; Personality.p_created_at := created |}.

Definition personas : list Personality.personality :=
  [persona "p1" "Butler" "You are a butler." "alice" "2026-01-01 09:00:00" 1;
   persona "p2" "Pirate" "" "alice" "2026-01-02 09:00:00" 0;
   persona "p3" "Coach" "You are a coach." "bob" "2026-01-03 09:00:00" 1].

(** Chat logs of two tenants; in the samples the creation times follow
    the identifiers. *)
Definition stamp (r : chat_log) : string := cl_id r.

Definition log (id user chat : string) (r : role) (content : string) : chat_log :=
  {| cl_id := id; cl_user_id := user; cl_chat_id := chat;
     cl_platform := "playground"; cl_role := r; cl_content := content;
     cl_raw_response := None; cl_chat_type := Private; cl_group_id := None;
     cl_sender_id := None; cl_sender_name := None |}.

Definition db_with_logs : database :=
  {| gemini_keys := []; tools := []; user_memories := [];
     platform_admins := []; platform_integrations := [];
     user_settings_table := [];
     chat_logs := [log "001" "alice" "default" RoleUser "Hi";
                   log "002" "alice" "default" RoleModel "Hello!";
                   log "003" "bob" "default" RoleUser "Hey";
                   log "004" "alice" "work" RoleUser "Plan?"];
     bot_logs := []; playground_history := [] |}.

(** A file system that refuses nothing, and a store with an old upload
    and a permanent one of alice and an upload of bob. *)
Definition plain_fs : FileStorage.file_system :=
  {| FileStorage.path_join := fun a b => a +++ "/" +++ b;
     FileStorage.path_dirname :=
       fun p => substring 0 (String.length p
                             - String.length (FileStorage.last_segment "/" p)
                             - 1) p;
     FileStorage.path_basename := FileStorage.last_segment "/";
     FileStorage.getMediaPath := fun category => "/srv/data/media/" +++ category;
     FileStorage.write_refused := fun _ => false;
     FileStorage.unlink_refused := fun _ => false;
     FileStorage.rename_refused := fun _ _ => false;
     FileStorage.fs_error := fun path => "EACCES: " +++ path |}.

Definition upload (id owner mime category created : string) (permanent : Z)
  : FileStorage.media_file :=
  {| FileStorage.mf_id := id; FileStorage.mf_filename := id +++ ".bin";
     FileStorage.mf_original_name := "upload.bin";
     FileStorage.mf_mime_type := mime; FileStorage.mf_category := category;
     FileStorage.mf_file_path :=
       "/srv/data/media/" +++ category +++ "/" +++ id +++ ".bin";
     FileStorage.mf_file_size := Some 3%Z; FileStorage.mf_platform := None;
     FileStorage.mf_chat_id := None; FileStorage.mf_message_id := None;
     FileStorage.mf_processed := Some 0%Z;
     FileStorage.mf_extracted_text := None;
     FileStorage.mf_user_id := Some owner;
     FileStorage.mf_created_at := created;
     FileStorage.mf_is_permanent := Some permanent |}.

Definition uploads : FileStorage.store :=
  {| FileStorage.media_files :=
       [upload "f1" "alice" "image/png" "images" "2026-02-01 08:00:00" 0;
        upload "f2" "alice" "application/pdf" "documents" "2026-02-01 09:00:00" 1;
        upload "f3" "bob" "audio/ogg" "audios" "2026-02-20 23:30:00" 0];
     FileStorage.disk :=
       [("/srv/data/media/images/f1.bin", "abc");
        ("/srv/data/media/documents/f2.bin", "def");
        ("/srv/data/media/audios/f3.bin", "ghi")] |}.

End Cases.

(* ================================================================== *)
(** * Properties *)

(* ------------------------------------------------------------------ *)
(** ** Stable sorting *)

Module OrderFacts.
Import Order.

Lemma before_nil {A : Type} (x y : A) : ~ before x y [].
Proof.
  intros (l1 & l2 & l3 & H). destruct l1; discriminate.
Qed.

Lemma before_cons_iff {A : Type} (x y z : A) (l : list A) :
  before x y (z :: l) <-> (z = x /\ In y l) \/ before x y l.
Proof.
  split.
  - intros (l1 & l2 & l3 & H). destruct l1 as [|h l1]; simpl in H.
    + injection H as -> ->. left. split; auto.
      apply in_or_app. right. left. reflexivity.
    + injection H as -> ->. right. exists l1, l2, l3. reflexivity.
  - intros [[-> Hin] | (l1 & l2 & l3 & ->)].
    + apply in_split in Hin as (l2 & l3 & ->).
      exists [], l2, l3. reflexivity.
    + exists (z :: l1), l2, l3. reflexivity.
Qed.

Lemma before_In {A : Type} (x y : A) (l : list A) :
  before x y l -> In x l /\ In y l.
Proof.
  intros (l1 & l2 & l3 & ->). split.
  - apply in_or_app. right. left. reflexivity.
  - apply in_or_app. right. right. apply in_or_app. right. left. reflexivity.
Qed.

Lemma before_app_l {A : Type} (x y : A) (l l' : list A) :
  before x y l -> before x y (l ++ l').
Proof.
  intros (l1 & l2 & l3 & ->). exists l1, l2, (l3 ++ l').
  rewrite <- !app_assoc. simpl. rewrite <- app_assoc. reflexivity.
Qed.

Lemma before_app_r {A : Type} (x y : A) (l l' : list A) :
  before x y l' -> before x y (l ++ l').
Proof.
  intros (l1 & l2 & l3 & ->). exists (l ++ l1), l2, l3.
  rewrite <- app_assoc. reflexivity.
Qed.

Lemma before_app_iff {A : Type} (x y : A) (l l' : list A) :
  before x y (l ++ l') <->
  before x y l \/ before x y l' \/ (In x l /\ In y l').
Proof.
  induction l as [|z l IH]; simpl.
  - split.
    + intros H. right. left. exact H.
    + intros [H | [H | [[] _]]]; [destruct (before_nil _ _ H) | exact H].
  - rewrite !before_cons_iff, IH. split.
    + intros [[-> Hin] | [H | [H | [H1 H2]]]].
      * apply in_app_or in Hin as [Hin | Hin]; [left; left | right; right]; auto.
      * left. right. exact H.
      * right. left. exact H.
      * right. right. auto.
    + intros [[[-> Hin] | H] | [H | [[-> | H1] H2]]].
      * left. split; auto. apply in_or_app. auto.
      * right. left. exact H.
      * right. right. left. exact H.
      * left. split; auto. apply in_or_app. auto.
      * right. right. right. auto.
Qed.

Section SortFacts.
Context {A : Type}.
Variable le : A -> A -> bool.

Lemma insert_by_In (x y : A) (l : list A) :
  In y (insert_by le x l) <-> y = x \/ In y l.
Proof.
  induction l as [|z l IH]; simpl.
  - intuition.
  - destruct (le x z); simpl; rewrite ?IH; intuition.
Qed.

Lemma sort_by_In (y : A) (l : list A) : In y (sort_by le l) <-> In y l.
Proof.
  induction l as [|z l IH]; simpl.
  - reflexivity.
  - rewrite insert_by_In, IH. intuition.
Qed.



Hypothesis le_total : forall x y, le x y = true \/ le y x = true.
Hypothesis le_trans : forall x y z, le x y = true -> le y z = true -> le x z = true.

Lemma insert_by_sorted (x : A) (l : list A) :
  StronglySorted (fun u v => le u v = true) l ->
  StronglySorted (fun u v => le u v = true) (insert_by le x l).
Proof.
  induction 1 as [|z l Hs IH Hz]; simpl.
  - constructor; constructor.
  - destruct (le x z) eqn:E.
    + constructor.
      * constructor; assumption.
      * constructor; [exact E|].
        rewrite Forall_forall in *. intros u Hu. eapply le_trans; eauto.
    + constructor; [exact IH|].
      rewrite Forall_forall in *. intros u Hu.
      apply insert_by_In in Hu as [-> | Hu]; auto.
      destruct (le_total x z) as [H | H]; congruence.
Qed.

Lemma sort_by_sorted (l : list A) :
  StronglySorted (fun u v => le u v = true) (sort_by le l).
Proof.
  induction l as [|z l IH]; simpl.
  - constructor.
  - apply insert_by_sorted. exact IH.
Qed.

Lemma sorted_before (a b : A) (l : list A) :
  StronglySorted (fun u v => le u v = true) l -> before a b l -> le a b = true.
Proof.
  induction 1 as [|z l Hs IH Hz]; intros H.
  - destruct (before_nil _ _ H).
  - apply before_cons_iff in H as [[-> Hin] | H]; auto.
    rewrite Forall_forall in Hz. auto.
Qed.

(** In the output, an element in front of another never compares after it. *)
Lemma sort_by_before (a b : A) (l : list A) :
  before a b (sort_by le l) -> le a b = true.
Proof.
  apply sorted_before, sort_by_sorted.
Qed.

End SortFacts.

End OrderFacts.

(* ------------------------------------------------------------------ *)
(** ** The model scorer *)

Module ScoreFacts.
Import JsString ModelDiscovery Statements.

Example documented_ranking :
  (getModelScore "gemini-1.5-flash" < getModelScore "gemini-1.5-pro" /\
   getModelScore "gemini-1.5-pro" < getModelScore "gemini-2.5-flash" /\
   getModelScore "gemini-2.5-flash" < getModelScore "gemini-3.0-pro")%Q.
Proof. repeat split; vm_compute; reflexivity. Qed.

Example score_15_pro : (getModelScore "gemini-1.5-pro" == 1540)%Q.
Proof. vm_compute. reflexivity. Qed.

Example score_flash_preview :
  (getModelScore "Gemini-3.0-Flash-Preview" == 5005)%Q.
Proof. vm_compute. reflexivity. Qed.

Example score_unversioned_pro : (getModelScore "gemini-pro-vision" == 1042)%Q.
Proof. vm_compute. reflexivity. Qed.

Example score_unknown_name : (getModelScore "text-bison" == 20)%Q.
Proof. vm_compute. reflexivity. Qed.






End ScoreFacts.

(* ------------------------------------------------------------------ *)
(** ** Tool registry and the calculator *)

Module ToolFacts.
Import JsString Db Gemini Statements Scenario.

Lemma sql_eq_Some (column : option string) (x : string) :
  sql_eq column (Some x) = true <-> column = Some x.
Proof.
  destruct column as [a|]; simpl.
  - rewrite String.eqb_eq. split; congruence.
  - split; discriminate.
Qed.

Lemma all_chars_false (p : ascii -> bool) (s : string) :
  all_chars p s = false <->
  exists c, In c (list_ascii_of_string s) /\ p c = false.
Proof.
  induction s as [|a s IH]; simpl.
  - split; [discriminate | intros (c & [] & _)].
  - rewrite andb_false_iff, IH. split.
    + intros [H | (c & Hc & Hp)]; eauto.
    + intros (c & [-> | Hc] & Hp); eauto.
Qed.

Lemma all_chars_true (p : ascii -> bool) (s : string) :
  all_chars p s = true <->
  forall c, In c (list_ascii_of_string s) -> p c = true.
Proof.
  induction s as [|a s IH]; simpl.
  - split; [intros _ c [] | reflexivity].
  - rewrite andb_true_iff, IH. split.
    + intros [Ha Hs] c [<- | Hc]; auto.
    + intros H. split; auto.
Qed.

(** The allow-list, spelled out: digits, [+ - * / ( ) .] and white space. *)
Lemma allowed_char_spec (c : ascii) :
  allowed_char c = true <->
  (48 <= code c <= 57)%nat
  \/ In c ["+"; "-"; "*"; "/"; "("; ")"; "."]%char
  \/ In (code c) [9; 10; 11; 12; 13; 32; 160]%nat.
Proof.
  unfold allowed_char, is_digit, is_space, between.
  rewrite !orb_true_iff, !andb_true_iff, !Nat.leb_le, !Nat.eqb_eq.
  simpl existsb. rewrite !orb_true_iff, !Ascii.eqb_eq. simpl In.
  split.
  - intros [[H | H] | H].
    + left. exact H.
    + right. left. intuition congruence.
    + right. right. lia.
  - intros [H | [H | H]].
    + left. left. exact H.
    + left. right. intuition congruence.
    + right. lia.
Qed.

Lemma exec_call_calculator (rt : runtime) (cx : turn_context)
  (call : function_call) :
  fc_name call = "calculator" ->
  exec_call rt cx call = run_calculator rt call.
Proof.
  intros H. unfold exec_call. rewrite H. reflexivity.
Qed.

(** C9: an expression with a character outside the allow-list is answered
    with the text 'Invalid characters in expression' and never reaches the
    evaluator; what reaches the evaluator consists of allowed characters
    only; and the calculator always yields a tool result, never an
    exception, whatever the evaluator does. *)
Theorem calculator_guard (rt : runtime) (cx : turn_context)
  (call : function_call) (expression : string) (w : world) :
  fc_name call = "calculator" ->
  string_arg "expression" (fc_args call) = Some expression ->
  let r := exec_call rt cx call w in
  (outside_allow_list expression ->
   result_of r = respond "calculator" "Invalid characters in expression"
   /\ events_of r = [])
  /\ (forall e, In (Evaluated e) (events_of r) ->
      e = expression
      /\ forall c, In c (list_ascii_of_string e) -> allowed_char c = true)
  /\ (exists text, result_of r = respond "calculator" text)
  /\ world_of r = w.
Proof.
  intros Hname Harg r. subst r.
  rewrite (exec_call_calculator rt cx call Hname).
  unfold run_calculator. rewrite Harg, Hname.
  unfold allowed_expression.
  destruct (all_chars allowed_char expression) eqn:E.
  - assert (Hall := proj1 (all_chars_true _ _) E).
    assert (Hno : ~ outside_allow_list expression).
    { intros (c & Hc & Hp). rewrite (Hall c Hc) in Hp. discriminate. }
    unfold bind, emit, ret, result_of, world_of, events_of.
    destruct (js_eval rt expression) as [value | message]; simpl;
      (split; [intros H; destruct (Hno H) | split; [| split]]);
      try (intros e [H | []]; injection H as <-; split; [reflexivity | exact Hall]);
      try (eexists; reflexivity); reflexivity.
  - unfold ret, result_of, world_of, events_of. simpl.
    split; [intros _; split; reflexivity | split; [| split]].
    + intros e [].
    + eexists. reflexivity.
    + reflexivity.
Qed.

Lemma calculator_guard_witness :
  result_of (exec_call steady_runtime sample_context unsafe_calculation
               (start empty_db))
  = respond "calculator" "Invalid characters in expression"
  /\ events_of (exec_call steady_runtime sample_context unsafe_calculation
                  (start empty_db)) = [].
Proof.
  refine (proj1 (calculator_guard steady_runtime sample_context
                   unsafe_calculation "2+2; process.exit()" (start empty_db)
                   eq_refl eq_refl) _).
  exists ";"%char. split; [simpl; tauto | reflexivity].
Defined.

Example calculator_evaluates_arithmetic :
  exec_call steady_runtime sample_context safe_calculation (start empty_db)
  = (respond "calculator" "4", start empty_db, [Evaluated "(2 + 2) * 1.5"]).
Proof. reflexivity. Qed.





End ToolFacts.

(* ------------------------------------------------------------------ *)
(** ** Memory scoping *)

Module MemoryFacts.
Import JsString Order Db Gemini Statements Scenario OrderFacts ToolFacts.

Lemma In_firstn {A : Type} (n : nat) (x : A) (l : list A) :
  In x (firstn n l) -> In x l.
Proof.
  intros H. rewrite <- (firstn_skipn n l). apply in_or_app. left. exact H.
Qed.

Lemma fetch_memories_selected (d : database) (userId platform : string)
  (senderId : option string) (share : bool) (m : user_memory) :
  In m (fetch_memories d userId platform senderId share) ->
  In m (user_memories d) /\ memory_selected userId platform senderId share m = true.
Proof.
  unfold fetch_memories. intros H.
  apply In_firstn in H. apply sort_by_In in H. apply filter_In in H. exact H.
Qed.

Lemma sql_eq_true (column param : option string) :
  sql_eq column param = true <-> exists s, column = Some s /\ param = Some s.
Proof.
  destruct column as [a|], param as [b|]; simpl;
    try (split; [discriminate | intros (s & H1 & H2); discriminate]).
  rewrite String.eqb_eq. split.
  - intros ->. eauto.
  - intros (s & H1 & H2). congruence.
Qed.

Lemma sql_is_null_true {A : Type} (column : option A) :
  sql_is_null column = true <-> column = None.
Proof. destruct column; simpl; split; congruence. Qed.

(** C4, as stated, fails: a private telegram conversation of dave, sharing
    off, is given alice's learned telegram memory that names no sender. *)
Lemma memory_scope_counterexample :
  shareActiveMemory db_with_memories "alice" "telegram" = false
  /\ In platform_wide_memory
       (fetch_memories db_with_memories "alice" "telegram" (Some "dave") false)
  /\ mem_memory_type platform_wide_memory = Some "active_learning"
  /\ mem_external_id platform_wide_memory <> Some "dave".
Proof.
  repeat split; [simpl; tauto | discriminate].
Qed.

(** C4 (amended): without sharing, the memory query returns only memories
    of the tenant that are of kind core (or carry no kind, which the engine
    treats as core), or of kind active_learning on the current platform with
    an external sender id that is either NULL or the current sender's; it
    never returns an active_learning memory of a different sender. *)
Theorem memory_query_private_scope (d : database) (userId platform : string)
  (senderId : option string) (m : user_memory) :
  shareActiveMemory d userId platform = false ->
  In m (fetch_memories d userId platform senderId
          (shareActiveMemory d userId platform)) ->
  in_private_scope userId platform senderId m
  /\ ~ (mem_memory_type m = Some "active_learning"
        /\ exists other, mem_external_id m = Some other
                         /\ senderId <> Some other).
Proof.
  intros Hshare Hin. rewrite Hshare in Hin.
  apply fetch_memories_selected in Hin as [_ Hsel].
  unfold memory_selected in Hsel.
  repeat (rewrite andb_true_iff in Hsel || rewrite orb_true_iff in Hsel).
  rewrite String.eqb_eq, !sql_eq_Some, !sql_is_null_true, sql_eq_true in Hsel.
  destruct Hsel as [Huser Hkind].
  assert (Hscope : in_private_scope userId platform senderId m).
  { split; [exact Huser|].
    destruct Hkind as [[Hcore | Hnone] | [Hact [[Hp [(s & H1 & H2) | Hnull]] | [Hf _]]]];
      auto; try discriminate.
    - right. right. repeat split; auto. right. exists s. auto.
    - right. right. auto. }
  split; [exact Hscope|].
  intros [Hact (other & Hother & Hneq)].
  destruct Hscope as [_ [Hcore | [Hnone | (_ & _ & [Hnull | (s & H1 & H2)])]]];
    congruence.
Qed.

Lemma memory_query_private_scope_witness :
  in_private_scope "alice" "telegram" (Some "carol") others_memory.
Proof.
  refine (proj1 (memory_query_private_scope db_with_memories "alice" "telegram"
                   (Some "carol") others_memory eq_refl _)).
  simpl. tauto.
Defined.

Example other_sender_not_returned :
  fetch_memories db_with_memories "alice" "telegram" (Some "dave") false
  = [platform_wide_memory].
Proof. reflexivity. Qed.

End MemoryFacts.

(* ------------------------------------------------------------------ *)
(** ** The cascade: which attempts are made, and what they leave *)

Module CascadeFacts.
Import JsString ModelDiscovery Order Db Gemini Statements Scenario OrderFacts.

Lemma bind_result {A B : Type} (m : M A) (f : A -> M B) (w : world) :
  result_of (bind m f w) = result_of (f (result_of (m w)) (world_of (m w))).
Proof.
  unfold bind, result_of, world_of.
  destruct (m w) as [[a w1] e1]. simpl.
  destruct (f a w1) as [[b w2] e2]. reflexivity.
Qed.

Lemma bind_world {A B : Type} (m : M A) (f : A -> M B) (w : world) :
  world_of (bind m f w) = world_of (f (result_of (m w)) (world_of (m w))).
Proof.
  unfold bind, result_of, world_of.
  destruct (m w) as [[a w1] e1]. simpl.
  destruct (f a w1) as [[b w2] e2]. reflexivity.
Qed.

Lemma bind_events {A B : Type} (m : M A) (f : A -> M B) (w : world) :
  events_of (bind m f w)
  = events_of (m w) ++ events_of (f (result_of (m w)) (world_of (m w))).
Proof.
  unfold bind, result_of, world_of, events_of.
  destruct (m w) as [[a w1] e1]. simpl.
  destruct (f a w1) as [[b w2] e2]. reflexivity.
Qed.


Lemma ret_events {A : Type} (a : A) (w : world) : events_of (ret a w) = [].
Proof. reflexivity. Qed.

Lemma ret_result {A : Type} (a : A) (w : world) : result_of (ret a w) = a.
Proof. reflexivity. Qed.

(** *** Variables after one candidate *)

Lemma finish_spec (rt : runtime) (v : turn_vars) (k : gemini_key)
  (m text : string) (w : world) :
  result_of (finish rt v k m text w) = (succeeded v k m text, None)
  /\ events_of (finish rt v k m text w) = []
  /\ logs_of (world_of (finish rt v k m text w)) = logs_of w
  /\ user_memories (db (world_of (finish rt v k m text w))) = user_memories (db w)
  /\ tools (db (world_of (finish rt v k m text w))) = tools (db w).
Proof. repeat split. Qed.

(** An attempt either leaves through the [catch], touching neither the
    text nor the attempts, or ends with a text and is recorded as such. *)
Lemma try_candidate_vars (rt : runtime) (cx : turn_context) (k : gemini_key)
  (m : string) (v : turn_vars) (w : world) :
  let r := result_of (try_candidate rt cx k m v w) in
  match snd r with
  | Some _ =>
      attempts (fst r) = attempts v
      /\ responseText (fst r) = responseText v
      /\ lastError (fst r) = lastError v
  | None =>
      exists text,
        attempts (fst r)
        = attempts v ++ [{| at_key := k; at_model := m; at_end := Returned text |}]
        /\ responseText (fst r) = text
        /\ lastError (fst r) = lastError v
  end.
Proof.
  unfold try_candidate, finish, bind, next_tick, emit, modify_db, ret, result_of.
  simpl.
  destruct (sendMessage rt (tick w) (key_secret k) m (session_of cx)
              (Parts (cx_prompt cx) (cx_media cx))) as [result | message];
    [|simpl; auto].
  destruct (resp_body result) as [message | text calls]; [simpl; auto|].
  destruct calls as [|call calls]; [simpl; eexists; repeat split|].
  destruct (run_tools rt cx (call :: calls) _) as [[results w1] e1].
  destruct (promise_all results) as [frs | message]; [|simpl; auto].
  simpl.
  destruct (sendMessage rt (tick w1) (key_secret k) m (session_of cx)
              (FunctionResponses frs)) as [toolResult | message];
    [|simpl; auto].
  destruct (resp_body toolResult) as [message | text2 calls2]; [simpl; auto|].
  simpl. eexists. repeat split.
Qed.








(** *** The turn, unfolded *)

Lemma conclude_final_vars (rt : runtime) (cx : turn_context) (md : metadata)
  (v : turn_vars) (w : world) :
  final_vars (result_of (conclude rt cx md v w)) = v.
Proof.
  unfold conclude.
  destruct (negb (truthy (responseText v))); [reflexivity|].
  destruct (trim (responseText v) =? "[NO_REPLY]")%string; [reflexivity|].
  rewrite !bind_result. reflexivity.
Qed.

Lemma conclude_events (rt : runtime) (cx : turn_context) (md : metadata)
  (v : turn_vars) (w : world) :
  events_of (conclude rt cx md v w) = [].
Proof.
  unfold conclude.
  destruct (negb (truthy (responseText v))); [reflexivity|].
  destruct (trim (responseText v) =? "[NO_REPLY]")%string; [reflexivity|].
  rewrite !bind_events.
  destruct (cx_platform cx =? "playground")%string; reflexivity.
Qed.

Lemma chatWithGemini_no_keys (rt : runtime) (userId chatId prompt : string)
  (media : list media_item) (md : metadata) (w : world) :
  active_keys (db w) userId = [] ->
  chatWithGemini rt userId chatId prompt media md w
  = ({| outcome := Throw "No active Gemini API keys found";
        final_vars := initial_vars |}, w, []).
Proof.
  intros H. unfold chatWithGemini, bind, read_db. simpl. rewrite H. reflexivity.
Qed.

Lemma chatWithGemini_with_keys (rt : runtime) (userId chatId prompt : string)
  (media : list media_item) (md : metadata) (w : world) :
  active_keys (db w) userId <> [] ->
  chatWithGemini rt userId chatId prompt media md w
  = bind (try_keys rt (fst (turn_setup (db w) userId chatId prompt media md))
            (snd (turn_setup (db w) userId chatId prompt media md))
            initial_vars)
         (conclude rt (fst (turn_setup (db w) userId chatId prompt media md)) md)
         w.
Proof.
  intros H. unfold chatWithGemini at 1. unfold bind at 1, read_db. simpl.
  destruct (active_keys (db w) userId) as [|k ks] eqn:E; [congruence|].
  destruct (turn_setup (db w) userId chatId prompt media md) as [cx keys].
  simpl.
  destruct (bind (try_keys rt cx keys initial_vars) (conclude rt cx md) w)
    as [[r w'] e].
  reflexivity.
Qed.

(** *** The loops write no log *)

Lemma keeps_ret {X A : Type} (g : database -> X) (a : A) : keeps g (ret a).
Proof. intros w. reflexivity. Qed.

Lemma keeps_bind {X A B : Type} (g : database -> X) (m : M A) (k : A -> M B) :
  keeps g m -> (forall a, keeps g (k a)) -> keeps g (bind m k).
Proof.
  intros Hm Hk w. rewrite bind_world, Hk, Hm. reflexivity.
Qed.

Lemma keeps_next_tick {X : Type} (g : database -> X) : keeps g next_tick.
Proof. intros w. reflexivity. Qed.

Lemma keeps_read_db {X : Type} (g : database -> X) : keeps g read_db.
Proof. intros w. reflexivity. Qed.

Lemma keeps_emit {X : Type} (g : database -> X) (e : event) : keeps g (emit e).
Proof. intros w. reflexivity. Qed.

Lemma keeps_modify_db {X : Type} (g : database -> X) (f : database -> database) :
  (forall d, g (f d) = g d) -> keeps g (modify_db f).
Proof. intros H w. unfold modify_db, world_of. simpl. apply H. Qed.

Ltac keep_logs_with known :=
  repeat first
    [ known
    | apply keeps_ret
    | apply keeps_next_tick
    | apply keeps_read_db
    | apply keeps_emit
    | apply keeps_modify_db; intros; reflexivity
    | apply keeps_bind; [|intro]
    | match goal with
      | |- keeps _ (match ?x with _ => _ end) => destruct x
      end ].

Ltac keep_logs := keep_logs_with fail.

Lemma exec_call_logs (rt : runtime) (cx : turn_context) (call : function_call) :
  keeps db_logs (exec_call rt cx call).
Proof.
  unfold exec_call, run_calculator, installTool, deleteTool, run_sendMedia,
    run_custom, run_manageTools, run_saveMemory, insert_tool, respond.
  keep_logs.
Qed.

Lemma run_tools_logs (rt : runtime) (cx : turn_context)
  (calls : list function_call) :
  keeps db_logs (run_tools rt cx calls).
Proof.
  induction calls as [|call rest IH]; simpl.
  - apply keeps_ret.
  - keep_logs_with ltac:(first [apply exec_call_logs | exact IH]).
Qed.

Lemma try_candidate_logs (rt : runtime) (cx : turn_context) (k : gemini_key)
  (m : string) (v : turn_vars) :
  keeps db_logs (try_candidate rt cx k m v).
Proof.
  unfold try_candidate, finish.
  keep_logs_with ltac:(apply run_tools_logs).
Qed.

Lemma try_candidates_logs (rt : runtime) (cx : turn_context) (k : gemini_key)
  (candidates : list string) :
  forall v, keeps db_logs (try_candidates rt cx k candidates v).
Proof.
  induction candidates as [|m rest IH]; intros v; simpl.
  - apply keeps_ret.
  - apply keeps_bind; [apply try_candidate_logs|].
    intros [v' [message|]]; keep_logs_with ltac:(apply IH).
Qed.

Lemma try_keys_logs (rt : runtime) (cx : turn_context)
  (keys : list gemini_key) :
  forall v, keeps db_logs (try_keys rt cx keys v).
Proof.
  induction keys as [|k rest IH]; intros v; simpl.
  - apply keeps_ret.
  - apply keeps_bind; [apply try_candidates_logs|].
    intros v'. keep_logs_with ltac:(apply IH).
Qed.

End CascadeFacts.

(* ------------------------------------------------------------------ *)
(** ** The turn: order of attempts, suppression, exhaustion *)

Module TurnFacts.
Import JsString ModelDiscovery Order Db Gemini Server Statements Scenario.
Import OrderFacts CascadeFacts.

Lemma leb_false_lt (a b : string) :
  (a <=? b)%string = false -> String_as_OT.lt b a.
Proof.
  unfold String.leb. intros H.
  apply String_as_OT.cmp_lt. unfold String_as_OT.cmp.
  rewrite String.compare_antisym.
  destruct (String.compare a b); try discriminate. reflexivity.
Qed.

Lemma leb_true_cases (a b : string) :
  (a <=? b)%string = true -> String_as_OT.lt a b \/ a = b.
Proof.
  unfold String.leb. intros H.
  destruct (String.compare a b) eqn:E; try discriminate.
  - right. apply String.compare_eq_iff. exact E.
  - left. apply String_as_OT.cmp_lt. exact E.
Qed.

Lemma lt_leb (a b : string) : String_as_OT.lt a b -> (a <=? b)%string = true.
Proof.
  intros H. apply String_as_OT.cmp_lt in H. unfold String_as_OT.cmp in H.
  unfold String.leb. rewrite H. reflexivity.
Qed.

Lemma leb_refl (a : string) : (a <=? a)%string = true.
Proof. destruct (String.leb_total a a); assumption. Qed.

Lemma leb_trans (a b c : string) :
  (a <=? b)%string = true -> (b <=? c)%string = true -> (a <=? c)%string = true.
Proof.
  intros H1 H2.
  apply leb_true_cases in H1 as [H1 | ->]; apply leb_true_cases in H2 as [H2 | ->];
    auto using lt_leb, leb_refl.
  apply lt_leb. eapply String_as_OT.lt_trans; eauto.
Qed.

Lemma by_last_used_total (x y : gemini_key) :
  by_last_used x y = true \/ by_last_used y x = true.
Proof.
  unfold by_last_used, sql_le.
  destruct (last_used_at x), (last_used_at y); auto using String.leb_total.
Qed.

Lemma by_last_used_trans (x y z : gemini_key) :
  by_last_used x y = true -> by_last_used y z = true -> by_last_used x z = true.
Proof.
  unfold by_last_used, sql_le.
  destruct (last_used_at x), (last_used_at y), (last_used_at z);
    try discriminate; auto.
  apply leb_trans.
Qed.







(** The variables at the end of a turn are those the loops leave. *)
Lemma turn_final_vars (rt : runtime) (userId chatId prompt : string)
  (media : list media_item) (md : metadata) (w : world) :
  active_keys (db w) userId <> [] ->
  final_vars (result_of (chatWithGemini rt userId chatId prompt media md w))
  = result_of (try_keys rt (fst (turn_setup (db w) userId chatId prompt media md))
                 (snd (turn_setup (db w) userId chatId prompt media md))
                 initial_vars w).
Proof.
  intros H. rewrite (chatWithGemini_with_keys _ _ _ _ _ _ _ H).
  rewrite bind_result. apply conclude_final_vars.
Qed.






(** *** Suppression and exhaustion *)


Lemma conclude_no_reply (rt : runtime) (cx : turn_context) (md : metadata)
  (v : turn_vars) (w : world) :
  responseText v = "[NO_REPLY]" ->
  conclude rt cx md v w
  = ({| outcome := Throw "[NO_REPLY]"; final_vars := v |}, w, []).
Proof. intros H. unfold conclude. rewrite H. reflexivity. Qed.

(** A failed turn, whatever the failure, has written no log. *)
Lemma thrown_turn_logs (rt : runtime) (userId chatId prompt : string)
  (media : list media_item) (md : metadata) (w : world) (message : string) :
  outcome (result_of (chatWithGemini rt userId chatId prompt media md w))
  = Throw message ->
  logs_of (world_of (chatWithGemini rt userId chatId prompt media md w))
  = logs_of w.
Proof.
  destruct (active_keys (db w) userId) as [|k ks] eqn:E.
  - rewrite (chatWithGemini_no_keys _ _ _ _ _ _ _ E). reflexivity.
  - assert (H : active_keys (db w) userId <> []) by (rewrite E; discriminate).
    rewrite (chatWithGemini_with_keys _ _ _ _ _ _ _ H).
    rewrite bind_result, bind_world.
    set (t := try_keys rt _ _ initial_vars w).
    assert (Ht : logs_of (world_of t) = logs_of w) by apply try_keys_logs.
    unfold conclude.
    destruct (negb (truthy (responseText (result_of t)))); [intros _; exact Ht|].
    destruct (trim (responseText (result_of t)) =? "[NO_REPLY]")%string;
      [intros _; exact Ht|].
    rewrite !bind_result. discriminate.
Qed.

Lemma api_bot_chat_reply (rt : runtime) (userId : string) (chatId : option string)
  (prompt : string) (media : list media_item) (w : world) :
  result_of (api_bot_chat rt userId chatId prompt media w)
  = chat_reply (outcome (result_of
      (chatWithGemini rt userId
         (match or_else chatId (Some "default") with
          | Some c => c
          | None => "default"
          end) prompt media no_metadata w))).
Proof. unfold api_bot_chat. rewrite bind_result. reflexivity. Qed.

Lemma platform_delivery_reply (rt : runtime) (userId chatId content : string)
  (media : list media_item) (md : metadata) (w : world) :
  result_of (platform_delivery rt userId chatId content media md w)
  = delivered (outcome (result_of
      (chatWithGemini rt userId chatId content media md w))).
Proof. unfold platform_delivery. rewrite bind_result. reflexivity. Qed.

(** C6: when the text the loops end with is exactly [NO_REPLY], the engine
    throws the suppression signal instead of returning the text; the chat
    endpoint answers 'ignored', the platform handler sends nothing, and no
    chat-log or audit row is written. *)
Theorem no_reply_is_suppressed (rt : runtime) (userId chatId prompt : string)
  (media : list media_item) (md : metadata) (w : world) :
  responseText (final_vars (result_of
    (chatWithGemini rt userId chatId prompt media md w))) = "[NO_REPLY]" ->
  outcome (result_of (chatWithGemini rt userId chatId prompt media md w))
  = Throw "[NO_REPLY]"
  /\ chat_reply (outcome (result_of
        (chatWithGemini rt userId chatId prompt media md w)))
     = JsonIgnored "ignored" "NO_REPLY"
  /\ delivered (outcome (result_of
        (chatWithGemini rt userId chatId prompt media md w))) = None
  /\ logs_of (world_of (chatWithGemini rt userId chatId prompt media md w))
     = logs_of w.
Proof.
  intros H.
  assert (Hout : outcome (result_of
            (chatWithGemini rt userId chatId prompt media md w))
          = Throw "[NO_REPLY]").
  { destruct (active_keys (db w) userId) as [|k ks] eqn:E.
    - rewrite (chatWithGemini_no_keys _ _ _ _ _ _ _ E) in H. discriminate.
    - assert (Hk : active_keys (db w) userId <> []) by (rewrite E; discriminate).
      rewrite (turn_final_vars _ _ _ _ _ _ _ Hk) in H.
      rewrite (chatWithGemini_with_keys _ _ _ _ _ _ _ Hk), bind_result.
      rewrite (conclude_no_reply _ _ _ _ _ H). reflexivity. }
  split; [exact Hout|].
  rewrite Hout. repeat split.
  eapply thrown_turn_logs. exact Hout.
Qed.

Lemma no_reply_is_suppressed_witness :
  outcome (result_of (chatWithGemini silent_runtime "alice" "default" "lol" []
                        (telegram "dave") (start db_two_keys)))
  = Throw "[NO_REPLY]".
Proof.
  refine (proj1 (no_reply_is_suppressed silent_runtime "alice" "default" "lol"
                   [] (telegram "dave") (start db_two_keys) _)).
  vm_compute. reflexivity.
Defined.




Example exhausted_turn_message :
  outcome (result_of
    (chatWithGemini failing_runtime "alice" "default" "hello" [] no_metadata
       (start db_two_keys)))
  = Throw "All API keys failed. Last error: 503 Service Unavailable".
Proof. reflexivity. Qed.

(** *** A preferred model *)

(** C2 (failing input): with the model lists the discovery service writes,
    a preferred model advertised by one credential only is not honoured:
    the turn runs in automatic mode, starts with that credential's best
    model and goes on to the credential that does not advertise the model. *)
Theorem preferred_model_lost_on_discovered_lists :
  supports "gemini-1.5-flash" wide_key = false
  /\ map (fun a => (key_id (at_key a), at_model a))
       (attempts (final_vars (result_of
          (chatWithGemini failing_runtime "alice" "default" "hello" []
             (preferring "gemini-1.5-flash") (start db_discovered)))))
     = [("k-b", "gemini-2.5-pro"); ("k-b", "gemini-1.5-flash");
        ("k-a", "gemini-1.0-pro")].
Proof. split; reflexivity. Qed.

(** The same credentials with their lists in the old format: only the
    credential advertising the model is tried, the preferred model first. *)
Example preferred_model_kept_on_legacy_lists :
  map (fun a => (key_id (at_key a), at_model a))
    (attempts (final_vars (result_of
       (chatWithGemini failing_runtime "alice" "default" "hello" []
          (preferring "gemini-1.5-flash") (start db_legacy)))))
  = [("k-b", "gemini-1.5-flash"); ("k-b", "gemini-2.5-pro")].
Proof. reflexivity. Qed.

(** The failing input is what discovery stores for the credential. *)
Example discovery_stores_model_objects :
  KeyDiscovery.store_discovery listing undiscovered_key = wide_key.
Proof. reflexivity. Qed.

(** The candidate list of a key reads both formats. *)
Example candidates_read_both_formats :
  key_models wide_key = key_models wide_key_legacy.
Proof. reflexivity. Qed.

End TurnFacts.

(* ------------------------------------------------------------------ *)
(** ** The tool round *)

Module RoundFacts.
Import JsString ModelDiscovery Order Db Gemini Server Statements Scenario.
Import OrderFacts CascadeFacts TurnFacts.

Lemma started_app (e1 e2 : list event) :
  started (e1 ++ e2) = started e1 ++ started e2.
Proof. unfold started. apply flat_map_app. Qed.

Lemma sent_app (e1 e2 : list event) : sent (e1 ++ e2) = sent e1 ++ sent e2.
Proof. unfold sent. apply flat_map_app. Qed.

Lemma quiet_ret {A : Type} (a : A) : quiet (ret a).
Proof. intros w. split; reflexivity. Qed.

Lemma quiet_bind {A B : Type} (m : M A) (k : A -> M B) :
  quiet m -> (forall a, quiet (k a)) -> quiet (bind m k).
Proof.
  intros Hm Hk w. rewrite bind_events, started_app, sent_app.
  destruct (Hm w) as [-> ->].
  destruct (Hk (result_of (m w)) (world_of (m w))) as [-> ->].
  split; reflexivity.
Qed.

Lemma quiet_next_tick : quiet next_tick.
Proof. intros w. split; reflexivity. Qed.

Lemma quiet_read_db : quiet read_db.
Proof. intros w. split; reflexivity. Qed.

Lemma quiet_modify_db (g : database -> database) : quiet (modify_db g).
Proof. intros w. split; reflexivity. Qed.

Lemma quiet_evaluated (expression : string) : quiet (emit (Evaluated expression)).
Proof. intros w. split; reflexivity. Qed.

Ltac hush :=
  repeat first
    [ apply quiet_ret
    | apply quiet_next_tick
    | apply quiet_read_db
    | apply quiet_modify_db
    | apply quiet_evaluated
    | apply quiet_bind; [|intro]
    | match goal with
      | |- quiet (match ?x with _ => _ end) => destruct x
      end ].

(** The handlers start no tool and send nothing to the provider. *)
Lemma exec_call_quiet (rt : runtime) (cx : turn_context) (call : function_call) :
  quiet (exec_call rt cx call).
Proof.
  unfold exec_call, run_calculator, installTool, deleteTool, run_sendMedia,
    run_custom, run_manageTools, run_saveMemory, insert_tool, respond.
  hush.
Qed.

(** A tool round starts the handler of every call once, in call order,
    and sends nothing to the provider. *)
Lemma run_tools_events (rt : runtime) (cx : turn_context)
  (calls : list function_call) :
  forall w,
    started (events_of (run_tools rt cx calls w)) = calls
    /\ sent (events_of (run_tools rt cx calls w)) = []
    /\ length (result_of (run_tools rt cx calls w)) = length calls.
Proof.
  induction calls as [|call rest IH]; intros w; simpl.
  - repeat split.
  - rewrite !bind_events, !bind_result, !started_app, !sent_app.
    destruct (exec_call_quiet rt cx call (world_of (emit (ToolStarted call) w)))
      as [-> ->].
    match goal with
    | |- context [run_tools rt cx rest ?w0] => destruct (IH w0) as (-> & -> & Hl)
    end.
    simpl. rewrite Hl, app_nil_r. repeat split.
Qed.


(** *** The recorded attempts are the provider calls *)

Lemma first_calls_app (e1 e2 : list event) :
  first_calls (e1 ++ e2) = first_calls e1 ++ first_calls e2.
Proof. unfold first_calls. apply flat_map_app. Qed.

Lemma first_calls_unsent (events : list event) :
  sent events = [] -> first_calls events = [].
Proof.
  induction events as [|e events IH]; simpl; [reflexivity|].
  destruct e as [k m msg | | | |]; simpl; auto.
  discriminate.
Qed.

Lemma try_candidate_first_call (rt : runtime) (cx : turn_context)
  (k : gemini_key) (m : string) (v : turn_vars) (w : world) :
  first_calls (events_of (try_candidate rt cx k m v w)) = [(k, m)].
Proof.
  unfold try_candidate, finish, bind, next_tick, emit, modify_db, ret, events_of.
  simpl.
  destruct (sendMessage rt (tick w) (key_secret k) m (session_of cx)
              (Parts (cx_prompt cx) (cx_media cx))) as [result | message];
    [|reflexivity].
  destruct (resp_body result) as [message | text calls]; [reflexivity|].
  destruct calls as [|call calls]; [reflexivity|].
  pose proof (run_tools_events rt cx (call :: calls)
                {| db := db w; tick := S (tick w) |}) as (_ & Hsent & _).
  apply first_calls_unsent in Hsent. unfold events_of in Hsent.
  destruct (run_tools rt cx (call :: calls) _) as [[results w1] e1].
  simpl in Hsent.
  destruct (promise_all results) as [frs | message]; simpl.
  2: { rewrite app_nil_r, Hsent. reflexivity. }
  destruct (sendMessage rt (tick w1) (key_secret k) m (session_of cx)
              (FunctionResponses frs)) as [toolResult | message]; simpl.
  2: { rewrite first_calls_app, Hsent. reflexivity. }
  destruct (resp_body toolResult) as [message | text2 calls2]; simpl;
    rewrite first_calls_app, Hsent; reflexivity.
Qed.

Lemma try_candidates_first_calls (rt : runtime) (cx : turn_context)
  (k : gemini_key) (candidates : list string) :
  forall (v : turn_vars) (w : world),
    map (fun a => (at_key a, at_model a)) (attempts v) ++
    first_calls (events_of (try_candidates rt cx k candidates v w))
    = map (fun a => (at_key a, at_model a))
        (attempts (result_of (try_candidates rt cx k candidates v w))).
Proof.
  induction candidates as [|m rest IH]; intros v w; simpl.
  - apply app_nil_r.
  - rewrite bind_events, bind_result, first_calls_app,
      try_candidate_first_call.
    pose proof (try_candidate_vars rt cx k m v w) as H. simpl in H.
    destruct (result_of (try_candidate rt cx k m v w)) as [v' [message|]];
      simpl in H.
    + destruct H as (Ha & _ & _).
      rewrite bind_events, bind_result, first_calls_app. simpl.
      rewrite <- IH. simpl. rewrite Ha, map_app, <- app_assoc. reflexivity.
    + destruct H as (text & Ha & _ & _).
      rewrite ret_events, ret_result, Ha, map_app, app_nil_r. reflexivity.
Qed.

Lemma try_keys_first_calls (rt : runtime) (cx : turn_context)
  (keys : list gemini_key) :
  forall (v : turn_vars) (w : world),
    map (fun a => (at_key a, at_model a)) (attempts v) ++
    first_calls (events_of (try_keys rt cx keys v w))
    = map (fun a => (at_key a, at_model a))
        (attempts (result_of (try_keys rt cx keys v w))).
Proof.
  induction keys as [|k rest IH]; intros v w; simpl.
  - apply app_nil_r.
  - rewrite bind_events, bind_result, first_calls_app, app_assoc,
      try_candidates_first_calls.
    destruct (truthy (responseText (result_of (try_candidates rt cx k _ v w)))).
    + rewrite ret_events, ret_result. apply app_nil_r.
    + rewrite bind_events, bind_result, first_calls_app. simpl.
      apply IH.
Qed.

(** The attempts recorded for a turn are, in order, the candidates for
    which the provider was called with the user's message. *)
Lemma attempts_are_first_calls (rt : runtime) (userId chatId prompt : string)
  (media : list media_item) (md : metadata) (w : world) :
  map (fun a => (at_key a, at_model a))
    (attempts (final_vars (result_of
       (chatWithGemini rt userId chatId prompt media md w))))
  = first_calls (events_of (chatWithGemini rt userId chatId prompt media md w)).
Proof.
  destruct (active_keys (db w) userId) as [|k ks] eqn:E.
  - rewrite (chatWithGemini_no_keys _ _ _ _ _ _ _ E). reflexivity.
  - assert (H : active_keys (db w) userId <> []) by (rewrite E; discriminate).
    rewrite (turn_final_vars _ _ _ _ _ _ _ H).
    rewrite (chatWithGemini_with_keys _ _ _ _ _ _ _ H).
    rewrite bind_events, conclude_events, app_nil_r.
    rewrite <- try_keys_first_calls. reflexivity.
Qed.






(** A turn whose responses never carry a text ends as an exhausted turn
    that has seen no error. *)
Example textless_turn_message :
  outcome (result_of
    (chatWithGemini looping_runtime "alice" "default" "hello" [] no_metadata
       (start db_two_keys)))
  = Throw "All API keys failed. Last error: null".
Proof. vm_compute. reflexivity. Qed.



End RoundFacts.

(* ------------------------------------------------------------------ *)
(** ** Writes of the tools are never undone *)

Module DurableFacts.
Import JsString ModelDiscovery Order Db Gemini Server Statements Scenario.
Import OrderFacts CascadeFacts TurnFacts RoundFacts.












(** *** One handler *)












(** *** The loops and the turn *)








Example failed_turn_leaves_three_memories :
  map mem_content (user_memories (db (world_of
    (chatWithGemini ungrateful_runtime "alice" "default" "hello" []
       (telegram "dave") (start db_two_keys)))))
  = ["Prefers metric units."; "Prefers metric units."; "Prefers metric units."].
Proof. vm_compute. reflexivity. Qed.

End DurableFacts.

(* ------------------------------------------------------------------ *)
(** ** The candidates of a key *)

Module CandidateFacts.
Import JsString ModelDiscovery Order Db Gemini Statements Scenario Observations.
Import OrderFacts.

Lemma existsb_eqb_In (m : string) (l : list string) :
  existsb (String.eqb m) l = true <-> In m l.
Proof.
  rewrite existsb_exists. split.
  - intros (x & Hx & E). apply String.eqb_eq in E. subst. exact Hx.
  - intros H. exists m. split; [exact H | apply String.eqb_refl].
Qed.

Lemma add_unique_extends (keyModels : list string) :
  forall candidates,
    exists more, add_unique candidates keyModels = candidates ++ more.
Proof.
  induction keyModels as [|m rest IH]; intros c; simpl.
  - exists []. rewrite app_nil_r. reflexivity.
  - destruct (existsb (String.eqb m) c).
    + apply IH.
    + destruct (IH (c ++ [m])) as (more & ->). exists (m :: more).
      rewrite <- app_assoc. reflexivity.
Qed.

Lemma NoDup_snoc (m : string) (c : list string) :
  NoDup c -> ~ In m c -> NoDup (c ++ [m]).
Proof.
  induction 1 as [|x c Hx Hc IH]; intros Hm; simpl.
  - constructor; [intros [] | constructor].
  - constructor.
    + intros Hin. apply in_app_or in Hin as [Hin | [<- | []]]; [auto|].
      apply Hm. left. reflexivity.
    + apply IH. intros Hin. apply Hm. right. exact Hin.
Qed.

Lemma add_unique_NoDup (keyModels : list string) :
  forall candidates, NoDup candidates -> NoDup (add_unique candidates keyModels).
Proof.
  induction keyModels as [|m rest IH]; intros c Hc; simpl; [exact Hc|].
  destruct (existsb (String.eqb m) c) eqn:E; [auto|].
  apply IH, NoDup_snoc; [exact Hc|].
  intros Hin. apply existsb_eqb_In in Hin. congruence.
Qed.

Lemma add_unique_complete (keyModels : list string) :
  forall candidates m,
    In m candidates \/ In m keyModels -> In m (add_unique candidates keyModels).
Proof.
  induction keyModels as [|x rest IH]; intros c m; simpl.
  - intros [H | []]. exact H.
  - intros H. apply IH.
    destruct (existsb (String.eqb x) c) eqn:E.
    + destruct H as [H | [<- | H]]; auto.
      left. apply existsb_eqb_In. exact E.
    + destruct H as [H | [<- | H]]; auto; left; apply in_or_app; simpl; auto.
Qed.

(** The list before the fallback is added. *)
Lemma candidates_for_shape (preferredModel targetModel : string) (k : gemini_key) :
  exists c2,
    NoDup c2
    /\ candidates_for preferredModel targetModel k
       = match add_unique c2 (key_models k) with
         | [] => ["gemini-3.0-flash-preview"; "gemini-1.5-flash"]
         | candidates => candidates
         end.
Proof.
  unfold candidates_for.
  destruct (targetModel =? "auto")%string;
    destruct (negb (preferredModel =? "auto")%string);
    destruct (best_model k) as [best|]; simpl;
    try destruct (truthy best);
    eexists; (split; [|reflexivity]);
    repeat constructor; simpl; tauto.
Qed.

(** X1: the candidates of a key are never empty, hold no model twice, and
    hold every model the key is known to serve. *)
Theorem candidates_distinct_and_complete (preferredModel targetModel : string)
  (k : gemini_key) :
  candidates_for preferredModel targetModel k <> []
  /\ NoDup (candidates_for preferredModel targetModel k)
  /\ (forall m, In m (key_models k) ->
                In m (candidates_for preferredModel targetModel k)).
Proof.
  destruct (candidates_for_shape preferredModel targetModel k) as (c2 & Hc2 & ->).
  pose proof (add_unique_NoDup (key_models k) c2 Hc2) as Hnd.
  pose proof (add_unique_complete (key_models k) c2) as Hall.
  destruct (add_unique c2 (key_models k)) as [|c cs].
  - split; [discriminate | split].
    + repeat constructor; simpl; [intros [H | []]; discriminate | tauto].
    + intros m Hm. destruct (Hall m (or_intror Hm)).
  - split; [discriminate | split; [exact Hnd|]].
    intros m Hm. apply Hall. right. exact Hm.
Qed.

(** In automatic mode the first candidate of a key is its best model;
    when a key supporting the preferred model was found, the first candidate
    is the preferred model. *)
Lemma first_candidate (preferredModel targetModel : string) (k : gemini_key)
  (first : string) :
  (targetModel = "auto" /\ best_model k = Some first /\ truthy first = true)
  \/ (targetModel <> "auto" /\ preferredModel <> "auto"
      /\ first = preferredModel) ->
  exists rest, candidates_for preferredModel targetModel k = first :: rest.
Proof.
  intros H. unfold candidates_for.
  assert (E : exists c, (if negb (preferredModel =? "auto")%string
                            && negb (targetModel =? "auto")%string
                         then [preferredModel] else [])
                        = c
                        /\ match best_model k with
                           | Some best =>
                               if (targetModel =? "auto")%string && truthy best
                               then c ++ [best] else c
                           | None => c
                           end = [first]).
  { destruct H as [(-> & Hb & Ht) | (Ht & Hp & ->)].
    - rewrite Hb. simpl. rewrite andb_false_r, Ht. simpl. eauto.
    - apply String.eqb_neq in Ht, Hp. rewrite Ht, Hp. simpl.
      destruct (best_model k); eauto. }
  destruct E as (c & -> & ->).
  destruct (add_unique_extends (key_models k) [first]) as (more & ->).
  simpl. eauto.
Qed.

Lemma first_candidate_witness :
  exists rest,
    candidates_for "auto" "auto" new_key = "gemini-2.5-pro" :: rest.
Proof.
  apply (first_candidate "auto" "auto" new_key "gemini-2.5-pro").
  left. repeat split.
Defined.

End CandidateFacts.

(* ------------------------------------------------------------------ *)
(** ** Rotation of the credentials, and what a turn leaves alone *)

Module RotationFacts.
Import JsString ModelDiscovery Order Db Gemini Statements Scenario Observations.
Import OrderFacts CascadeFacts TurnFacts.

Lemma touch_key_identity (id now : string) (k : gemini_key) :
  key_identity (touch_key id now k) = key_identity k.
Proof. unfold touch_key. destruct (key_id k =? id)%string; reflexivity. Qed.

Lemma touch_key_hit (id now : string) (k : gemini_key) :
  key_id (touch_key id now k) = id ->
  last_used_at (touch_key id now k) = Some now.
Proof.
  unfold touch_key. destruct (String.eqb_spec (key_id k) id); simpl; congruence.
Qed.

(** X2: once a key has answered, the next turn's query (ORDER BY
    last_used_at ASC) lists it behind every key whose last use is older than
    the answer, or that was never used. *)
Theorem used_key_goes_last (rt : runtime) (v : turn_vars) (keyObj : gemini_key)
  (modelName text : string) (w : world) (userId : string) (k k' : gemini_key) :
  key_id k = key_id keyObj ->
  sql_le (Some (iso_now rt (tick w))) (last_used_at k') = false ->
  ~ before k k'
      (active_keys (db (world_of (finish rt v keyObj modelName text w))) userId).
Proof.
  intros Hid Hold Hb.
  pose proof (sort_by_before by_last_used by_last_used_total by_last_used_trans
                k k' _ Hb) as Hle.
  apply before_In in Hb as [Hin _].
  unfold active_keys in Hin. apply sort_by_In in Hin.
  apply filter_In in Hin as [Hin _].
  unfold finish, bind, next_tick, modify_db, ret, world_of in Hin. simpl in Hin.
  apply in_map_iff in Hin as (k0 & <- & _).
  unfold by_last_used in Hle. rewrite (touch_key_hit _ _ _ Hid) in Hle.
  congruence.
Qed.

Lemma used_key_goes_last_witness :
  ~ before (touch_key "k-old" "2026-03-01T00:00:00.000Z" old_key) new_key
      (active_keys
         (db (world_of (finish steady_runtime initial_vars old_key
                          "gemini-1.5-flash" "ok" (start db_two_keys))))
         "alice").
Proof.
  apply (used_key_goes_last steady_runtime initial_vars old_key
           "gemini-1.5-flash" "ok" (start db_two_keys) "alice");
    reflexivity.
Defined.

Example rotation_of_two_keys :
  map key_id
    (active_keys
       (db (world_of (finish steady_runtime initial_vars old_key
                        "gemini-1.5-flash" "ok" (start db_two_keys))))
       "alice")
  = ["k-new"; "k-old"].
Proof. reflexivity. Qed.

(** *** The configuration is read, never written *)

Lemma keeps_touch (id now : string) :
  keeps configuration
    (modify_db (fun d =>
       with_gemini_keys d (map (touch_key id now) (gemini_keys d)))).
Proof.
  apply keeps_modify_db. intros d. unfold configuration. simpl.
  rewrite map_map.
  rewrite (map_ext _ key_identity (touch_key_identity id now)). reflexivity.
Qed.

Lemma exec_call_configuration (rt : runtime) (cx : turn_context)
  (call : function_call) :
  keeps configuration (exec_call rt cx call).
Proof.
  unfold exec_call, run_calculator, installTool, deleteTool, run_sendMedia,
    run_custom, run_manageTools, run_saveMemory, insert_tool, respond.
  keep_logs.
Qed.

Lemma run_tools_configuration (rt : runtime) (cx : turn_context)
  (calls : list function_call) :
  keeps configuration (run_tools rt cx calls).
Proof.
  induction calls as [|call rest IH]; simpl.
  - apply keeps_ret.
  - keep_logs_with ltac:(first [apply exec_call_configuration | exact IH]).
Qed.

Lemma try_candidate_configuration (rt : runtime) (cx : turn_context)
  (k : gemini_key) (m : string) (v : turn_vars) :
  keeps configuration (try_candidate rt cx k m v).
Proof.
  unfold try_candidate, finish.
  keep_logs_with ltac:(first [apply run_tools_configuration | apply keeps_touch]).
Qed.

Lemma try_candidates_configuration (rt : runtime) (cx : turn_context)
  (k : gemini_key) (candidates : list string) :
  forall v, keeps configuration (try_candidates rt cx k candidates v).
Proof.
  induction candidates as [|m rest IH]; intros v; simpl.
  - apply keeps_ret.
  - apply keeps_bind; [apply try_candidate_configuration|].
    intros [v' [message|]]; keep_logs_with ltac:(apply IH).
Qed.

Lemma try_keys_configuration (rt : runtime) (cx : turn_context)
  (keys : list gemini_key) :
  forall v, keeps configuration (try_keys rt cx keys v).
Proof.
  induction keys as [|k rest IH]; intros v; simpl.
  - apply keeps_ret.
  - apply keeps_bind; [apply try_candidates_configuration|].
    intros v'. keep_logs_with ltac:(apply IH).
Qed.

Lemma conclude_configuration (rt : runtime) (cx : turn_context) (md : metadata)
  (v : turn_vars) :
  keeps configuration (conclude rt cx md v).
Proof.
  unfold conclude, appendChatLog, savePlaygroundMessage, insert_bot_log.
  keep_logs.
Qed.

(** X3: a turn, however it ends, changes nothing of a credential but its
    time of last use (no key is added, removed, re-owned, deactivated or
    given other models), and changes no setting, admin or integration. *)
Theorem turn_keeps_configuration (rt : runtime) (userId chatId prompt : string)
  (media : list media_item) (md : metadata) (w : world) :
  configuration (db (world_of (chatWithGemini rt userId chatId prompt media md w)))
  = configuration (db w).
Proof.
  revert w. change (keeps configuration
                      (chatWithGemini rt userId chatId prompt media md)).
  unfold chatWithGemini.
  keep_logs_with ltac:(first [apply try_keys_configuration
                             | apply conclude_configuration]).
Qed.

End RotationFacts.

(* ------------------------------------------------------------------ *)
(** ** Writes stay within the tenant *)

Module IsolationFacts.
Import JsString ModelDiscovery Order Db Gemini Statements Scenario Observations.
Import OrderFacts CascadeFacts.

Lemma filter_filter_weaker {A : Type} (f g : A -> bool) (l : list A) :
  (forall x, f x = true -> g x = true) ->
  filter f (filter g l) = filter f l.
Proof.
  intros H. induction l as [|x l IH]; simpl; [reflexivity|].
  destruct (g x) eqn:G; simpl.
  - rewrite IH. reflexivity.
  - destruct (f x) eqn:F; [rewrite (H x F) in G; discriminate | exact IH].
Qed.

Lemma sql_eq_refl (s : string) : sql_eq (Some s) (Some s) = true.
Proof. apply String.eqb_refl. Qed.

(** Appending a row of the tenant, or deleting rows of the tenant, leaves
    the rows of the others as they are. *)
Ltac own_rows :=
  apply keeps_modify_db; intros; unfold foreign_rows; simpl;
  rewrite ?filter_app; simpl;
  rewrite ?sql_eq_refl, ?String.eqb_refl; simpl;
  rewrite ?app_nil_r;
  first
    [ reflexivity
    | rewrite filter_filter_weaker;
      [ reflexivity
      | intros t Ht; apply negb_true_iff in Ht; rewrite Ht, andb_false_r;
        reflexivity ] ].

Ltac keep_foreign known :=
  keep_logs_with ltac:(first [known | own_rows]).

Lemma exec_call_foreign (rt : runtime) (cx : turn_context)
  (call : function_call) :
  keeps (foreign_rows (cx_userId cx)) (exec_call rt cx call).
Proof.
  unfold exec_call, run_calculator, installTool, deleteTool, run_sendMedia,
    run_custom, run_manageTools, run_saveMemory, insert_tool, respond,
    tool_defaults.
  keep_foreign fail.
Qed.

Lemma run_tools_foreign (rt : runtime) (cx : turn_context)
  (calls : list function_call) :
  keeps (foreign_rows (cx_userId cx)) (run_tools rt cx calls).
Proof.
  induction calls as [|call rest IH]; simpl.
  - apply keeps_ret.
  - keep_logs_with ltac:(first [apply exec_call_foreign | exact IH]).
Qed.

Lemma try_candidate_foreign (rt : runtime) (cx : turn_context)
  (k : gemini_key) (m : string) (v : turn_vars) :
  keeps (foreign_rows (cx_userId cx)) (try_candidate rt cx k m v).
Proof.
  unfold try_candidate, finish.
  keep_logs_with ltac:(apply run_tools_foreign).
Qed.

Lemma try_candidates_foreign (rt : runtime) (cx : turn_context)
  (k : gemini_key) (candidates : list string) :
  forall v, keeps (foreign_rows (cx_userId cx)) (try_candidates rt cx k candidates v).
Proof.
  induction candidates as [|m rest IH]; intros v; simpl.
  - apply keeps_ret.
  - apply keeps_bind; [apply try_candidate_foreign|].
    intros [v' [message|]]; keep_logs_with ltac:(apply IH).
Qed.

Lemma try_keys_foreign (rt : runtime) (cx : turn_context)
  (keys : list gemini_key) :
  forall v, keeps (foreign_rows (cx_userId cx)) (try_keys rt cx keys v).
Proof.
  induction keys as [|k rest IH]; intros v; simpl.
  - apply keeps_ret.
  - apply keeps_bind; [apply try_candidates_foreign|].
    intros v'. keep_logs_with ltac:(apply IH).
Qed.

Lemma conclude_foreign (rt : runtime) (cx : turn_context) (md : metadata)
  (v : turn_vars) :
  keeps (foreign_rows (cx_userId cx)) (conclude rt cx md v).
Proof.
  unfold conclude, appendChatLog, savePlaygroundMessage, insert_bot_log.
  keep_foreign fail.
Qed.

Lemma turn_setup_user (d : database) (userId chatId prompt : string)
  (media : list media_item) (md : metadata) :
  cx_userId (fst (turn_setup d userId chatId prompt media md)) = userId.
Proof. unfold turn_setup. destruct (select_keys _ _). reflexivity. Qed.

(** X4: a turn of one tenant, whatever the provider answers and whatever
    tools it calls, leaves the rows of every other tenant as they were in
    the tables it writes to: tools, memories, chat logs, bot logs and
    playground history. *)
Theorem turn_leaves_foreign_rows (rt : runtime) (userId chatId prompt : string)
  (media : list media_item) (md : metadata) (w : world) :
  foreign_rows userId
    (db (world_of (chatWithGemini rt userId chatId prompt media md w)))
  = foreign_rows userId (db w).
Proof.
  destruct (active_keys (db w) userId) as [|k ks] eqn:E.
  - rewrite (chatWithGemini_no_keys _ _ _ _ _ _ _ E). reflexivity.
  - rewrite chatWithGemini_with_keys by (rewrite E; discriminate).
    pose proof (turn_setup_user (db w) userId chatId prompt media md) as Hu.
    set (cx := fst (turn_setup (db w) userId chatId prompt media md)) in *.
    rewrite <- Hu.
    apply (keeps_bind (foreign_rows (cx_userId cx))).
    + apply try_keys_foreign.
    + intros v. apply conclude_foreign.
Qed.

End IsolationFacts.

(* ------------------------------------------------------------------ *)
(** ** What saveMemory stores, and who gets it back *)

Module RecallFacts.
Import JsString ModelDiscovery Order Db Gemini Statements Scenario Observations.
Import Cases.
Import OrderFacts CascadeFacts.

Lemma exec_call_saveMemory (rt : runtime) (cx : turn_context)
  (call : function_call) (content : string) :
  saves cx call content ->
  exec_call rt cx call = run_saveMemory rt cx call.
Proof.
  intros (Hn & Hf & _). unfold exec_call. rewrite Hf, Hn. reflexivity.
Qed.

(** The row saveMemory appends. *)
Lemma run_saveMemory_row (rt : runtime) (cx : turn_context)
  (call : function_call) (content : string) (w : world) :
  string_arg "content" (fc_args call) = Some content ->
  let share :=
    if negb (cx_platform cx =? "web")%string
    then integration_shares (db w) (cx_userId cx) (cx_platform cx)
    else false in
  db (world_of (run_saveMemory rt cx call w))
  = with_user_memories (db w)
      (user_memories (db w)
       ++ [{| mem_id := uuidv4 rt (tick w); mem_user_id := cx_userId cx;
              mem_content := content;
              mem_created_at := sql_now rt (S (tick w));
              mem_memory_type := Some "active_learning";
              mem_platform := if share then None else Some (cx_platform cx);
              mem_external_id := if share then None else cx_senderId cx |}]).
Proof.
  intros Hc.
  unfold run_saveMemory, bind, next_tick, read_db, modify_db, ret, world_of.
  simpl. rewrite Hc. reflexivity.
Qed.

Lemma integration_shares_memories (d : database) (m : list user_memory)
  (userId platform : string) :
  integration_shares (with_user_memories d m) userId platform
  = integration_shares d userId platform.
Proof. reflexivity. Qed.

(** X5: a memory saved by a turn is matched by the memory query of every
    later turn of the same tenant on the same platform for the same sender
    (the query then keeps the 20 newest matches), unless the platform is
    the playground and an integration row shares its memories. *)
Theorem saved_memory_is_recalled (rt : runtime) (cx : turn_context)
  (call : function_call) (content : string) (w : world) :
  saves cx call content ->
  (cx_platform cx = "playground" ->
   integration_shares (db w) (cx_userId cx) "playground" = false) ->
  exists row,
    user_memories (db (world_of (exec_call rt cx call w)))
    = user_memories (db w) ++ [row]
    /\ mem_content row = content
    /\ memory_selected (cx_userId cx) (cx_platform cx) (cx_senderId cx)
         (shareActiveMemory (db (world_of (exec_call rt cx call w)))
            (cx_userId cx) (cx_platform cx))
         row = true.
Proof.
  intros Hs Hplay.
  rewrite (exec_call_saveMemory rt cx call content Hs).
  destruct Hs as (_ & _ & Hc).
  rewrite (run_saveMemory_row rt cx call content w Hc).
  eexists. split; [reflexivity | split; [reflexivity|]].
  unfold memory_selected, shareActiveMemory.
  rewrite integration_shares_memories. simpl.
  rewrite String.eqb_refl. simpl.
  destruct (String.eqb_spec (cx_platform cx) "web") as [Ew | Ew]; simpl.
  - rewrite andb_false_r, String.eqb_refl.
    destruct (cx_senderId cx); simpl; rewrite ?String.eqb_refl; reflexivity.
  - destruct (integration_shares (db w) (cx_userId cx) (cx_platform cx)) eqn:Es;
      simpl.
    + destruct (String.eqb_spec (cx_platform cx) "playground") as [Ep | Ep].
      * rewrite Ep in Es. rewrite (Hplay Ep) in Es. discriminate.
      * reflexivity.
    + rewrite String.eqb_refl.
      destruct (cx_senderId cx); simpl; rewrite ?String.eqb_refl; reflexivity.
Qed.

Lemma saved_memory_is_recalled_witness :
  exists row,
    user_memories (db (world_of (exec_call steady_runtime sample_context
                                   remember_call (start empty_db))))
    = user_memories (db (start empty_db)) ++ [row]
    /\ mem_content row = "Prefers metric units."
    /\ memory_selected "alice" "playground" None
         (shareActiveMemory
            (db (world_of (exec_call steady_runtime sample_context
                             remember_call (start empty_db))))
            "alice" "playground")
         row = true.
Proof.
  apply (saved_memory_is_recalled steady_runtime sample_context remember_call
           "Prefers metric units." (start empty_db)).
  - repeat split.
  - reflexivity.
Defined.

(** The exception: on the playground, an integration row that shares
    memories makes saveMemory store a platform-less row, which the
    playground's own query does not match. *)
Example shared_playground_memory_is_not_recalled :
  let d' := db (world_of (exec_call steady_runtime sample_context remember_call
                            (start db_sharing_playground))) in
  map mem_content (user_memories d') = ["Prefers metric units."]
  /\ fetch_memories d' "alice" "playground" None
       (shareActiveMemory d' "alice" "playground") = [].
Proof. split; reflexivity. Qed.

(** X6: when memories are not shared, a memory saved in a conversation with
    a known sender is matched by the memory query of exactly the turns of
    that tenant, on that platform, with that sender. *)
Theorem saved_memory_scope (rt : runtime) (cx : turn_context)
  (call : function_call) (content s : string) (w : world) :
  saves cx call content ->
  cx_senderId cx = Some s ->
  cx_platform cx = "web"
  \/ integration_shares (db w) (cx_userId cx) (cx_platform cx) = false ->
  exists row,
    user_memories (db (world_of (exec_call rt cx call w)))
    = user_memories (db w) ++ [row]
    /\ forall userId platform sender share,
         memory_selected userId platform sender share row = true
         <-> userId = cx_userId cx /\ platform = cx_platform cx
             /\ sender = Some s.
Proof.
  intros Hs Hsender Hshare.
  rewrite (exec_call_saveMemory rt cx call content Hs).
  destruct Hs as (_ & _ & Hc).
  rewrite (run_saveMemory_row rt cx call content w Hc).
  assert (E : (if negb (cx_platform cx =? "web")%string
               then integration_shares (db w) (cx_userId cx) (cx_platform cx)
               else false) = false).
  { destruct Hshare as [-> | ->]; [reflexivity|].
    destruct (negb _); reflexivity. }
  rewrite E, Hsender.
  eexists. split; [reflexivity|].
  intros userId platform sender share.
  unfold memory_selected. simpl.
  rewrite andb_false_r, orb_false_r.
  rewrite !andb_true_iff, !String.eqb_eq.
  destruct sender as [s'|]; simpl.
  - rewrite orb_false_r, String.eqb_eq. split.
    + intros (<- & <- & ->). auto.
    + intros (-> & -> & [= ->]). auto.
  - split; [intros (_ & _ & H); discriminate | intros (_ & _ & H); discriminate].
Qed.

Lemma saved_memory_scope_witness :
  exists row,
    user_memories (db (world_of (exec_call steady_runtime carols_context
                                   remember_call (start db_with_memories))))
    = user_memories (db (start db_with_memories)) ++ [row]
    /\ forall userId platform sender share,
         memory_selected userId platform sender share row = true
         <-> userId = "alice" /\ platform = "telegram" /\ sender = Some "carol".
Proof.
  apply (saved_memory_scope steady_runtime carols_context remember_call
           "Prefers metric units." "carol" (start db_with_memories)).
  - repeat split.
  - reflexivity.
  - right. reflexivity.
Defined.

End RecallFacts.

(* ------------------------------------------------------------------ *)
(** ** Which tools a turn declares *)

Module DeclarationFacts.
Import JsString ModelDiscovery Order Db Gemini Statements Scenario Observations.
Import Cases OrderFacts CascadeFacts.











End DeclarationFacts.

(* ------------------------------------------------------------------ *)
(** ** What discovery stores for a key *)

Module DiscoveryFacts.
Import JsString ModelDiscovery Order Db KeyDiscovery Gemini Statements Scenario.
Import Observations OrderFacts CandidateFacts.






Example discovery_of_the_listing :
  best_model (store_discovery listing undiscovered_key) = Some "gemini-2.5-pro"
  /\ candidates_for "auto" "auto" (store_discovery listing undiscovered_key)
     = ["gemini-2.5-pro"; "gemini-1.5-flash"].
Proof. split; vm_compute; reflexivity. Qed.

End DiscoveryFacts.

(* ------------------------------------------------------------------ *)
(** ** Personalities *)

Module PersonalityFacts.
Import JsString Order Db Personality Views Cases OrderFacts ToolFacts.

Lemma find_none_forall {A : Type} (f : A -> bool) (l : list A) :
  find f l = None <-> forall x, In x l -> f x = false.
Proof.
  split.
  - intros H x Hx. exact (find_none f l H x Hx).
  - induction l as [|y l IH]; intros H; simpl; [reflexivity|].
    rewrite (H y (or_introl eq_refl)). apply IH. intros x Hx. apply H. right. exact Hx.
Qed.

Lemma filter_all {A : Type} (f : A -> bool) (l : list A) :
  (forall x, In x l -> f x = true) -> filter f l = l.
Proof.
  induction l as [|y l IH]; intros H; simpl; [reflexivity|].
  rewrite (H y (or_introl eq_refl)). f_equal. apply IH.
  intros x Hx. apply H. right. exact Hx.
Qed.

Lemma existsb_none {A : Type} (f : A -> bool) (l : list A) :
  (forall x, In x l -> f x = false) -> existsb f l = false.
Proof.
  induction l as [|y l IH]; intros H; simpl; [reflexivity|].
  rewrite (H y (or_introl eq_refl)). apply IH.
  intros x Hx. apply H. right. exact Hx.
Qed.

Lemma existsb_false_In {A : Type} (f : A -> bool) (l : list A) :
  existsb f l = false -> forall x, In x l -> f x = false.
Proof.
  induction l as [|y l IH]; simpl; intros H x Hx; [destruct Hx|].
  apply orb_false_iff in H as [Hy Hl].
  destruct Hx as [<- | Hx]; auto.
Qed.

Lemma owned_row_spec (userId id : string) (p : personality) :
  owned_row userId id p = true <-> p_id p = id /\ p_user_id p = Some userId.
Proof.
  unfold owned_row. rewrite andb_true_iff, String.eqb_eq, sql_eq_Some. tauto.
Qed.

Lemma activated_user (userId id : string) (p : personality) :
  p_user_id (activated userId id p) = p_user_id p.
Proof.
  unfold activated. destruct (sql_eq (p_user_id p) (Some userId)); reflexivity.
Qed.

Lemma setActivePersonality_rows (t : list personality) (userId id : string) :
  find (owned_row userId id) t <> None ->
  fst (setActivePersonality t userId id) = map (activated userId id) t.
Proof.
  intros H. unfold setActivePersonality.
  destruct (find (owned_row userId id) t) as [found|]; [|congruence]. simpl.
  rewrite map_map. apply map_ext. intros p. unfold activated, owned_row.
  destruct (sql_eq (p_user_id p) (Some userId)) eqn:E; simpl.
  - rewrite E. destruct (p_id p =? id)%string; reflexivity.
  - rewrite E, andb_false_r. reflexivity.
Qed.

Lemma setActivePersonality_success (t t' : list personality)
  (userId id : string) (p : personality) :
  setActivePersonality t userId id = (t', Some p) ->
  exists row, In row t /\ owned_row userId id row = true
              /\ t' = map (activated userId id) t.
Proof.
  intros H.
  pose proof (setActivePersonality_rows t userId id) as Hrows.
  unfold setActivePersonality in *.
  destruct (find (owned_row userId id) t) as [row|] eqn:E; [|discriminate].
  apply find_some in E as [Hin Hrow].
  exists row. split; [exact Hin | split; [exact Hrow|]].
  rewrite <- Hrows by discriminate. injection H as <- _. reflexivity.
Qed.

(** X10: after a successful activation the tenant has the chosen
    personality active and no other; the engine's lookup returns it; and
    no row of another tenant, and no column but is_active, has changed. *)
Theorem activation_is_exclusive (t t' : list personality) (userId id now : string)
  (p : personality) :
  setActivePersonality t userId id = (t', Some p) ->
  (forall q, In q t' -> p_user_id q = Some userId ->
             (p_is_active q = 1%Z <-> p_id q = id))
  /\ p_id (getActivePersonality t' now userId) = id
  /\ p_id p = id
  /\ map (fun q => with_active q 0) t' = map (fun q => with_active q 0) t
  /\ filter (fun q => negb (sql_eq (p_user_id q) (Some userId))) t'
     = filter (fun q => negb (sql_eq (p_user_id q) (Some userId))) t.
Proof.
  intros H.
  assert (Hp : p_id p = id).
  { unfold setActivePersonality in H.
    destruct (find (owned_row userId id) t) as [found|]; [|discriminate].
    injection H as _ H. unfold by_id in H.
    apply find_some in H as [_ H]. apply String.eqb_eq. exact H. }
  destruct (setActivePersonality_success t t' userId id p H)
    as (row & Hin & Hrow & ->).
  assert (Hrows : forall q, In q (map (activated userId id) t) ->
                            p_user_id q = Some userId ->
                            (p_is_active q = 1%Z <-> p_id q = id)).
  { intros q Hq Hu. apply in_map_iff in Hq as (q0 & <- & _).
    unfold activated in *.
    destruct (sql_eq (p_user_id q0) (Some userId)) eqn:E.
    - simpl. destruct (String.eqb_spec (p_id q0) id); split; congruence.
    - apply sql_eq_Some in Hu. congruence. }
  split; [exact Hrows | split; [|split; [exact Hp | split]]].
  - unfold getActivePersonality.
    destruct (find _ (map (activated userId id) t)) as [found|] eqn:E.
    + apply find_some in E as [Hf Ha].
      apply andb_true_iff in Ha as [Hu Ha].
      apply sql_eq_Some in Hu. apply Z.eqb_eq in Ha. simpl.
      apply (Hrows found Hf Hu). exact Ha.
    + exfalso.
      apply (proj1 (find_none_forall _ _)) with (x := activated userId id row)
        in E; [|apply in_map; exact Hin].
      apply owned_row_spec in Hrow as [Hid Hu].
      unfold activated in E. rewrite (proj2 (sql_eq_Some _ _) Hu) in E.
      simpl in E. rewrite (proj2 (sql_eq_Some _ _) Hu), Hid, String.eqb_refl in E.
      discriminate.
  - rewrite map_map. apply map_ext. intros q. unfold activated.
    destruct (sql_eq (p_user_id q) (Some userId)); reflexivity.
  - clear. induction t as [|q t IH]; simpl; [reflexivity|].
    rewrite activated_user.
    destruct (sql_eq (p_user_id q) (Some userId)) eqn:E; simpl; rewrite IH;
      [reflexivity|].
    unfold activated. rewrite E. reflexivity.
Qed.

Lemma activation_is_exclusive_witness :
  p_id (getActivePersonality
          (fst (setActivePersonality personas "alice" "p2"))
          "2026-03-01T00:00:00.000Z" "alice")
  = "p2".
Proof.
  refine (proj1 (proj2 (activation_is_exclusive personas
                          (fst (setActivePersonality personas "alice" "p2"))
                          "alice" "p2" "2026-03-01T00:00:00.000Z"
                          (with_active (persona "p2" "Pirate" "" "alice"
                                          "2026-01-02 09:00:00" 0) 1)
                          _))).
  reflexivity.
Defined.

Example activation_moves_the_flag :
  map (fun q => (p_id q, p_is_active q))
      (fst (setActivePersonality personas "alice" "p2"))
  = [("p1", 0%Z); ("p2", 1%Z); ("p3", 1%Z)].
Proof. reflexivity. Qed.

(** X11: the persona the engine is given always belongs to the tenant, is
    active and has a non-empty system prompt: the default prompt stands in
    for an empty one and for a tenant with no active personality. *)
Theorem persona_is_always_usable (t : list personality) (now userId : string) :
  truthy (p_system_prompt (getActivePersonality t now userId)) = true
  /\ p_user_id (getActivePersonality t now userId) = Some userId
  /\ p_is_active (getActivePersonality t now userId) = 1%Z.
Proof.
  unfold getActivePersonality.
  destruct (find _ t) as [row|] eqn:E; simpl.
  - apply find_some in E as [_ E]. apply andb_true_iff in E as [Hu Ha].
    apply sql_eq_Some in Hu. apply Z.eqb_eq in Ha.
    split; [|split; assumption].
    destruct (truthy (p_system_prompt row)) eqn:T; [exact T | reflexivity].
  - repeat split.
Qed.

Example empty_prompt_is_replaced :
  p_system_prompt
    (getActivePersonality (fst (setActivePersonality personas "alice" "p2"))
       "2026-03-01T00:00:00.000Z" "alice")
  = DEFAULT_SYSTEM_PROMPT.
Proof. reflexivity. Qed.

(** X12: a personality id that is unknown, or that belongs to another
    tenant, is out of reach: update and activation answer null, deletion
    answers false, and the table stays as it was. *)
Theorem foreign_personality_is_out_of_reach (t : list personality)
  (userId id : string) (name system_prompt : option string) :
  (forall p, In p t -> p_id p = id -> p_user_id p <> Some userId) ->
  updatePersonality t userId id name system_prompt = (t, None)
  /\ setActivePersonality t userId id = (t, None)
  /\ deletePersonality t userId id = (t, false).
Proof.
  intros H.
  assert (Hnone : forall p, In p t -> owned_row userId id p = false).
  { intros p Hp. destruct (owned_row userId id p) eqn:E; [|reflexivity].
    apply owned_row_spec in E as [Hid Hu]. destruct (H p Hp Hid Hu). }
  unfold updatePersonality, setActivePersonality, deletePersonality.
  rewrite (proj2 (find_none_forall _ _) Hnone).
  repeat split. f_equal.
  - apply filter_all. intros p Hp. rewrite (Hnone p Hp). reflexivity.
  - apply existsb_none. exact Hnone.
Qed.

Lemma foreign_personality_is_out_of_reach_witness :
  updatePersonality personas "alice" "p3" (Some "Mine") None = (personas, None)
  /\ setActivePersonality personas "alice" "p3" = (personas, None)
  /\ deletePersonality personas "alice" "p3" = (personas, false).
Proof.
  apply (foreign_personality_is_out_of_reach personas "alice" "p3").
  intros p Hp Hid.
  simpl in Hp.
  destruct Hp as [<- | [<- | [<- | []]]]; simpl in *; congruence.
Defined.

Lemma find_snoc_skip {A : Type} (f : A -> bool) (l : list A) (x : A) :
  f x = false -> find f (l ++ [x]) = find f l.
Proof.
  intros H. induction l as [|y l IH]; simpl.
  - rewrite H. reflexivity.
  - destruct (f y); [reflexivity | exact IH].
Qed.

Lemma find_snoc_new {A : Type} (f : A -> bool) (l : list A) (x : A) :
  existsb f l = false -> f x = true -> find f (l ++ [x]) = Some x.
Proof.
  intros Hl Hx. induction l as [|y l IH]; simpl in *.
  - rewrite Hx. reflexivity.
  - apply orb_false_iff in Hl as [Hy Hl]. rewrite Hy. auto.
Qed.

(** X13: a created personality is returned as stored, is listed for its
    tenant, and is not active: the persona the engine gets for any tenant
    is the same as before the creation. *)
Theorem created_personality_is_inactive (t t' : list personality)
  (id now userId name systemPrompt : string) (r : option personality) :
  createPersonality t id now userId name systemPrompt = Some (t', r) ->
  r = Some {| p_id := id; p_name := name; p_system_prompt := systemPrompt;
              p_is_active := 0; p_user_id := Some userId;
              p_created_at := now |}
  /\ In {| p_id := id; p_name := name; p_system_prompt := systemPrompt;
           p_is_active := 0; p_user_id := Some userId; p_created_at := now |}
        (listPersonalities t' userId)
  /\ (forall now' other,
        getActivePersonality t' now' other = getActivePersonality t now' other).
Proof.
  unfold createPersonality. intros H.
  destruct (existsb (fun p => (p_id p =? id)%string) t) eqn:E; [discriminate|].
  injection H as <- <-.
  split; [|split].
  - unfold by_id. apply find_snoc_new; [exact E | apply String.eqb_refl].
  - unfold listPersonalities. apply sort_by_In. apply filter_In. split.
    + apply in_or_app. right. left. reflexivity.
    + apply String.eqb_refl.
  - intros now' other. unfold getActivePersonality.
    rewrite find_snoc_skip; [reflexivity|].
    simpl. apply andb_false_r.
Qed.

Lemma created_personality_is_inactive_witness :
  getActivePersonality
    (personas ++ [persona "p4" "Poet" "You are a poet." "alice"
                    "2026-03-01 10:00:00" 0])
    "2026-03-01T10:00:01.000Z" "alice"
  = getActivePersonality personas "2026-03-01T10:00:01.000Z" "alice".
Proof.
  exact (proj2 (proj2 (created_personality_is_inactive personas
                         (personas ++ [persona "p4" "Poet" "You are a poet."
                                         "alice" "2026-03-01 10:00:00" 0])
                         "p4" "2026-03-01 10:00:00" "alice" "Poet"
                         "You are a poet."
                         (Some (persona "p4" "Poet" "You are a poet." "alice"
                                  "2026-03-01 10:00:00" 0))
                         eq_refl))
               "2026-03-01T10:00:01.000Z" "alice").
Defined.

(** X14: deleting the personality that was just activated leaves the
    tenant with no active personality, and the engine falls back to the
    default persona. *)
Theorem deleting_the_active_persona_restores_default (t t1 : list personality)
  (userId id now : string) (p : personality) :
  setActivePersonality t userId id = (t1, Some p) ->
  snd (deletePersonality t1 userId id) = true
  /\ getActivePersonality (fst (deletePersonality t1 userId id)) now userId
     = {| p_id := EmptyString; p_name := "Default";
          p_system_prompt := DEFAULT_SYSTEM_PROMPT; p_is_active := 1;
          p_user_id := Some userId; p_created_at := now |}.
Proof.
  intros H.
  destruct (setActivePersonality_success t t1 userId id p H)
    as (row & Hin & Hrow & ->).
  apply owned_row_spec in Hrow as [Hid Hu].
  unfold deletePersonality. simpl. split.
  - apply existsb_exists. exists (activated userId id row).
    split; [apply in_map; exact Hin|].
    apply owned_row_spec. rewrite activated_user.
    unfold activated. rewrite (proj2 (sql_eq_Some _ _) Hu). simpl. auto.
  - unfold getActivePersonality.
    rewrite (proj2 (find_none_forall _ _)); [reflexivity|].
    intros q Hq. apply filter_In in Hq as [Hq Hno].
    apply in_map_iff in Hq as (q0 & <- & _).
    apply negb_true_iff in Hno. unfold owned_row in Hno.
    rewrite activated_user in *.
    destruct (sql_eq (p_user_id q0) (Some userId)) eqn:E; [|reflexivity].
    rewrite andb_true_r in Hno. simpl.
    unfold activated in *. rewrite E in *. simpl in *. rewrite Hno. reflexivity.
Qed.

Lemma deleting_the_active_persona_restores_default_witness :
  getActivePersonality
    (fst (deletePersonality (fst (setActivePersonality personas "alice" "p2"))
            "alice" "p2"))
    "2026-03-01T00:00:00.000Z" "alice"
  = {| p_id := EmptyString; p_name := "Default";
       p_system_prompt := DEFAULT_SYSTEM_PROMPT; p_is_active := 1;
       p_user_id := Some "alice";
       p_created_at := "2026-03-01T00:00:00.000Z" |}.
Proof.
  exact (proj2 (deleting_the_active_persona_restores_default personas
                  (fst (setActivePersonality personas "alice" "p2"))
                  "alice" "p2" "2026-03-01T00:00:00.000Z"
                  (with_active (persona "p2" "Pirate" "" "alice"
                                  "2026-01-02 09:00:00" 0) 1)
                  eq_refl)).
Defined.

End PersonalityFacts.

(* ------------------------------------------------------------------ *)
(** ** Chat logs and the history of a turn *)

Module ChatLogFacts.
Import JsString Order Db Gemini Statements Scenario ChatLogs Views Cases.
Import OrderFacts CascadeFacts TurnFacts.

Lemma sql_limit_In {A : Type} (limit offset : Z) (l : list A) (x : A) :
  In x (sql_limit limit offset l) -> In x l.
Proof.
  unfold sql_limit. intros H.
  assert (Hs : In x (skipn (Z.to_nat offset) l)).
  { destruct (limit <? 0)%Z; [exact H|].
    rewrite <- (firstn_skipn (Z.to_nat limit)). apply in_or_app. left. exact H. }
  rewrite <- (firstn_skipn (Z.to_nat offset) l). apply in_or_app. right. exact Hs.
Qed.

Lemma sql_limit_length {A : Type} (limit offset : Z) (l : list A) :
  (0 <= limit)%Z -> (length (sql_limit limit offset l) <= Z.to_nat limit)%nat.
Proof.
  intros H. unfold sql_limit.
  destruct (Z.ltb_spec limit 0); [lia|].
  rewrite length_firstn. lia.
Qed.

Section Sorted.
Context {A : Type}.
Variable R : A -> A -> Prop.

Lemma sorted_skipn (n : nat) (l : list A) :
  StronglySorted R l -> StronglySorted R (skipn n l).
Proof.
  revert l. induction n as [|n IH]; intros l H; simpl; [exact H|].
  destruct l as [|x l]; [constructor|]. apply IH. inversion H. assumption.
Qed.

Lemma sorted_firstn (n : nat) (l : list A) :
  StronglySorted R l -> StronglySorted R (firstn n l).
Proof.
  revert l. induction n as [|n IH]; intros l H; simpl; [constructor|].
  destruct l as [|x l]; [constructor|].
  inversion H as [|? ? Hs Hx]; subst. constructor; [apply IH; exact Hs|].
  rewrite Forall_forall in *. intros y Hy. apply Hx.
  rewrite <- (firstn_skipn n l). apply in_or_app. left. exact Hy.
Qed.



End Sorted.

Lemma In_firstn_skipn {A : Type} (n m : nat) (l : list A) (x : A) :
  In x (firstn n (skipn m l)) -> In x l.
Proof.
  intros H. rewrite <- (firstn_skipn m l). apply in_or_app. right.
  rewrite <- (firstn_skipn n (skipn m l)). apply in_or_app. left. exact H.
Qed.

Section Stamps.
Variable created_at : chat_log -> string.

Lemma newest_log_first_total (a b : chat_log) :
  newest_log_first created_at a b = true \/ newest_log_first created_at b a = true.
Proof.
  unfold newest_log_first.
  destruct (String.leb_total (created_at a) (created_at b)); auto.
Qed.

Lemma newest_log_first_trans (a b c : chat_log) :
  newest_log_first created_at a b = true ->
  newest_log_first created_at b c = true ->
  newest_log_first created_at a c = true.
Proof.
  unfold newest_log_first. intros H1 H2. eapply leb_trans; eauto.
Qed.

(** What the query gives: rows of the table that are selected, at most
    [limit] of them, newest first. *)
Lemma newest_spec (selected : chat_log -> bool) (limit offset : Z)
  (d : database) :
  Forall (fun r => In r (chat_logs d) /\ selected r = true)
         (newest created_at selected limit offset d)
  /\ ((0 <= limit)%Z ->
      (length (newest created_at selected limit offset d) <= Z.to_nat limit)%nat)
  /\ StronglySorted
       (fun a b => (created_at b <=? created_at a)%string = true)
       (newest created_at selected limit offset d).
Proof.
  unfold newest. split; [|split].
  - apply Forall_forall. intros r Hr.
    apply sql_limit_In in Hr. apply sort_by_In in Hr.
    apply filter_In in Hr. exact Hr.
  - apply sql_limit_length.
  - pose proof (sort_by_sorted (newest_log_first created_at)
                  newest_log_first_total newest_log_first_trans
                  (filter selected (chat_logs d))) as Hs.
    unfold sql_limit.
    destruct (limit <? 0)%Z; [|apply sorted_firstn]; apply sorted_skipn;
      exact Hs.
Qed.


Lemma shift_model_spec (h : list history_row) :
  exists dropped,
    h = dropped ++ shift_model h
    /\ Forall (fun m => h_role m = RoleModel) dropped
    /\ (forall m rest, shift_model h = m :: rest -> h_role m = RoleUser).
Proof.
  induction h as [|x h (dropped & Hd & Hm & Hu)]; simpl.
  - exists []. repeat split; [constructor | discriminate].
  - destruct (h_role x) eqn:E.
    + exists []. repeat split; [constructor|].
      intros m rest [= <- <-]. exact E.
    + exists (x :: dropped). simpl. rewrite <- Hd.
      repeat split; [constructor; assumption | exact Hu].
Qed.

Lemma getRecentChatLogs_length (d : database) (userId chatId : string)
  (limit : Z) (platform : option string) (chatType : option chat_type)
  (groupId senderId : option string) :
  (0 <= limit)%Z ->
  (length (getRecentChatLogs created_at d userId chatId limit platform chatType
             groupId senderId) <= Z.to_nat limit)%nat.
Proof.
  intros H. unfold getRecentChatLogs.
  repeat match goal with
         | |- context [if ?b then _ else _] => destruct b
         end;
    rewrite length_rev, length_map; apply newest_spec; exact H.
Qed.

(** X16: the history a chat session is started with never begins with a
    model message, holds at most ten messages, and is what is left of the
    recent messages once the model messages in front of the first user
    message are dropped. *)
Theorem history_starts_with_the_user (d : database) (userId chatId : string)
  (md : metadata) :
  (forall m rest,
     history created_at d userId chatId md = m :: rest -> h_role m = RoleUser)
  /\ (length (history created_at d userId chatId md) <= 10)%nat
  /\ exists dropped,
       getRecentChatLogs created_at d userId chatId 10 (Some (platform_of md))
         (Some (chatType_of md)) (md_groupId md) (md_senderId md)
       = dropped ++ history created_at d userId chatId md
       /\ Forall (fun m => h_role m = RoleModel) dropped.
Proof.
  unfold history, CONTEXT_MESSAGE_LIMIT.
  pose proof (getRecentChatLogs_length d userId chatId 10
                (Some (platform_of md)) (Some (chatType_of md)) (md_groupId md)
                (md_senderId md)) as Hlen.
  destruct (shift_model_spec
              (getRecentChatLogs created_at d userId chatId 10
                 (Some (platform_of md)) (Some (chatType_of md)) (md_groupId md)
                 (md_senderId md))) as (dropped & Hd & Hm & Hu).
  split; [exact Hu | split].
  - rewrite Hd in Hlen at 1. rewrite length_app in Hlen.
    assert (Z.to_nat 10 = 10%nat) by reflexivity. lia.
  - exists dropped. split; [exact Hd | exact Hm].
Qed.

Lemma filter_complement {A : Type} (f : A -> bool) (l : list A) :
  filter f (filter (fun x => negb (f x)) l) = [].
Proof.
  induction l as [|x l IH]; simpl; [reflexivity|].
  destruct (f x) eqn:E; simpl; [exact IH | rewrite E; exact IH].
Qed.

Lemma sql_limit_nil {A : Type} (limit offset : Z) :
  sql_limit limit offset (@nil A) = [].
Proof.
  unfold sql_limit. rewrite skipn_nil, firstn_nil.
  destruct (limit <? 0)%Z; reflexivity.
Qed.

(** X17: after POST /api/bot/clear-memory the session of the request has
    no recent messages and a playground turn on it starts with an empty
    history; the memories of the tenant are untouched, and so is every
    chat log of another tenant or another session. *)
Theorem cleared_session_has_no_history (d : database) (userId : string)
  (chatId : option string) (limit : Z) (platform : option string)
  (chatType : option chat_type) (groupId senderId : option string) :
  session_scope platform chatType groupId senderId = true ->
  getRecentChatLogs created_at (clear_memory d userId chatId) userId
    (requested_chat chatId) limit platform chatType groupId senderId = []
  /\ history created_at (clear_memory d userId chatId) userId
       (requested_chat chatId) no_metadata = []
  /\ user_memories (clear_memory d userId chatId) = user_memories d
  /\ (forall r, In r (chat_logs d) ->
                cl_user_id r <> userId \/ cl_chat_id r <> requested_chat chatId ->
                In r (chat_logs (clear_memory d userId chatId))).
Proof.
  intros Hscope.
  assert (E : forall l p c g s,
            session_scope p c g s = true ->
            getRecentChatLogs created_at (clear_memory d userId chatId) userId
              (requested_chat chatId) l p c g s = []).
  { intros l p c g s H. unfold session_scope in H.
    apply andb_true_iff in H as [H1 H2].
    apply negb_true_iff in H1, H2.
    unfold getRecentChatLogs. rewrite H1, H2.
    unfold newest, clear_memory, requested_chat. simpl.
    rewrite (filter_complement
               (fun r => (cl_user_id r =? userId)%string
                         && (cl_chat_id r
                             =? match or_else chatId (Some "default") with
                                | Some c => c
                                | None => "default"
                                end)%string)).
    simpl. rewrite sql_limit_nil. reflexivity. }
  split; [apply E; exact Hscope | split; [|split]].
  - unfold history. rewrite E; reflexivity.
  - reflexivity.
  - intros r Hin Hother. unfold clear_memory. simpl.
    apply filter_In. split; [exact Hin|].
    apply negb_true_iff, andb_false_iff.
    destruct Hother as [H | H]; [left | right]; apply String.eqb_neq; exact H.
Qed.

Lemma sort_by_snoc_first {A : Type} (le : A -> A -> bool) (l : list A) (x : A) :
  (forall y, In y l -> le y x = false) ->
  sort_by le (l ++ [x]) = x :: sort_by le l.
Proof.
  induction l as [|y l IH]; intros H; simpl; [reflexivity|].
  rewrite IH by (intros z Hz; apply H; right; exact Hz).
  simpl. rewrite (H y (or_introl eq_refl)). reflexivity.
Qed.

(** X18: a message appended by appendChatLog whose creation time is later
    than that of every stored row is the last of the recent messages of its
    session, for every limit other than 0. *)
Theorem appended_message_is_the_latest (rt : runtime) (userId chatId : string)
  (r : role) (content logPlatform : string) (rawResponse : option string)
  (logType : chat_type) (logGroup logSender senderName : option string)
  (w : world) (limit : Z) (platform : option string)
  (chatType : option chat_type) (groupId senderId : option string) :
  session_scope platform chatType groupId senderId = true ->
  limit <> 0%Z ->
  (forall old,
     In old (chat_logs (db w)) ->
     (created_at (logged_row rt (tick w) userId chatId r content logPlatform
                    rawResponse logType logGroup logSender senderName)
      <=? created_at old)%string = false) ->
  chat_logs (db (world_of (appendChatLog rt userId chatId r content logPlatform
                             rawResponse logType logGroup logSender senderName
                             w)))
  = chat_logs (db w)
    ++ [logged_row rt (tick w) userId chatId r content logPlatform rawResponse
          logType logGroup logSender senderName]
  /\ exists earlier,
       getRecentChatLogs created_at
         (db (world_of (appendChatLog rt userId chatId r content logPlatform
                          rawResponse logType logGroup logSender senderName w)))
         userId chatId limit platform chatType groupId senderId
       = earlier ++ [{| h_role := r; h_content := content |}].
Proof.
  intros Hscope Hlimit Hnew.
  split; [reflexivity|].
  unfold session_scope in Hscope.
  apply andb_true_iff in Hscope as [H1 H2]. apply negb_true_iff in H1, H2.
  unfold getRecentChatLogs. rewrite H1, H2.
  unfold newest, appendChatLog, bind, next_tick, modify_db, world_of. simpl.
  fold (logged_row rt (tick w) userId chatId r content logPlatform rawResponse
          logType logGroup logSender senderName).
  set (new := logged_row rt (tick w) userId chatId r content logPlatform
                rawResponse logType logGroup logSender senderName) in *.
  rewrite filter_app. simpl. rewrite !String.eqb_refl. simpl.
  rewrite sort_by_snoc_first.
  - unfold sql_limit. simpl skipn.
    destruct (Z.ltb_spec limit 0) as [Hneg | Hpos].
    + simpl. eexists. reflexivity.
    + destruct (Z.to_nat limit) as [|n] eqn:En; [lia|].
      simpl. eexists. reflexivity.
  - intros y Hy. apply filter_In in Hy as [Hy _].
    unfold newest_log_first. apply Hnew. exact Hy.
Qed.

Lemma firstn_pages {A : Type} (a b : nat) (l : list A) :
  firstn a l ++ firstn b (skipn a l) = firstn (a + b) l.
Proof.
  revert l. induction a as [|a IH]; intros l; simpl; [reflexivity|].
  destruct l as [|x l]; simpl; [rewrite firstn_nil; reflexivity|].
  rewrite IH. reflexivity.
Qed.

(** X19: the pages of getChatLogsForUser tile the log: a page of [a] rows
    from the start followed by the page of [b] rows at offset [a] is the
    page of [a + b] rows from the start, and every row on a page belongs to
    the tenant. *)
Theorem log_pages_tile (d : database) (userId : string)
  (chatId : option string) (a b : Z) :
  (0 <= a)%Z -> (0 <= b)%Z ->
  getChatLogsForUser created_at d userId chatId (Some a) (Some 0%Z)
  ++ getChatLogsForUser created_at d userId chatId (Some b) (Some a)
  = getChatLogsForUser created_at d userId chatId (Some (a + b)%Z) (Some 0%Z)
  /\ Forall (fun r => cl_user_id r = userId)
        (getChatLogsForUser created_at d userId chatId (Some b) (Some a)).
Proof.
  intros Ha Hb. unfold getChatLogsForUser, newest, sql_limit.
  destruct (Z.ltb_spec a 0); [lia|].
  destruct (Z.ltb_spec b 0); [lia|].
  destruct (Z.ltb_spec (a + b) 0); [lia|].
  rewrite Z2Nat.inj_add by assumption.
  split.
  - destruct (otruthy chatId); simpl skipn; apply firstn_pages.
  - apply Forall_forall. intros r Hr.
    destruct (otruthy chatId);
      apply In_firstn_skipn in Hr;
      apply sort_by_In in Hr; apply filter_In in Hr as [_ Hr];
      [apply andb_true_iff in Hr as [Hr _]|]; apply String.eqb_eq; exact Hr.
Qed.

End Stamps.

Lemma cleared_session_has_no_history_witness :
  getRecentChatLogs stamp (clear_memory db_with_logs "alice" None) "alice"
    (requested_chat None) 10 (Some "playground") (Some Private) None None
  = [].
Proof.
  exact (proj1 (cleared_session_has_no_history stamp db_with_logs "alice" None
                  10 (Some "playground") (Some Private) None None eq_refl)).
Defined.

Example clearing_keeps_the_other_sessions :
  map cl_id (chat_logs (clear_memory db_with_logs "alice" None))
  = ["003"; "004"].
Proof. reflexivity. Qed.

Lemma appended_message_is_the_latest_witness :
  exists earlier,
    getRecentChatLogs stamp
      (db (world_of (appendChatLog steady_runtime "alice" "default" RoleUser
                       "And now?" "playground" None Private None None None
                       (start db_with_logs))))
      "alice" "default" 10 (Some "playground") (Some Private) None None
    = earlier ++ [{| h_role := RoleUser; h_content := "And now?" |}].
Proof.
  refine (proj2 (appended_message_is_the_latest stamp steady_runtime "alice"
                   "default" RoleUser "And now?" "playground" None Private
                   None None None (start db_with_logs) 10 (Some "playground")
                   (Some Private) None None eq_refl _ _)).
  - discriminate.
  - intros old Hold. simpl in Hold.
    destruct Hold as [<- | [<- | [<- | [<- | []]]]]; reflexivity.
Defined.

Lemma log_pages_tile_witness :
  getChatLogsForUser stamp db_with_logs "alice" None (Some 1%Z) (Some 0%Z)
  ++ getChatLogsForUser stamp db_with_logs "alice" None (Some 1%Z) (Some 1%Z)
  = getChatLogsForUser stamp db_with_logs "alice" None (Some 2%Z) (Some 0%Z).
Proof.
  refine (proj1 (log_pages_tile stamp db_with_logs "alice" None 1 1 _ _)); lia.
Defined.

Example recent_messages_of_a_session :
  getRecentChatLogs stamp db_with_logs "alice" "default" 10 (Some "playground")
    (Some Private) None None
  = [{| h_role := RoleUser; h_content := "Hi" |};
     {| h_role := RoleModel; h_content := "Hello!" |}].
Proof. reflexivity. Qed.

End ChatLogFacts.

(* ------------------------------------------------------------------ *)
(** ** File storage *)

Module FileFacts.
Import JsString Order Db Gemini FileStorage Views Cases.
Import OrderFacts ToolFacts PersonalityFacts.

Lemma own_file_spec (id userId : string) (f : media_file) :
  own_file id userId f = true <-> mf_id f = id /\ mf_user_id f = Some userId.
Proof.
  unfold own_file. rewrite andb_true_iff, String.eqb_eq, sql_eq_Some. tauto.
Qed.

Lemma unique_id (l : list media_file) (a b : media_file) :
  NoDup (map mf_id l) -> In a l -> In b l -> mf_id a = mf_id b -> a = b.
Proof.
  induction l as [|x l IH]; simpl; intros Hnd Ha Hb E; [destruct Ha|].
  inversion Hnd as [|? ? Hx Hl]; subst.
  destruct Ha as [<- | Ha], Hb as [<- | Hb]; auto.
  - destruct Hx. rewrite E. apply in_map. exact Hb.
  - destruct Hx. rewrite <- E. apply in_map. exact Ha.
Qed.

(** The loop of the retention job, for any list of rows to delete. *)
Lemma cleanup_loop (fs : file_system) (olds : list media_file) :
  forall (s : store) (n : Z),
    media_files (fst (fold_left (cleanup_step fs) olds (s, n)))
    = filter (fun f => negb (existsb (fun o => (mf_id f =? mf_id o)%string) olds))
             (media_files s)
    /\ snd (fold_left (cleanup_step fs) olds (s, n))
       = (n + Z.of_nat (length olds))%Z
    /\ (forall e, In e (disk s) -> ~ In (fst e) (map mf_file_path olds) ->
                  In e (disk (fst (fold_left (cleanup_step fs) olds (s, n))))).
Proof.
  induction olds as [|o olds IH]; intros s n.
  - simpl. split; [|split; [lia | auto]].
    symmetry. apply filter_all. reflexivity.
  - cbn [fold_left].
    pose (s1 := {| media_files :=
                     filter (fun f => negb (mf_id f =? mf_id o)%string)
                            (media_files s);
                   disk :=
                     if existsSync (disk s) (mf_file_path o)
                        && negb (unlink_refused fs (mf_file_path o))
                     then unlinked (mf_file_path o) (disk s)
                     else disk s |}).
    change (cleanup_step fs (s, n) o) with (s1, (n + 1)%Z).
    destruct (IH s1 (n + 1)%Z) as (Ht & Hn & Hd).
    split; [|split].
    + rewrite Ht. unfold s1. cbn [media_files].
      clear. induction (media_files s) as [|f l IHl]; simpl; [reflexivity|].
      destruct (mf_id f =? mf_id o)%string; simpl; [exact IHl|].
      destruct (existsb _ olds); simpl; [exact IHl | rewrite IHl; reflexivity].
    + rewrite Hn. cbn [length]. lia.
    + intros e He Hno. apply Hd.
      * unfold s1. cbn [disk].
        destruct (existsSync (disk s) (mf_file_path o)
                  && negb (unlink_refused fs (mf_file_path o))); [|exact He].
        unfold unlinked. apply filter_In. split; [exact He|].
        apply negb_true_iff, String.eqb_neq. intros E. apply Hno.
        left. symmetry. exact E.
      * intros Hin. apply Hno. right. exact Hin.
Qed.

(** X20: with identifiers that are unique, the retention job deletes from
    media_files exactly the rows older than the cutoff that are not
    permanent and returns their number; a permanent file is never deleted;
    and on disk it removes no file but those of the deleted rows. *)
Theorem retention_spares_permanent_files (fs : file_system) (s : store)
  (cutoff : string) :
  NoDup (map mf_id (media_files s)) ->
  media_files (fst (cleanupOldFiles fs s cutoff))
  = filter (fun f => negb (expired cutoff f)) (media_files s)
  /\ snd (cleanupOldFiles fs s cutoff)
     = Z.of_nat (length (filter (expired cutoff) (media_files s)))
  /\ (forall f, In f (media_files s) -> ztruthy (mf_is_permanent f) = true ->
                In f (media_files (fst (cleanupOldFiles fs s cutoff))))
  /\ (forall e, In e (disk s) ->
                ~ In (fst e)
                     (map mf_file_path (filter (expired cutoff) (media_files s))) ->
                In e (disk (fst (cleanupOldFiles fs s cutoff)))).
Proof.
  intros Hnd. unfold cleanupOldFiles.
  destruct (cleanup_loop fs (filter (expired cutoff) (media_files s)) s 0)
    as (Ht & Hn & Hd).
  assert (Hrows : media_files
                    (fst (fold_left (cleanup_step fs)
                            (filter (expired cutoff) (media_files s)) (s, 0%Z)))
                  = filter (fun f => negb (expired cutoff f)) (media_files s)).
  { rewrite Ht. apply filter_ext_in. intros f Hf. f_equal.
    destruct (expired cutoff f) eqn:E.
    - apply existsb_exists. exists f. split.
      + apply filter_In. auto.
      + apply String.eqb_refl.
    - apply existsb_none. intros o Ho. apply filter_In in Ho as [Ho Eo].
      apply String.eqb_neq. intros Hid.
      rewrite (unique_id _ f o Hnd Hf Ho Hid) in E. congruence. }
  split; [exact Hrows | split; [rewrite Hn; lia | split; [|exact Hd]]].
  intros f Hf Hp. rewrite Hrows. apply filter_In. split; [exact Hf|].
  unfold expired, ztruthy in *.
  destruct (mf_is_permanent f) as [n|]; [|discriminate].
  rewrite (proj1 (negb_true_iff _) Hp), andb_false_r. reflexivity.
Qed.

Lemma retention_spares_permanent_files_witness :
  media_files (fst (cleanupOldFiles plain_fs uploads "2026-02-20T12:00:00.000Z"))
  = filter (fun f => negb (expired "2026-02-20T12:00:00.000Z" f))
           (media_files uploads).
Proof.
  refine (proj1 (retention_spares_permanent_files plain_fs uploads
                   "2026-02-20T12:00:00.000Z" _)).
  repeat constructor; simpl; intuition discriminate.
Defined.

Example retention_on_the_samples :
  map mf_id (media_files
               (fst (cleanupOldFiles plain_fs uploads "2026-02-20T12:00:00.000Z")))
  = ["f2"]
  /\ snd (cleanupOldFiles plain_fs uploads "2026-02-20T12:00:00.000Z") = 2%Z.
Proof. split; reflexivity. Qed.

Lemma ascii_compare_refl (c : ascii) : Ascii.compare c c = Eq.
Proof. unfold Ascii.compare. apply N.compare_refl. Qed.

Lemma same_day_is_older (date time rest : string) :
  (date +++ " " +++ time <? date +++ "T" +++ rest)%string = true.
Proof.
  unfold String.ltb.
  induction date as [|c date IH]; simpl.
  - reflexivity.
  - rewrite ascii_compare_refl. exact IH.
Qed.

(** X21: the retention job compares the stored creation time, written
    with a space between date and time, with the ISO form of the cutoff,
    written with a T: a file that is not permanent and was created on the
    calendar day of the cutoff is deleted whatever its time of day. *)
Theorem retention_cuts_the_whole_day (fs : file_system) (s : store)
  (date time rest : string) (f : media_file) :
  In f (media_files s) ->
  mf_created_at f = date +++ " " +++ time ->
  ztruthy (mf_is_permanent f) = false ->
  expired (date +++ "T" +++ rest) f = true
  /\ ~ In f (media_files (fst (cleanupOldFiles fs s (date +++ "T" +++ rest)))).
Proof.
  intros Hin Hc Hp.
  assert (E : expired (date +++ "T" +++ rest) f = true).
  { unfold expired. rewrite Hc, same_day_is_older. simpl.
    unfold ztruthy in Hp. destruct (mf_is_permanent f) as [n|]; [|reflexivity].
    apply negb_false_iff. exact Hp. }
  split; [exact E|].
  unfold cleanupOldFiles.
  destruct (cleanup_loop fs (filter (expired (date +++ "T" +++ rest))
                               (media_files s)) s 0) as (Ht & _).
  rewrite Ht. intros H. apply filter_In in H as [_ H].
  apply negb_true_iff in H.
  rewrite (proj2 (existsb_exists _ _)) in H; [discriminate|].
  exists f. split; [apply filter_In; auto | apply String.eqb_refl].
Qed.

Lemma retention_cuts_the_whole_day_witness :
  expired ("2026-02-20" +++ "T" +++ "12:00:00.000Z")
    (upload "f3" "bob" "audio/ogg" "audios" "2026-02-20 23:30:00" 0)
  = true.
Proof.
  refine (proj1 (retention_cuts_the_whole_day plain_fs uploads "2026-02-20"
                   "23:30:00" "12:00:00.000Z"
                   (upload "f3" "bob" "audio/ogg" "audios" "2026-02-20 23:30:00" 0)
                   _ eq_refl eq_refl)).
  simpl. tauto.
Defined.

(** X22: when the files of a tenant carry the category of their mime
    type, as saveFile stores it, the totals of getFileStats are the number
    of the tenant's files and the sum of their recorded sizes, and the
    statistics list the four categories in order. *)
Theorem stats_cover_every_file (s : store) (userId : string) :
  (forall f, In f (media_files s) -> mf_user_id f = Some userId ->
             mf_category f = getCategoryFromMimeType (mf_mime_type f)) ->
  totalFiles (getFileStats s userId) = Z.of_nat (length (files_of s userId))
  /\ totalSize (getFileStats s userId) = size_of (files_of s userId)
  /\ map fst (byCategory (getFileStats s userId)) = categories.
Proof.
  intros H. unfold getFileStats, categories, count_and_size, files_of. simpl.
  split; [|split; [|reflexivity]].
  - induction (media_files s) as [|f l IH]; [reflexivity|].
    assert (IH' := IH (fun g Hg => H g (or_intror Hg))). clear IH.
    cbn [filter].
    destruct (sql_eq (mf_user_id f) (Some userId)) eqn:E.
    + rewrite (H f (or_introl eq_refl) (proj1 (sql_eq_Some _ _) E)).
      unfold getCategoryFromMimeType.
      destruct (prefix "image/" (mf_mime_type f));
        [|destruct (prefix "video/" (mf_mime_type f));
          [|destruct (prefix "audio/" (mf_mime_type f))]];
        cbn [String.eqb Ascii.eqb Bool.eqb andb length];
        rewrite ?Nat2Z.inj_succ; lia.
    + rewrite !andb_false_r. exact IH'.
  - induction (media_files s) as [|f l IH]; [reflexivity|].
    assert (IH' := IH (fun g Hg => H g (or_intror Hg))). clear IH.
    cbn [filter].
    destruct (sql_eq (mf_user_id f) (Some userId)) eqn:E.
    + rewrite (H f (or_introl eq_refl) (proj1 (sql_eq_Some _ _) E)).
      unfold getCategoryFromMimeType, size_of in *.
      destruct (prefix "image/" (mf_mime_type f));
        [|destruct (prefix "video/" (mf_mime_type f));
          [|destruct (prefix "audio/" (mf_mime_type f))]];
        cbn [String.eqb Ascii.eqb Bool.eqb andb fold_right];
        destruct (mf_file_size f); lia.
    + rewrite !andb_false_r. exact IH'.
Qed.

Lemma stats_cover_every_file_witness :
  totalFiles (getFileStats uploads "alice")
  = Z.of_nat (length (files_of uploads "alice")).
Proof.
  refine (proj1 (stats_cover_every_file uploads "alice" _)).
  intros f Hf _. simpl in Hf.
  destruct Hf as [<- | [<- | [<- | []]]]; reflexivity.
Defined.

Example stats_of_the_samples :
  getFileStats uploads "alice"
  = {| totalFiles := 2; totalSize := 6;
       byCategory :=
         [("images", {| cs_count := 1; cs_size := 3 |});
          ("videos", {| cs_count := 0; cs_size := 0 |});
          ("audios", {| cs_count := 0; cs_size := 0 |});
          ("documents", {| cs_count := 1; cs_size := 3 |})] |}.
Proof. reflexivity. Qed.

Lemma existsSync_written (path content : string) (files : list (string * string)) :
  existsSync (written path content files) path = true
  /\ readFileSync (written path content files) path = Some content.
Proof.
  unfold existsSync, readFileSync, written. simpl.
  rewrite String.eqb_refl. split; reflexivity.
Qed.

(** X23: a file saved by saveFile is found again under its identifier by
    its tenant, with the category of its mime type (one of the four
    categories), its size and the flag not permanent; its content is read
    back as written; and no other tenant finds or reads it. *)
Theorem saved_file_is_found (fs : file_system) (s s' : store) (id now : string)
  (buffer originalName mimeType userId : string)
  (platform chatId messageId : option string) (r : saved_file) :
  saveFile fs s id now buffer originalName mimeType userId platform chatId
    messageId = (s', Normal r) ->
  (exists row,
     getFileById s' id userId = Some row
     /\ mf_category row = getCategoryFromMimeType mimeType
     /\ In (mf_category row) categories
     /\ mf_file_size row = Some (Z.of_nat (String.length buffer))
     /\ mf_is_permanent row = Some 0%Z
     /\ mf_file_path row = sf_filePath r)
  /\ readFileContent s' id userId = Some buffer
  /\ (forall other, other <> userId ->
                    getFileById s' id other = None
                    /\ readFileContent s' id other = None).
Proof.
  unfold saveFile. intros H.
  destruct (write_refused fs _); [discriminate|].
  destruct (existsb (fun f => (mf_id f =? id)%string) (media_files s)) eqn:E;
    [discriminate|].
  injection H as <- <-.
  assert (Hold : existsb (own_file id userId) (media_files s) = false).
  { apply existsb_none. intros f Hf. unfold own_file.
    rewrite (existsb_false_In _ _ E f Hf). reflexivity. }
  assert (Hget : forall other row,
            own_file id other row = true ->
            find (own_file id other) (media_files s ++ [row]) = Some row).
  { intros other row Hrow. apply find_snoc_new; [|exact Hrow].
    apply existsb_none. intros f Hf. unfold own_file.
    rewrite (existsb_false_In _ _ E f Hf). reflexivity. }
  split; [|split].
  - eexists. unfold getFileById. cbn [media_files].
    rewrite Hget by (unfold own_file; simpl; rewrite !String.eqb_refl; reflexivity).
    split; [reflexivity|]. cbn.
    repeat split.
    unfold getCategoryFromMimeType.
    destruct (prefix "image/" mimeType);
      [|destruct (prefix "video/" mimeType);
        [|destruct (prefix "audio/" mimeType)]]; simpl; tauto.
  - unfold readFileContent, getFileById. cbn [media_files disk].
    rewrite Hget by (unfold own_file; simpl; rewrite !String.eqb_refl; reflexivity).
    cbn [mf_file_path].
    match goal with
    | |- context [existsSync (written ?path ?content ?files) ?path] =>
        destruct (existsSync_written path content files) as [-> ->]
    end.
    reflexivity.
  - intros other Hother.
    match goal with
    | |- getFileById ?st _ _ = None /\ _ =>
        assert (Hnone : getFileById st id other = None)
    end.
    { unfold getFileById. cbn [media_files].
      apply find_none_forall. intros f Hf.
      apply in_app_or in Hf as [Hf | [<- | []]].
      - unfold own_file. rewrite (existsb_false_In _ _ E f Hf). reflexivity.
      - unfold own_file. simpl.
        rewrite (proj2 (String.eqb_neq userId other)) by congruence.
        apply andb_false_r. }
    split; [exact Hnone|].
    unfold readFileContent. rewrite Hnone. reflexivity.
Qed.

Lemma saved_file_is_found_witness :
  readFileContent
    (fst (saveFile plain_fs uploads "f4" "2026-03-01 10:00:00" "xyz" "cat.png"
            "image/png" "alice" None None None))
    "f4" "alice"
  = Some "xyz".
Proof.
  refine (proj1 (proj2 (saved_file_is_found plain_fs uploads _ "f4"
                          "2026-03-01 10:00:00" "xyz" "cat.png" "image/png"
                          "alice" None None None
                          {| sf_id := "f4"; sf_filename := "f4.png";
                             sf_category := "images";
                             sf_filePath := "/srv/data/media/images/f4.png";
                             sf_fileSize := 3 |} _))).
  reflexivity.
Defined.

(** X24: a file id that is unknown, or that belongs to another tenant, is
    out of reach: it is neither found nor read, deleteFile and
    toggleFilePermanent answer false, and the store stays as it was. *)
Theorem foreign_file_is_out_of_reach (fs : file_system) (s : store)
  (id userId : string) :
  (forall f, In f (media_files s) -> mf_id f = id ->
             mf_user_id f <> Some userId) ->
  getFileById s id userId = None
  /\ readFileContent s id userId = None
  /\ deleteFile fs s id userId = (s, Normal false)
  /\ toggleFilePermanent fs s id userId = (s, false).
Proof.
  intros H.
  assert (Hnone : getFileById s id userId = None).
  { unfold getFileById. apply find_none_forall. intros f Hf.
    destruct (own_file id userId f) eqn:E; [|reflexivity].
    apply own_file_spec in E as [Hid Hu]. destruct (H f Hf Hid Hu). }
  unfold readFileContent, deleteFile, toggleFilePermanent.
  rewrite Hnone. repeat split.
Qed.

Lemma foreign_file_is_out_of_reach_witness :
  deleteFile plain_fs uploads "f3" "alice" = (uploads, Normal false).
Proof.
  refine (proj1 (proj2 (proj2 (foreign_file_is_out_of_reach plain_fs uploads
                                 "f3" "alice" _)))).
  intros f Hf Hid. simpl in Hf.
  destruct Hf as [<- | [<- | [<- | []]]]; simpl in *; congruence.
Defined.

Lemma existsSync_unlinked (path : string) (files : list (string * string)) :
  existsSync (unlinked path files) path = false.
Proof.
  unfold existsSync, unlinked. apply existsb_none. intros e He.
  apply filter_In in He as [_ He]. apply negb_true_iff. exact He.
Qed.

(** X25: after a successful deleteFile the record is gone for its tenant,
    its physical file no longer exists, and every other record is still
    stored. *)
Theorem deleted_file_is_gone (fs : file_system) (s s' : store)
  (id userId : string) :
  deleteFile fs s id userId = (s', Normal true) ->
  getFileById s' id userId = None
  /\ readFileContent s' id userId = None
  /\ (exists file,
        getFileById s id userId = Some file
        /\ existsSync (disk s') (mf_file_path file) = false)
  /\ (forall f, In f (media_files s') <->
                In f (media_files s) /\ own_file id userId f = false).
Proof.
  unfold deleteFile. intros H.
  destruct (getFileById s id userId) as [file|] eqn:E; [|discriminate].
  destruct (existsSync (disk s) (mf_file_path file)
            && unlink_refused fs (mf_file_path file)); [discriminate|].
  injection H as <-.
  assert (Hnone : getFileById
                    {| media_files :=
                         filter (fun f => negb (own_file id userId f))
                                (media_files s);
                       disk := unlinked (mf_file_path file) (disk s) |}
                    id userId = None).
  { unfold getFileById. cbn [media_files]. apply find_none_forall.
    intros f Hf. apply filter_In in Hf as [_ Hf].
    apply negb_true_iff. exact Hf. }
  split; [exact Hnone | split; [|split]].
  - unfold readFileContent. rewrite Hnone. reflexivity.
  - exists file. split; [reflexivity|]. cbn [disk]. apply existsSync_unlinked.
  - intros f. cbn [media_files]. rewrite filter_In, negb_true_iff. tauto.
Qed.

Lemma deleted_file_is_gone_witness :
  getFileById (fst (deleteFile plain_fs uploads "f1" "alice")) "f1" "alice"
  = None.
Proof.
  refine (proj1 (deleted_file_is_gone plain_fs uploads _ "f1" "alice" _)).
  reflexivity.
Defined.




Example permanent_file_is_moved :
  map (fun f => (mf_id f, mf_file_path f, mf_is_permanent f))
      (media_files (fst (toggleFilePermanent plain_fs uploads "f1" "alice")))
  = [("f1", "/srv/data/media/images/permanent/f1.bin", Some 1%Z);
     ("f2", "/srv/data/media/documents/f2.bin", Some 1%Z);
     ("f3", "/srv/data/media/audios/f3.bin", Some 0%Z)].
Proof. reflexivity. Qed.

End FileFacts.

(* ------------------------------------------------------------------ *)
(** ** Routes: system logs, keys, memories, tools *)

Module RouteFacts.
Import JsString ModelDiscovery Order Db Gemini Statements Scenario Routes Views.
Import Cases OrderFacts ToolFacts CascadeFacts CandidateFacts PersonalityFacts.

Lemma last_n_all {A : Type} (n : nat) (l : list A) :
  (length l <= n)%nat -> last_n n l = l.
Proof.
  intros H. unfold last_n.
  replace (length l - n)%nat with 0%nat by lia. reflexivity.
Qed.

Lemma last_n_length {A : Type} (n : nat) (l : list A) :
  (length (last_n n l) <= n)%nat.
Proof. unfold last_n. rewrite length_skipn. lia. Qed.

Lemma last_n_cons {A : Type} (n : nat) (x : A) (l : list A) :
  (n <= length l)%nat -> last_n n (x :: l) = last_n n l.
Proof.
  intros H. unfold last_n. cbn [length].
  replace (S (length l) - n)%nat with (S (length l - n)) by lia. reflexivity.
Qed.

Lemma last_n_last_n {A : Type} (m n : nat) (l : list A) :
  (m <= n)%nat -> last_n m (last_n n l) = last_n m l.
Proof.
  intros H. unfold last_n. rewrite length_skipn, skipn_skipn. f_equal. lia.
Qed.

(** Shifting the oldest entry out of a buffer that is one too long does
    not change the last [n] entries of what follows. *)
Lemma shift_keeps_last {A : Type} (n : nat) (l r : list A) :
  (length l <= S n)%nat ->
  last_n n ((if (n <? length l)%nat then tl l else l) ++ r) = last_n n (l ++ r).
Proof.
  intros H. destruct (Nat.ltb_spec n (length l)) as [Hlt | Hle]; [|reflexivity].
  destruct l as [|x l]; [reflexivity|]. cbn [tl app].
  symmetry. apply last_n_cons. rewrite length_app. cbn [length] in *. lia.
Qed.

Lemma captureLog_length (systemLogs : list log_entry) (now : string)
  (type : log_type) (args : list (completion string)) :
  (length systemLogs <= MAX_SYSTEM_LOGS)%nat ->
  (length (captureLog systemLogs now type args) <= MAX_SYSTEM_LOGS)%nat.
Proof.
  intros H. unfold captureLog.
  destruct (rendered args) as [texts | message]; [|exact H].
  destruct (Nat.ltb_spec MAX_SYSTEM_LOGS
              (length (systemLogs
                       ++ [{| le_timestamp := now; le_type := type;
                              le_message := join " " texts |}])))
    as [Hlt | Hle]; [|exact Hle].
  rewrite length_app in *. cbn [length] in *.
  destruct systemLogs; cbn [app tl length] in *;
    [lia | rewrite length_app; cbn [length]; lia].
Qed.

Lemma after_calls_spec (calls : list log_call) :
  forall systemLogs,
    (length systemLogs <= MAX_SYSTEM_LOGS)%nat ->
    after_calls calls systemLogs
    = last_n MAX_SYSTEM_LOGS (systemLogs ++ logged calls).
Proof.
  induction calls as [|c calls IH]; intros logs H.
  - simpl. rewrite app_nil_r. symmetry. apply last_n_all. exact H.
  - unfold after_calls in *. cbn [fold_left logged flat_map].
    rewrite IH by (apply captureLog_length; exact H).
    fold (logged calls). unfold captureLog.
    destruct (rendered (lc_args c)) as [texts | message]; [|reflexivity].
    cbn [app]. rewrite shift_keeps_last.
    + rewrite <- app_assoc. reflexivity.
    + rewrite length_app. cbn [length]. lia.
Qed.

(** X27: whatever is logged, the buffer of system logs holds the last
    MAX_SYSTEM_LOGS entries that could be rendered, in order, and never
    more; GET /api/logs/terminal returns the last 200 of them, newest
    first; a call whose arguments cannot be rendered changes nothing. *)
Theorem system_logs_keep_the_latest (calls : list log_call) :
  after_calls calls [] = last_n MAX_SYSTEM_LOGS (logged calls)
  /\ (length (after_calls calls []) <= MAX_SYSTEM_LOGS)%nat
  /\ logs_terminal (after_calls calls []) = rev (last_n 200 (logged calls)).
Proof.
  assert (E : after_calls calls [] = last_n MAX_SYSTEM_LOGS (logged calls)).
  { rewrite after_calls_spec by (cbn [length]; lia). reflexivity. }
  split; [exact E | split].
  - rewrite E. apply last_n_length.
  - unfold logs_terminal. fold (last_n 200 (after_calls calls [])).
    rewrite E, last_n_last_n; [reflexivity|].
    unfold MAX_SYSTEM_LOGS. lia.
Qed.

Example a_failed_rendering_is_swallowed :
  after_calls
    [{| lc_now := "t1"; lc_type := LogInfo; lc_args := [Normal "Server"; Normal "up"] |};
     {| lc_now := "t2"; lc_type := LogError;
        lc_args := [Normal "bad"; Throw "Converting circular structure to JSON"] |}]
    []
  = [{| le_timestamp := "t1"; le_type := LogInfo; le_message := "Server up" |}].
Proof. reflexivity. Qed.

(** *** Tools *)

Lemma own_tool_spec (d : database) (userId id : string) (tool : tool) :
  own_tool d userId id = Some tool ->
  In tool (tools d) /\ tool_id tool = id /\ tool_user_id tool = Some userId.
Proof.
  unfold own_tool. intros H. apply find_some in H as [Hin H].
  apply andb_true_iff in H as [Hid Hu].
  apply String.eqb_eq in Hid. apply sql_eq_Some in Hu. auto.
Qed.

(** X28: the switches of the tools page govern what the turns declare.
    Once its owner has switched an active tool off, no turn of any tenant
    loads a tool with its id; once the owner has made a public tool
    admin-only, only turns of a tenant owning a tool with that id load it;
    after the owner's deletion no turn loads a tool of the owner with that
    id; and the switches of a tenant who does not own the tool change
    nothing. *)
Theorem tool_switches_govern_declarations (d : database) (ownerId id : string)
  (tool : tool) :
  own_tool d ownerId id = Some tool ->
  (tool_is_active tool <> 0%Z ->
   forall userId t,
     In t (load_custom_tools (api_tools_toggle d ownerId id) userId) ->
     tool_id t <> id)
  /\ (tool_is_admin_only tool = 0%Z ->
      forall userId t,
        In t (load_custom_tools (api_tools_toggle_admin d ownerId id) userId) ->
        tool_id t = id -> tool_user_id t = Some userId)
  /\ (forall userId t,
        In t (load_custom_tools (api_tools_delete d ownerId id) userId) ->
        tool_id t = id -> tool_user_id t <> Some ownerId)
  /\ (forall other,
        own_tool d other id = None ->
        api_tools_toggle d other id = d
        /\ api_tools_toggle_admin d other id = d).
Proof.
  intros Hown. split; [|split; [|split]].
  - intros Hactive userId t Hin Hid.
    unfold load_custom_tools, api_tools_toggle in Hin. rewrite Hown in Hin.
    cbn [tools with_tools] in Hin.
    apply filter_In in Hin as [Hin Hvis].
    apply in_map_iff in Hin as (t0 & <- & _).
    destruct (String.eqb_spec (tool_id t0) id) as [E | E]; [|congruence].
    unfold custom_tool_visible, flipped in Hvis. cbn in Hvis.
    rewrite (proj2 (Z.eqb_neq _ _) Hactive) in Hvis. discriminate.
  - intros Hpublic userId t Hin Hid.
    unfold load_custom_tools, api_tools_toggle_admin in Hin. rewrite Hown in Hin.
    cbn [tools with_tools] in Hin.
    apply filter_In in Hin as [Hin Hvis].
    apply in_map_iff in Hin as (t0 & <- & _).
    destruct (String.eqb_spec (tool_id t0) id) as [E | E].
    + unfold custom_tool_visible, flipped in Hvis. cbn in Hvis.
      rewrite Hpublic in Hvis. cbn in Hvis.
      apply andb_true_iff in Hvis as [_ Hvis]. apply sql_eq_Some. exact Hvis.
    + congruence.
  - intros userId t Hin Hid Hu.
    unfold load_custom_tools, api_tools_delete in Hin.
    cbn [tools with_tools] in Hin.
    apply filter_In in Hin as [Hin _]. apply filter_In in Hin as [_ Hin].
    rewrite Hid, Hu, String.eqb_refl in Hin. cbn in Hin.
    rewrite String.eqb_refl in Hin. discriminate.
  - intros other Hnone. unfold api_tools_toggle, api_tools_toggle_admin.
    rewrite Hnone. split; reflexivity.
Qed.

Lemma tool_switches_govern_declarations_witness :
  api_tools_toggle db_with_bobs_tool "alice" "t1" = db_with_bobs_tool
  /\ api_tools_toggle_admin db_with_bobs_tool "alice" "t1" = db_with_bobs_tool.
Proof.
  exact (proj2 (proj2 (proj2 (tool_switches_govern_declarations
                                db_with_bobs_tool "bob" "t1" bobs_tool eq_refl)))
               "alice" eq_refl).
Defined.

Example switched_off_tool_is_not_declared :
  load_custom_tools db_with_bobs_tool "alice" = [bobs_tool]
  /\ load_custom_tools (api_tools_toggle db_with_bobs_tool "bob" "t1") "alice" = []
  /\ load_custom_tools (api_tools_toggle db_with_bobs_tool "alice" "t1") "alice"
     = [bobs_tool].
Proof. repeat split. Qed.

(** *** Keys *)

Lemma sort_by_nil_inv {A : Type} (le : A -> A -> bool) (l : list A) :
  sort_by le l = [] -> l = [].
Proof.
  destruct l as [|x l]; [reflexivity|]. intros H. exfalso.
  assert (Hin : In x (sort_by le (x :: l))).
  { apply sort_by_In. left. reflexivity. }
  rewrite H in Hin. destruct Hin.
Qed.

(** X29: a key added through POST /api/keys is active at once: the next
    turn of its tenant iterates over it and does not fail for want of keys,
    and until discovery has run its candidates are the four default models;
    the keys the turns of other tenants iterate over are unchanged. *)
Theorem added_key_is_usable_at_once (d d' : database) (id userId secret : string) :
  api_keys_create d id userId (Some secret) = Some (d', Success) ->
  (exists k,
     In k (active_keys d' userId)
     /\ key_id k = id /\ key_secret k = secret
     /\ candidates_for "auto" "auto" k = default_models)
  /\ (forall rt chatId prompt media md n,
        outcome (result_of (chatWithGemini rt userId chatId prompt media md
                              {| db := d'; tick := n |}))
        <> Throw "No active Gemini API keys found")
  /\ (forall other, other <> userId ->
                    active_keys d' other = active_keys d other).
Proof.
  unfold api_keys_create. intros H.
  destruct (truthy secret) eqn:T; [|discriminate].
  destruct (existsb (fun k => (key_id k =? id)%string) (gemini_keys d));
    [discriminate|].
  injection H as <-.
  set (new := {| key_id := id; key_secret := secret; key_status := Some "active";
                 last_used_at := None; key_user_id := Some userId;
                 best_model := None; available_models := None |}).
  assert (Hin : In new (active_keys (with_gemini_keys d (gemini_keys d ++ [new]))
                          userId)).
  { unfold active_keys. apply sort_by_In. apply filter_In. split.
    - cbn [gemini_keys with_gemini_keys]. apply in_or_app. right. left.
      reflexivity.
    - cbn. rewrite String.eqb_refl. reflexivity. }
  split; [|split].
  - exists new. repeat split. exact Hin.
  - intros rt chatId prompt media md n.
    rewrite chatWithGemini_with_keys
      by (cbn [db]; intros E; rewrite E in Hin; destruct Hin).
    rewrite bind_result. unfold conclude.
    destruct (negb (truthy (responseText _))).
    + unfold ret, result_of. cbn. intros [= E].
    + destruct (trim _ =? "[NO_REPLY]")%string.
      * unfold ret, result_of. cbn. discriminate.
      * rewrite !bind_result. unfold ret, result_of. cbn. discriminate.
  - intros other Hother. unfold active_keys.
    cbn [gemini_keys with_gemini_keys]. rewrite filter_app. cbn [filter].
    replace (sql_eq (key_user_id new) (Some other)) with false.
    + cbn. rewrite app_nil_r. reflexivity.
    + cbn. symmetry. apply String.eqb_neq. congruence.
Qed.

Lemma added_key_is_usable_at_once_witness :
  exists k,
    In k (active_keys
            (with_gemini_keys empty_db
               [{| key_id := "k-1"; key_secret := "AIza-sample";
                   key_status := Some "active"; last_used_at := None;
                   key_user_id := Some "alice"; best_model := None;
                   available_models := None |}])
            "alice")
    /\ key_id k = "k-1" /\ key_secret k = "AIza-sample"
    /\ candidates_for "auto" "auto" k = default_models.
Proof.
  exact (proj1 (added_key_is_usable_at_once empty_db _ "k-1" "alice"
                  "AIza-sample" eq_refl)).
Defined.

(** *** Memories *)

(** X30: a memory added through POST /api/memories without a type is a
    core memory: it satisfies the WHERE clause of the memory query of every
    turn of its tenant, whatever the platform, the sender and the sharing,
    and of no turn of another tenant. *)
Theorem core_memory_is_recalled_everywhere (d d' : database)
  (id now userId text : string) :
  api_memories_create d id now userId (Some text) None = Some (d', Success) ->
  exists row,
    user_memories d' = user_memories d ++ [row]
    /\ mem_content row = text
    /\ forall other platform sender share,
         memory_selected other platform sender share row = true
         <-> other = userId.
Proof.
  unfold api_memories_create. intros H.
  destruct (truthy text); [|discriminate].
  destruct (existsb _ (user_memories d)); [discriminate|].
  injection H as <-.
  eexists. split; [reflexivity | split; [reflexivity|]].
  intros other platform sender share. unfold memory_selected. cbn.
  rewrite andb_true_r. rewrite String.eqb_eq. split; congruence.
Qed.

Lemma core_memory_is_recalled_everywhere_witness :
  exists row,
    user_memories
      (with_user_memories db_with_memories
         (user_memories db_with_memories
          ++ [{| mem_id := "m3"; mem_user_id := "alice";
                 mem_content := "Always answer in English.";
                 mem_created_at := "2026-03-01 10:00:00";
                 mem_memory_type := Some "core"; mem_platform := None;
                 mem_external_id := None |}]))
    = user_memories db_with_memories ++ [row]
    /\ mem_content row = "Always answer in English."
    /\ forall other platform sender share,
         memory_selected other platform sender share row = true
         <-> other = "alice".
Proof.
  exact (core_memory_is_recalled_everywhere db_with_memories _ "m3"
           "2026-03-01 10:00:00" "alice" "Always answer in English." eq_refl).
Defined.

End RouteFacts.
